(** * Book redistribution between libraries: a shallow embedding

    The development follows [library/services/redistribution.py],
    [library/models.py] and [library/management/commands/rebalance.py].

    - Python integers are [Z].
    - A database table is the list of its rows, in the order in which the
      database returns them; a query without [order_by] keeps that order,
      and a [GROUP BY] yields one group per key, by ascending key.
    - The schema constraints are the predicate [well_formed]. A statement
      that would break the check constraint of a holding or one of its
      foreign keys raises [IntegrityError]; a holding is identified by its
      library and book, the unique key of the table. The upper bound of an
      integer column is not modelled.
    - A Python [dict] is an association list in insertion order
      ([PyDict]); a Python [set] is a list without repetition, and the
      order in which a set difference is iterated is a parameter of the
      planners.
    - A Python [str] is the list of its code points. What the command
      needs of the interpreter, the character tables of its Unicode
      database and the limit on the digits of an integer, is a parameter
      of the command ([Interpreter]); [cpython_3_11] is CPython 3.11 with
      the tables of Unicode 14.0.0.
    - Exceptions are values of [exn]; a function that may raise returns a
      [result]. [_apply_plan] is atomic: when it raises, the database is
      the one it was given.
    - The manager objects carry their instance attributes; a method that
      mutates [self] returns the new object. *)

From Stdlib Require Import ZArith List Bool Lia String Ascii Permutation Sorted.
From Stdlib Require Import DecimalPos DecimalN.
Import ListNotations.
Open Scope Z_scope.

Set Implicit Arguments.

(* ================================================================== *)
(** * Exceptions *)

Inductive exn : Type :=
| KeyError
| IntegrityError
| ValueError.

Inductive result (A : Type) : Type :=
| Ok (a : A)
| Raise (e : exn).

Arguments Ok {A} a.
Arguments Raise {A} e.

Definition bind {A B : Type} (r : result A) (k : A -> result B) : result B :=
  match r with
  | Ok a => k a
  | Raise e => Raise e
  end.

Notation "'let*' x ':=' r 'in' k" := (bind r (fun x => k))
  (at level 10, x name, r at level 200, k at level 200).
Notation "'let*' ' pat ':=' r 'in' k" :=
  (bind r (fun x => match x with pat => k end))
  (at level 10, pat pattern, r at level 200, k at level 200).

Definition raised {A : Type} (r : result A) : bool :=
  match r with
  | Ok _ => false
  | Raise _ => true
  end.

(* ================================================================== *)
(** * Python dictionaries *)

Module PyDict.
Section Dict.
Variables K V : Type.
Variable K_dec : forall a b : K, {a = b} + {a <> b}.

Definition t : Type := list (K * V).

(** [d.get(k)] *)
Fixpoint get (d : t) (k : K) : option V :=
  match d with
  | [] => None
  | (k', v) :: d' => if K_dec k k' then Some v else get d' k
  end.

(** [d.get(k, default)] *)
Definition get_default (d : t) (k : K) (default : V) : V :=
  match get d k with
  | Some v => v
  | None => default
  end.

(** [d[k] = v]: an existing key keeps its position, a new key is
    appended. *)
Fixpoint set (d : t) (k : K) (v : V) : t :=
  match d with
  | [] => [(k, v)]
  | (k', v') :: d' =>
      if K_dec k k' then (k', v) :: d' else (k', v') :: set d' k v
  end.

Definition keys (d : t) : list K := map fst d.
Definition items (d : t) : list (K * V) := d.

(** [not d] *)
Definition is_empty (d : t) : bool :=
  match d with
  | [] => true
  | _ :: _ => false
  end.
End Dict.
End PyDict.

(* ================================================================== *)
(** * [sorted(l, key=...)]: a stable sort *)

Section Sorted.
Variable A : Type.
Variable le : A -> A -> bool.

Fixpoint insert_sorted (x : A) (l : list A) : list A :=
  match l with
  | [] => [x]
  | y :: l' => if le x y then x :: l else y :: insert_sorted x l'
  end.

(** Elements are inserted from the right, each before the first element
    that does not precede it: equal elements keep their order. *)
Fixpoint sorted (l : list A) : list A :=
  match l with
  | [] => []
  | x :: l' => insert_sorted x (sorted l')
  end.
End Sorted.

(** Comparison of the pairs returned by [sort_key]: Python compares tuples
    lexicographically. *)
Definition tuple_leb (a b : Z * Z) : bool :=
  (fst a <? fst b) || ((fst a =? fst b) && (snd a <=? snd b)).

(* ================================================================== *)
(** * [library/models.py] *)

Record Book : Type := mkBook {
  b_id : Z;
  b_year : Z;
  b_author_id : Z
}.

Record Library : Type := mkLibrary {
  l_id : Z;
  l_capacity : Z
}.

Record LibraryBook : Type := mkLibraryBook {
  lb_library_id : Z;
  lb_book_id : Z;
  lb_quantity : Z
}.

Record Database : Type := mkDatabase {
  Library_objects : list Library;
  Book_objects : list Book;
  LibraryBook_objects : list LibraryBook
}.

Definition key : Type := (Z * Z)%type.

Definition key_dec (a b : key) : {a = b} + {a <> b}.
Proof. decide equality; apply Z.eq_dec. Defined.

Definition lb_key (r : LibraryBook) : key := (lb_library_id r, lb_book_id r).

Definition has_key (k : key) (r : LibraryBook) : bool :=
  (lb_library_id r =? fst k) && (lb_book_id r =? snd k).

Definition mem (x : Z) (l : list Z) : bool := existsb (Z.eqb x) l.

(** [sum(h["quantity"] for h in rows)] and [Sum("quantity")]. *)
Definition sum_quantity (rows : list LibraryBook) : Z :=
  fold_right (fun h acc => lb_quantity h + acc) 0 rows.

(** The aggregates of the data model. *)
Definition holdings_of (db : Database) (book : Z) : list LibraryBook :=
  filter (fun h => lb_book_id h =? book) (LibraryBook_objects db).

Definition total (db : Database) (book : Z) : Z :=
  sum_quantity (holdings_of db book).

Definition covering (rows : list LibraryBook) : list Z :=
  nodup Z.eq_dec
    (map lb_library_id (filter (fun h => 0 <? lb_quantity h) rows)).

Definition coverage (db : Database) (book : Z) : Z :=
  Z.of_nat (List.length (covering (holdings_of db book))).

(** [Library.used_capacity] *)
Definition used_capacity (db : Database) (lib : Z) : Z :=
  sum_quantity
    (filter (fun h => lb_library_id h =? lib) (LibraryBook_objects db)).

(** The constraints the schema declares: the primary keys, the foreign keys
    of a holding, [uniq_library_book], and the non-negative fields. *)
Record well_formed (db : Database) : Prop := {
  wf_library_pk : NoDup (map l_id (Library_objects db));
  wf_book_pk : NoDup (map b_id (Book_objects db));
  wf_uniq_library_book : NoDup (map lb_key (LibraryBook_objects db));
  wf_library_fk : forall h, In h (LibraryBook_objects db) ->
      In (lb_library_id h) (map l_id (Library_objects db));
  wf_book_fk : forall h, In h (LibraryBook_objects db) ->
      In (lb_book_id h) (map b_id (Book_objects db));
  wf_quantity_non_negative : forall h, In h (LibraryBook_objects db) ->
      0 <= lb_quantity h;
  wf_capacity_non_negative : forall l, In l (Library_objects db) ->
      0 <= l_capacity l
}.

(* ================================================================== *)
(** * [library/services/redistribution.py] *)

Record Move : Type := mkMove {
  book_id : Z;
  from_library_id : Z;
  to_library_id : Z;
  quantity : Z
}.

Record Plan : Type := mkPlan {
  moves : list Move;
  total_moves : Z;
  books_considered : Z
}.

(** The three manager classes with their instance attributes. *)
Inductive Manager : Type :=
| RedistributionManager (dry_run : bool)
| CapacityAwareRedistributionManager
    (dry_run : bool) (_free_capacity : PyDict.t Z Z)
| PriorityRedistributionManager
    (dry_run : bool) (_free_capacity : PyDict.t Z Z)
    (priority : string) (author_ids : list Z).

Definition dry_run (self : Manager) : bool :=
  match self with
  | RedistributionManager d => d
  | CapacityAwareRedistributionManager d _ => d
  | PriorityRedistributionManager d _ _ _ => d
  end.

Definition free_capacity (self : Manager) : PyDict.t Z Z :=
  match self with
  | RedistributionManager _ => []
  | CapacityAwareRedistributionManager _ fc => fc
  | PriorityRedistributionManager _ fc _ _ => fc
  end.

Definition set_free_capacity (self : Manager) (fc : PyDict.t Z Z) : Manager :=
  match self with
  | RedistributionManager d => RedistributionManager d
  | CapacityAwareRedistributionManager d _ =>
      CapacityAwareRedistributionManager d fc
  | PriorityRedistributionManager d _ p a =>
      PriorityRedistributionManager d fc p a
  end.

(** [isinstance(self, CapacityAwareRedistributionManager)] *)
Definition is_capacity_aware (self : Manager) : bool :=
  match self with
  | RedistributionManager _ => false
  | _ => true
  end.

(** The [__init__] methods. *)
Definition new_RedistributionManager (dry : bool) : Manager :=
  RedistributionManager dry.

Definition new_CapacityAwareRedistributionManager (dry : bool) : Manager :=
  CapacityAwareRedistributionManager dry [].

Definition new_PriorityRedistributionManager
    (dry : bool) (priority : option string) (author_ids : option (list Z))
    : Manager :=
  PriorityRedistributionManager dry []
    (match priority with
     | Some p => if String.eqb p "" then "year_desc"%string else p
     | None => "year_desc"%string
     end)
    (match author_ids with
     | Some a => nodup Z.eq_dec a
     | None => []
     end).

(** [RedistributionManager._candidate_book_ids]: one group per book;
    [covered] counts the rows of the group with a positive quantity. The
    query has no [order_by], so SQL fixes no order for its groups; they
    come here by ascending book id, as from a [GROUP BY] that sorts its
    keys or walks the index on the book. *)
Definition _candidate_book_ids (nlibs : Z) (db : Database) : list Z :=
  filter
    (fun b =>
       let rows := holdings_of db b in
       let covered :=
         Z.of_nat (List.length (filter (fun h => 0 <? lb_quantity h) rows)) in
       (covered <? nlibs) && (0 <? sum_quantity rows))
    (sorted Z.leb
       (nodup Z.eq_dec (map lb_book_id (LibraryBook_objects db)))).

(** [sorted([h for h in holdings if h["quantity"] > 1],
            key=lambda x: -x["quantity"])] *)
Definition donors_of (holdings : list LibraryBook) : list LibraryBook :=
  sorted (fun x y => - lb_quantity x <=? - lb_quantity y)
    (filter (fun h => 1 <? lb_quantity h) holdings).

(** ** [RedistributionManager._apply_plan] *)

(** [d[k] = d.get(k, 0) + q] *)
Definition dict_add (d : PyDict.t key Z) (k : key) (q : Z) : PyDict.t key Z :=
  PyDict.set key_dec d k (PyDict.get_default key_dec d k 0 + q).

(** The body of the loop [for m in moves] on the pair [(inc, dec)]. *)
Definition aggregate_step (acc : PyDict.t key Z * PyDict.t key Z) (m : Move)
    : PyDict.t key Z * PyDict.t key Z :=
  (dict_add (fst acc) (to_library_id m, book_id m) (quantity m),
   dict_add (snd acc) (from_library_id m, book_id m) (quantity m)).

(** The dictionaries [inc] and [dec] after the first loop. *)
Definition aggregate (moves : list Move) : PyDict.t key Z * PyDict.t key Z :=
  fold_left aggregate_step moves ([], []).

Definition touched (inc dec : PyDict.t key Z) : list key :=
  nodup key_dec (PyDict.keys inc ++ PyDict.keys dec).

(** The queryset [rows]: the library is among the touched libraries and
    the book among the touched books. *)
Definition locked_rows (touched : list key) (table : list LibraryBook)
    : list LibraryBook :=
  filter
    (fun r => mem (lb_library_id r) (map fst touched)
              && mem (lb_book_id r) (map snd touched))
    table.

Definition by_key_of (rows : list LibraryBook) : PyDict.t key LibraryBook :=
  fold_left (fun d r => PyDict.set key_dec d (lb_key r) r) rows [].

Definition set_quantity (r : LibraryBook) (q : Z) : LibraryBook :=
  mkLibraryBook (lb_library_id r) (lb_book_id r) q.

(** [UPDATE ... SET quantity = quantity + delta] on the rows of key [k].
    A holding is identified by its library and book ([uniq_library_book]);
    the check [quantity_non_negative] rejects the statement. *)
Definition update_quantity (k : key) (delta : Z) (table : list LibraryBook)
    : result (list LibraryBook) :=
  if existsb (fun r => has_key k r && (lb_quantity r + delta <? 0)) table
  then Raise IntegrityError
  else Ok (map (fun r => if has_key k r
                         then set_quantity r (lb_quantity r + delta)
                         else r) table).

(** [LibraryBook.objects.bulk_create(to_create, ignore_conflicts=True)]:
    a row whose key is taken is skipped; the check constraint and the
    foreign keys are not conflicts. *)
Fixpoint bulk_create (lib_ids book_ids : list Z) (to_create : list LibraryBook)
    (table : list LibraryBook) : result (list LibraryBook) :=
  match to_create with
  | [] => Ok table
  | r :: to_create' =>
      if lb_quantity r <? 0 then Raise IntegrityError
      else if existsb (has_key (lb_key r)) table then
        bulk_create lib_ids book_ids to_create' table
      else if mem (lb_library_id r) lib_ids && mem (lb_book_id r) book_ids
      then bulk_create lib_ids book_ids to_create' (table ++ [r])
      else Raise IntegrityError
  end.

(** The loop over [inc.items()]. *)
Fixpoint apply_increments (by_key : PyDict.t key LibraryBook)
    (items : list (key * Z)) (table to_create : list LibraryBook)
    : result (list LibraryBook * list LibraryBook) :=
  match items with
  | [] => Ok (table, to_create)
  | ((lib_id, book), qty) :: items' =>
      match PyDict.get key_dec by_key (lib_id, book) with
      | Some row =>
          let* table' := update_quantity (lb_key row) qty table in
          apply_increments by_key items' table' to_create
      | None =>
          apply_increments by_key items' table
            (to_create ++ [mkLibraryBook lib_id book qty])
      end
  end.

(** The loop over [dec.items()]. *)
Fixpoint apply_decrements (items : list (key * Z)) (table : list LibraryBook)
    : result (list LibraryBook) :=
  match items with
  | [] => Ok table
  | (k, qty) :: items' =>
      let* table' := update_quantity k (- qty) table in
      apply_decrements items' table'
  end.

(** The method runs under [transaction.atomic]: when it raises, the
    database is the one it was given. *)
Definition _apply_plan (moves : list Move) (db : Database) : result Database :=
  let '(inc, dec) := aggregate moves in
  let rows := locked_rows (touched inc dec) (LibraryBook_objects db) in
  let by_key := by_key_of rows in
  let* '(table, to_create) :=
    apply_increments by_key (PyDict.items inc) (LibraryBook_objects db) [] in
  let* table' :=
    bulk_create (map l_id (Library_objects db)) (map b_id (Book_objects db))
      to_create table in
  let* table'' := apply_decrements (PyDict.items dec) table' in
  Ok (mkDatabase (Library_objects db) (Book_objects db) table'').

(** The end of both [rebalance] methods. *)
Definition finish (self : Manager) (db : Database) (moves : list Move)
    (considered : Z) : result (Plan * Manager * Database) :=
  let* db' := if dry_run self then Ok db else _apply_plan moves db in
  Ok (mkPlan moves (Z.of_nat (List.length moves)) considered, self, db').

(** ** [PriorityRedistributionManager]: the order of the books *)

Definition book_meta_of (base_ids : list Z) (db : Database) : PyDict.t Z Book :=
  fold_left (fun d b => PyDict.set Z.eq_dec d (b_id b) b)
    (filter (fun b => mem (b_id b) base_ids) (Book_objects db)) [].

Definition sort_key (priority : string) (author_ids : list Z)
    (book_meta : PyDict.t Z Book) (bid : Z) : result (Z * Z) :=
  match PyDict.get Z.eq_dec book_meta bid with
  | None => Raise KeyError
  | Some meta =>
      if String.eqb priority "author_first"
         && mem (b_author_id meta) author_ids
      then Ok (0, - b_year meta)
      else if String.eqb priority "year_desc" then Ok (1, - b_year meta)
      else Ok (2, b_id meta)
  end.

(** [sorted(base_ids, key=sort_key)]: the keys are computed first, one call
    per element, then the elements are sorted by their keys. *)
Fixpoint decorate (key_of : Z -> result (Z * Z)) (l : list Z)
    : result (list ((Z * Z) * Z)) :=
  match l with
  | [] => Ok []
  | x :: l' =>
      let* k := key_of x in
      let* rest := decorate key_of l' in
      Ok ((k, x) :: rest)
  end.

Definition sorted_by_key (key_of : Z -> result (Z * Z)) (l : list Z)
    : result (list Z) :=
  let* decorated := decorate key_of l in
  Ok (map snd (sorted (fun a b => tuple_leb (fst a) (fst b)) decorated)).

Definition ordered_book_ids (priority : string) (author_ids : list Z)
    (base_ids : list Z) (db : Database) : result (list Z) :=
  sorted_by_key (sort_key priority author_ids (book_meta_of base_ids db))
    base_ids.

Section Redistribution.

(** The order in which CPython iterates over the set [xs_set - ys_set],
    where the two sets were built from the sequences [xs] and [ys]. The
    language fixes no order; what it guarantees is that every element of
    the difference comes exactly once. *)
Variable set_difference_iter : list Z -> list Z -> list Z.
Hypothesis set_difference_NoDup :
  forall xs ys, NoDup (set_difference_iter xs ys).
Hypothesis set_difference_In :
  forall xs ys x,
    In x (set_difference_iter xs ys) <-> In x xs /\ ~ In x ys.

(** ** The base planner *)

(** The [while] loop of one donor. [rest] is [recipients[ri:]]; the
    result holds [covered], [recipients[ri:]] and [moves] at loop exit. *)
Fixpoint base_while (book donor can_move covered target_coverage : Z)
    (rest : list Z) (moves : list Move) : Z * list Z * list Move :=
  match rest with
  | [] => (covered, [], moves)
  | to_lib :: rest' =>
      if (0 <? can_move) && (covered <? target_coverage) then
        base_while book donor (can_move - 1) (covered + 1) target_coverage
          rest' (moves ++ [mkMove book donor to_lib 1])
      else (covered, rest, moves)
  end.

(** The [for donor in donors] loop with its [break]. *)
Fixpoint base_for (book target_coverage : Z) (donors : list LibraryBook)
    (covered : Z) (rest : list Z) (moves : list Move) : list Move :=
  match donors with
  | [] => moves
  | donor :: donors' =>
      let can_move := lb_quantity donor - 1 in
      let '(covered', rest', moves') :=
        base_while book (lb_library_id donor) can_move covered
          target_coverage rest moves in
      if target_coverage <=? covered' then moves'
      else base_for book target_coverage donors' covered' rest' moves'
  end.

(** [RedistributionManager._build_plan_for_book] *)
Definition base_build_plan_for_book (db : Database) (book nlibs : Z)
    : list Move :=
  let holdings := holdings_of db book in
  let total := sum_quantity holdings in
  if total =? 0 then []
  else
    let target_coverage := Z.min nlibs total in
    let has_set := covering holdings in
    let covered := Z.of_nat (List.length has_set) in
    if target_coverage <=? covered then []
    else
      let donors := donors_of holdings in
      let all_lib_ids := map l_id (Library_objects db) in
      let recipients := set_difference_iter all_lib_ids has_set in
      base_for book target_coverage donors covered recipients [].

(** ** The capacity-aware planner *)

(** [CapacityAwareRedistributionManager._compute_free_capacity] *)
Definition _compute_free_capacity (db : Database) : PyDict.t Z Z :=
  fold_left
    (fun d l =>
       PyDict.set Z.eq_dec d (l_id l)
         (l_capacity l - used_capacity db (l_id l)))
    (Library_objects db) [].

(** [if not self._free_capacity: self._compute_free_capacity()]: the map
    of the object after this statement. *)
Definition effective_capacity (fc : PyDict.t Z Z) (db : Database)
    : PyDict.t Z Z :=
  if PyDict.is_empty fc then _compute_free_capacity db else fc.

Fixpoint capacity_while (book donor can_move covered target_coverage : Z)
    (rest : list Z) (fc : PyDict.t Z Z) (moves : list Move)
    : result (Z * list Z * PyDict.t Z Z * list Move) :=
  match rest with
  | [] => Ok (covered, [], fc, moves)
  | to_lib :: rest' =>
      if (0 <? can_move) && (covered <? target_coverage) then
        match PyDict.get Z.eq_dec fc to_lib with
        | None => Raise KeyError
        | Some free =>
            if free <=? 0 then
              capacity_while book donor can_move covered target_coverage
                rest' fc moves
            else
              capacity_while book donor (can_move - 1) (covered + 1)
                target_coverage rest'
                (PyDict.set Z.eq_dec fc to_lib (free - 1))
                (moves ++ [mkMove book donor to_lib 1])
        end
      else Ok (covered, rest, fc, moves)
  end.

Fixpoint capacity_for (book target_coverage : Z)
    (donors : list LibraryBook) (covered : Z) (rest : list Z)
    (fc : PyDict.t Z Z) (moves : list Move)
    : result (list Move * PyDict.t Z Z) :=
  match donors with
  | [] => Ok (moves, fc)
  | donor :: donors' =>
      let can_move := lb_quantity donor - 1 in
      let* '(covered', rest', fc', moves') :=
        capacity_while book (lb_library_id donor) can_move covered
          target_coverage rest fc moves in
      if target_coverage <=? covered' then Ok (moves', fc')
      else capacity_for book target_coverage donors' covered' rest' fc'
             moves'
  end.

(** [CapacityAwareRedistributionManager._build_plan_for_book]; the second
    component is [self._free_capacity] when the method returns. *)
Definition capacity_build_plan_for_book (fc0 : PyDict.t Z Z)
    (db : Database) (book nlibs : Z)
    : result (list Move * PyDict.t Z Z) :=
  let fc := effective_capacity fc0 db in
  let holdings := holdings_of db book in
  let total := sum_quantity holdings in
  if total =? 0 then Ok ([], fc)
  else
    let target_coverage := Z.min nlibs total in
    let has_set := covering holdings in
    let covered := Z.of_nat (List.length has_set) in
    if target_coverage <=? covered then Ok ([], fc)
    else
      let donors := donors_of holdings in
      let all_lib_ids := PyDict.keys fc in
      let recipients_all := set_difference_iter all_lib_ids has_set in
      let recipients :=
        filter (fun lid => 0 <? PyDict.get_default Z.eq_dec fc lid 0)
          recipients_all in
      capacity_for book target_coverage donors covered recipients fc [].

(** [self._build_plan_for_book(book_id, nlibs)], resolved by the class
    of [self]. *)
Definition _build_plan_for_book (self : Manager) (db : Database)
    (book nlibs : Z) : result (list Move * Manager) :=
  match self with
  | RedistributionManager _ =>
      Ok (base_build_plan_for_book db book nlibs, self)
  | _ =>
      let* '(moves, fc) :=
        capacity_build_plan_for_book (free_capacity self) db book nlibs in
      Ok (moves, set_free_capacity self fc)
  end.

(** ** [rebalance] *)

(** The loop [for book_id in ...: considered += 1; moves.extend(...)]. *)
Fixpoint plan_books (self : Manager) (db : Database) (nlibs : Z)
    (book_ids : list Z) (moves : list Move) (considered : Z)
    : result (list Move * Z * Manager) :=
  match book_ids with
  | [] => Ok (moves, considered, self)
  | book :: book_ids' =>
      let* '(ms, self') := _build_plan_for_book self db book nlibs in
      plan_books self' db nlibs book_ids' (moves ++ ms) (considered + 1)
  end.

Definition nlibs_of (db : Database) : Z :=
  Z.of_nat (List.length (Library_objects db)).

(** [RedistributionManager.rebalance], inherited by
    [CapacityAwareRedistributionManager]. *)
Definition base_rebalance (self : Manager) (db : Database)
    : result (Plan * Manager * Database) :=
  let nlibs := nlibs_of db in
  let* '(moves, considered, self') :=
    plan_books self db nlibs (_candidate_book_ids nlibs db) [] 0 in
  finish self' db moves considered.

(** [PriorityRedistributionManager.rebalance] *)
Definition priority_rebalance (self : Manager) (priority : string)
    (author_ids : list Z) (db : Database)
    : result (Plan * Manager * Database) :=
  let nlibs := nlibs_of db in
  let base_ids := _candidate_book_ids nlibs db in
  let* ordered := ordered_book_ids priority author_ids base_ids db in
  let* '(moves, considered, self') :=
    plan_books self db nlibs ordered [] 0 in
  finish self' db moves considered.

(** [self.rebalance()]: the plan, the manager object and the database
    after the call. *)
Definition rebalance (self : Manager) (db : Database)
    : result (Plan * Manager * Database) :=
  match self with
  | PriorityRedistributionManager _ _ priority author_ids =>
      priority_rebalance self priority author_ids db
  | _ => base_rebalance self db
  end.

(** ** [library/management/commands/rebalance.py] *)

(** A Python [str] is the list of its code points. *)
Definition str : Type := list N.

(** What the interpreter brings along: the character tables of its
    Unicode database, under the names of CPython's macros, and
    [sys.get_int_max_str_digits()], where 0 stands for no limit. *)
Record Interpreter : Type := mkInterpreter {
  Py_UNICODE_ISSPACE : N -> bool;
  Py_UNICODE_ISDIGIT : N -> bool;
  Py_UNICODE_TODECIMAL : N -> option N;
  int_max_str_digits : N
}.

Variable py : Interpreter.

(** The options of the command line, as [argparse] hands them over. *)
Record Options : Type := mkOptions {
  opt_apply : bool;
  opt_capacity_aware : bool;
  opt_priority : option string;
  opt_authors : str
}.

(** [s.split(",")] *)
Fixpoint split_comma (s : str) : list str :=
  match s with
  | [] => [[]]
  | c :: s' =>
      if (c =? 44)%N then [] :: split_comma s'
      else match split_comma s' with
           | [] => [[c]]
           | x :: xs => (c :: x) :: xs
           end
  end.

Fixpoint lstrip (s : str) : str :=
  match s with
  | [] => []
  | c :: s' => if Py_UNICODE_ISSPACE py c then lstrip s' else s
  end.

Fixpoint rstrip (s : str) : str :=
  match s with
  | [] => []
  | c :: s' =>
      match rstrip s' with
      | [] => if Py_UNICODE_ISSPACE py c then [] else [c]
      | r => c :: r
      end
  end.

(** [x.strip()] *)
Definition strip (s : str) : str := rstrip (lstrip s).

(** [x.isdigit()] *)
Definition isdigit (s : str) : bool :=
  match s with
  | [] => false
  | _ :: _ => forallb (Py_UNICODE_ISDIGIT py) s
  end.

(** What [int] does to a text that is not ASCII before it reads it: white
    space becomes a space and a decimal digit its ASCII digit; at any
    other character from 127 on the text ends with a question mark. *)
Fixpoint transform_decimal_and_space (s : str) : str :=
  match s with
  | [] => []
  | c :: s' =>
      if (c <? 127)%N then c :: transform_decimal_and_space s'
      else if Py_UNICODE_ISSPACE py c
      then 32%N :: transform_decimal_and_space s'
      else match Py_UNICODE_TODECIMAL py c with
           | Some d => (48 + d)%N :: transform_decimal_and_space s'
           | None => [63%N]
           end
  end.

Definition to_ascii (s : str) : str :=
  if forallb (fun c => c <? 128)%N s then s
  else transform_decimal_and_space s.

(** The white space that [int] skips around the number: tab to carriage
    return, and the space. *)
Definition Py_ISSPACE (c : N) : bool :=
  ((9 <=? c) && (c <=? 13) || (c =? 32))%N.

Definition ascii_digit (c : N) : bool := ((48 <=? c) && (c <=? 57))%N.

Fixpoint skip_spaces (s : str) : str :=
  match s with
  | [] => []
  | c :: s' => if Py_ISSPACE c then skip_spaces s' else s
  end.

(** The sign, [+] or [-], if there is one. *)
Definition read_sign (s : str) : Z * str :=
  match s with
  | [] => (1, s)
  | c :: s' =>
      if (c =? 43)%N then (1, s')
      else if (c =? 45)%N then (-1, s')
      else (1, s)
  end.

Definition starts_with (c : N) (s : str) : bool :=
  match s with
  | [] => false
  | c' :: _ => (c' =? c)%N
  end.

(** The digits of the number, with single underscores between them: the
    value read so far, the number of digits, the character before, and
    what follows the number. [None] at a doubled underscore. *)
Fixpoint scan_digits (s : str) (prev value digits : N)
    : option (N * N * N * str) :=
  match s with
  | [] => Some (value, digits, prev, [])
  | c :: s' =>
      if ascii_digit c
      then scan_digits s' c (10 * value + (c - 48))%N (digits + 1)%N
      else if (c =? 95)%N
      then if (prev =? 95)%N then None
           else scan_digits s' c value digits
      else Some (value, digits, prev, s)
  end.

(** The limit on the length of a number applies from 641 digits on. *)
Definition too_many_digits (digits : N) : bool :=
  ((640 <? digits) && (0 <? int_max_str_digits py)
   && (int_max_str_digits py <? digits))%N.

(** [int(x)] for a [str]: white space, a sign, digits with single
    underscores between them, white space; anything else is a
    [ValueError]. *)
Definition int (x : str) : result Z :=
  let '(sign, s) := read_sign (skip_spaces (to_ascii x)) in
  if starts_with 95 s then Raise ValueError
  else
    match scan_digits s 0 0 0 with
    | None => Raise ValueError
    | Some (value, digits, prev, rest) =>
        if (prev =? 95)%N then Raise ValueError
        else if too_many_digits digits then Raise ValueError
        else if (digits =? 0)%N then Raise ValueError
        else match skip_spaces rest with
             | [] => Ok (sign * Z.of_N value)
             | _ :: _ => Raise ValueError
             end
    end.

(** [[int(x) for x in items if x.strip().isdigit()]]: the items are taken
    from left to right, and the first one that [int] refuses ends the
    comprehension with its exception. *)
Fixpoint int_of_each (items : list str) : result (list Z) :=
  match items with
  | [] => Ok []
  | x :: items' =>
      if isdigit (strip x)
      then let* n := int x in
           let* ns := int_of_each items' in
           Ok (n :: ns)
      else int_of_each items'
  end.

(** [[int(x) for x in opts["authors"].split(",") if x.strip().isdigit()]] *)
Definition authors_of (opts : Options) : result (list Z) :=
  int_of_each (split_comma (opt_authors opts)).

Definition truthy_str (s : option string) : bool :=
  match s with
  | Some p => negb (String.eqb p "")
  | None => false
  end.

Definition truthy_list (l : list Z) : bool :=
  match l with
  | [] => false
  | _ :: _ => true
  end.

(** The manager [mgr] that [Command.handle] constructs; the list of the
    authors is computed first, and no manager is built when it raises. *)
Definition handle_manager (opts : Options) : result Manager :=
  let dry := negb (opt_apply opts) in
  let* authors := authors_of opts in
  if opt_capacity_aware opts
     && (truthy_str (opt_priority opts) || truthy_list authors)
  then Ok (new_PriorityRedistributionManager dry (opt_priority opts)
             (Some authors))
  else if opt_capacity_aware opts
  then Ok (new_CapacityAwareRedistributionManager dry)
  else Ok (new_RedistributionManager dry).

(** [Command.handle] up to [plan = mgr.rebalance()]; the report that it
    writes afterwards is left out. *)
Definition handle (opts : Options) (db : Database)
    : result (Plan * Manager * Database) :=
  let* mgr := handle_manager opts in
  rebalance mgr db.

End Redistribution.

(* ================================================================== *)
(** * The quantities the properties speak about *)

(** The copies that the moves selected by [P] carry. *)
Definition moved (P : Move -> bool) (ms : list Move) : Z :=
  fold_right (fun m acc => (if P m then quantity m else 0) + acc) 0 ms.

Definition move_source (m : Move) : key := (from_library_id m, book_id m).
Definition move_target (m : Move) : key := (to_library_id m, book_id m).

Definition key_eqb (a b : key) : bool :=
  (fst a =? fst b) && (snd a =? snd b).

(** The copies held by the rows whose key satisfies [P]. *)
Definition held (P : key -> bool) (table : list LibraryBook) : Z :=
  sum_quantity (filter (fun r => P (lb_key r)) table).

(** The quantity of one holding; an absent row counts as zero. *)
Definition holding (db : Database) (k : key) : Z :=
  held (key_eqb k) (LibraryBook_objects db).

(** The sum of the values of a dictionary over the keys in [P]. *)
Definition dict_sum (P : key -> bool) (d : PyDict.t key Z) : Z :=
  fold_right (fun kv acc => (if P (fst kv) then snd kv else 0) + acc) 0 d.

(** The capacity of a library, by its id. *)
Definition capacity_of (db : Database) (lib : Z) : Z :=
  match find (fun l => l_id l =? lib) (Library_objects db) with
  | Some l => l_capacity l
  | None => 0
  end.

(** The copies that the donor rows of library [l] can give away. *)
Definition spare (l : Z) (donors : list LibraryBook) : Z :=
  fold_right
    (fun d acc =>
       (if lb_library_id d =? l then Z.max 0 (lb_quantity d - 1) else 0) + acc)
    0 donors.

(** The unit moves of one book from one donor to the libraries [taken]. *)
Definition units (book donor : Z) (taken : list Z) : list Move :=
  map (fun t => mkMove book donor t 1) taken.

(** What the loops of either planner guarantee for the moves [new] of one
    book, given the donor rows and the recipients still to be tried. *)
Definition book_plan (book : Z) (donors : list LibraryBook) (rest : list Z)
    (new : list Move) : Prop :=
  Forall (fun m => book_id m = book /\ quantity m = 1
                   /\ In (from_library_id m) (map lb_library_id donors)
                   /\ In (to_library_id m) rest) new
  /\ (NoDup rest -> NoDup (map to_library_id new))
  /\ (forall l, moved (fun m => from_library_id m =? l) new <= spare l donors).

(** The tracked free capacity of a library, zero for an unknown one. *)
Definition tracked (self : Manager) (db : Database) (l : Z) : Z :=
  PyDict.get_default Z.eq_dec
    (effective_capacity (free_capacity self) db) l 0.

(** The libraries a planner draws its recipients from. *)
Definition recipient_domain (self : Manager) (db : Database) : list Z :=
  match self with
  | RedistributionManager _ => map l_id (Library_objects db)
  | _ => PyDict.keys (effective_capacity (free_capacity self) db)
  end.

(** The rows of a book that hold more than one copy. *)
Definition donor_rows (db : Database) (book : Z) : list LibraryBook :=
  filter (fun h => 1 <? lb_quantity h) (holdings_of db book).

(** A unit move from a donor of its book to a library of [dom] that holds
    no copy of the book. *)
Definition planned_move (db : Database) (dom : list Z) (m : Move) : Prop :=
  quantity m = 1
  /\ In (from_library_id m) (map lb_library_id (donor_rows db (book_id m)))
  /\ In (to_library_id m) dom
  /\ ~ In (to_library_id m) (covering (holdings_of db (book_id m))).

Definition book_result (db : Database) (dom : list Z) (book : Z)
    (new : list Move) : Prop :=
  Forall (fun m => book_id m = book /\ planned_move db dom m) new
  /\ NoDup (map to_library_id new)
  /\ (forall l, moved (fun m => from_library_id m =? l) new
                <= spare l (donor_rows db book)).

Definition run_plan (db : Database) (dom : list Z) (ms : list Move) : Prop :=
  Forall (planned_move db dom) ms
  /\ (forall b, NoDup (map to_library_id
                         (filter (fun m => book_id m =? b) ms)))
  /\ (forall l b, moved (fun m => key_eqb (l, b) (move_source m)) ms
                  <= spare l (donor_rows db b)).

(** The order in which [rebalance] processes the candidate books. *)
Definition book_order (self : Manager) (db : Database) : result (list Z) :=
  let base_ids := _candidate_book_ids (nlibs_of db) db in
  match self with
  | PriorityRedistributionManager _ _ priority author_ids =>
      ordered_book_ids priority author_ids base_ids db
  | _ => Ok base_ids
  end.

(** The keys of the rows of a table, and the check constraint on them. *)
Definition keys_of (table : list LibraryBook) : list key := map lb_key table.

Definition non_negative (table : list LibraryBook) : Prop :=
  Forall (fun r => 0 <= lb_quantity r) table.

(** The rows that [_apply_plan] hands to [bulk_create]: one for each key
    of [inc] that [by_key] does not know. *)
Definition created_rows (by_key : PyDict.t key LibraryBook)
    (items : list (key * Z)) : list LibraryBook :=
  map (fun kv => mkLibraryBook (fst (fst kv)) (snd (fst kv)) (snd kv))
    (filter (fun kv => match PyDict.get key_dec by_key (fst kv) with
                       | Some _ => false
                       | None => true
                       end) items).

(** The map of the manager names only libraries of the database. *)
Definition known_libraries (db : Database) (self : Manager) : Prop :=
  incl (PyDict.keys (free_capacity self)) (map l_id (Library_objects db)).

(** The map of the manager does not overstate the room a library has. *)
Definition tracked_sound (db : Database) (self : Manager) : Prop :=
  forall l v, In (l, v) (free_capacity self) ->
    v <= capacity_of db l - used_capacity db l.

(** Every library holds no more than its capacity. *)
Definition within_capacity (db : Database) : Prop :=
  forall lib, In lib (Library_objects db) ->
    used_capacity db (l_id lib) <= l_capacity lib.



(** Two calls of [rebalance] on the same manager object, one after the
    other; the result holds the two plans. *)
Definition run_twice (set_difference_iter : list Z -> list Z -> list Z)
    (self : Manager) (db : Database) : result (Plan * Plan) :=
  let* '(plan1, self1, db1) := rebalance set_difference_iter self db in
  let* '(plan2, _, _) := rebalance set_difference_iter self1 db1 in
  Ok (plan1, plan2).

(** The plan and the manager object that a call returns. *)
Definition planned (r : result (Plan * Manager * Database))
    : option (Plan * Manager) :=
  match r with
  | Ok (plan, self', _) => Some (plan, self')
  | Raise _ => None
  end.

(** The record of a book in the [book_meta] of a priority run. *)
Definition meta_of (db : Database) (bid : Z) : option Book :=
  PyDict.get Z.eq_dec
    (book_meta_of (_candidate_book_ids (nlibs_of db) db) db) bid.

(** [author_first] as [sort_key] orders two books: a book of a listed
    author before any other book, two books of listed authors by
    descending year, two other books by ascending id. *)
Definition author_first_before (author_ids : list Z) (x y : Book) : bool :=
  match mem (b_author_id x) author_ids, mem (b_author_id y) author_ids with
  | true, true => b_year y <=? b_year x
  | true, false => true
  | false, true => false
  | false, false => b_id x <=? b_id y
  end.

(** [author_first] as the specification words it: the other books come
    newer-first as well. *)
Definition newer_first_before (author_ids : list Z) (x y : Book) : bool :=
  match mem (b_author_id x) author_ids, mem (b_author_id y) author_ids with
  | true, false => true
  | false, true => false
  | _, _ => b_year y <=? b_year x
  end.

(** A list of books is in the order [before]. *)
Fixpoint in_order (before : Book -> Book -> bool) (l : list Book) : bool :=
  match l with
  | [] => true
  | x :: l' => forallb (before x) l' && in_order before l'
  end.

(** ** Example databases *)

(** Three libraries; library 1 holds the five copies of book 7. *)
Definition three_libraries : Database :=
  mkDatabase
    [mkLibrary 1 10; mkLibrary 2 10; mkLibrary 3 10]
    [mkBook 7 2000 1]
    [mkLibraryBook 1 7 5].

(** No library, no book, no holding. *)
Definition no_libraries : Database := mkDatabase [] [] [].

(** Library 2 has room for one copy; library 1 holds two copies of
    book 7. *)
Definition one_free_slot : Database :=
  mkDatabase
    [mkLibrary 1 10; mkLibrary 2 1]
    [mkBook 7 2000 1]
    [mkLibraryBook 1 7 2].

(** Library 2 has room for one copy; library 1 holds two copies of each
    of the books 7 (year 2000) and 8 (year 2020). *)
Definition two_books_one_slot : Database :=
  mkDatabase
    [mkLibrary 1 10; mkLibrary 2 1]
    [mkBook 7 2000 1; mkBook 8 2020 2]
    [mkLibraryBook 1 7 2; mkLibraryBook 1 8 2].

(** Library 2 is full with its copy of book 9; library 1 holds two copies
    of book 7. *)
Definition full_recipient : Database :=
  mkDatabase
    [mkLibrary 1 10; mkLibrary 2 1]
    [mkBook 7 2000 1; mkBook 9 1990 2]
    [mkLibraryBook 1 7 2; mkLibraryBook 2 9 1].

(** Library 2 has room for one copy; library 1 holds two copies of book 1
    (year 2000) and of book 2 (year 2020), both by author 5. *)
Definition older_book_first : Database :=
  mkDatabase
    [mkLibrary 1 10; mkLibrary 2 1]
    [mkBook 1 2000 5; mkBook 2 2020 5]
    [mkLibraryBook 1 1 2; mkLibraryBook 1 2 2].



(** Before an intake: library 2 has room for one copy and is empty,
    library 1 holds the only copy of book 7. *)
Definition before_intake : Database :=
  mkDatabase
    [mkLibrary 1 10; mkLibrary 2 1]
    [mkBook 7 2000 1; mkBook 9 1990 2]
    [mkLibraryBook 1 7 1].

(** After the intake of one copy of book 7 into library 1 and of one copy
    of book 9 into library 2, which is now full. *)
Definition after_intake : Database :=
  mkDatabase
    [mkLibrary 1 10; mkLibrary 2 1]
    [mkBook 7 2000 1; mkBook 9 1990 2]
    [mkLibraryBook 1 7 2; mkLibraryBook 2 9 1].

(** What a run with [--apply] returns on [three_libraries]. *)
Definition three_libraries_plan : Plan :=
  mkPlan [mkMove 7 1 2 1; mkMove 7 1 3 1] 2 1.

Definition three_libraries_after : Database :=
  mkDatabase
    [mkLibrary 1 10; mkLibrary 2 10; mkLibrary 3 10]
    [mkBook 7 2000 1]
    [mkLibraryBook 1 7 3; mkLibraryBook 2 7 1; mkLibraryBook 3 7 1].

(** One order a set difference can be iterated in: ascending ids. *)
Definition ascending_difference (xs ys : list Z) : list Z :=
  sorted Z.leb (nodup Z.eq_dec (filter (fun x => negb (mem x ys)) xs)).

(** ** The interpreter of the examples *)

Definition in_ranges (ranges : list (N * N)) (c : N) : bool :=
  existsb (fun r => (fst r <=? c) && (c <=? snd r))%N ranges.

(** The white space of Unicode 14.0.0, by ranges of code points. *)
Definition unicode_spaces : list (N * N) :=
  [(9, 13); (28, 32); (133, 133); (160, 160); (5760, 5760); (8192, 8202);
   (8232, 8233); (8239, 8239); (8287, 8287); (12288, 12288)]%N.

(** The decimal digits: each range starts at a digit zero and holds
    whole runs of the ten digits. *)
Definition unicode_decimals : list (N * N) :=
  [(48, 57); (1632, 1641); (1776, 1785); (1984, 1993); (2406, 2415);
   (2534, 2543); (2662, 2671); (2790, 2799); (2918, 2927); (3046, 3055);
   (3174, 3183); (3302, 3311); (3430, 3439); (3558, 3567); (3664, 3673);
   (3792, 3801); (3872, 3881); (4160, 4169); (4240, 4249); (6112, 6121);
   (6160, 6169); (6470, 6479); (6608, 6617); (6784, 6793); (6800, 6809);
   (6992, 7001); (7088, 7097); (7232, 7241); (7248, 7257); (42528, 42537);
   (43216, 43225); (43264, 43273); (43472, 43481); (43504, 43513);
   (43600, 43609); (44016, 44025); (65296, 65305); (66720, 66729);
   (68912, 68921); (69734, 69743); (69872, 69881); (69942, 69951);
   (70096, 70105); (70384, 70393); (70736, 70745); (70864, 70873);
   (71248, 71257); (71360, 71369); (71472, 71481); (71904, 71913);
   (72016, 72025); (72784, 72793); (73040, 73049); (73120, 73129);
   (92768, 92777); (92864, 92873); (93008, 93017); (120782, 120831);
   (123200, 123209); (123632, 123641); (125264, 125273);
   (130032, 130041)]%N.

(** The digits without a decimal value: superscripts, subscripts,
    circled digits and the like. *)
Definition unicode_other_digits : list (N * N) :=
  [(178, 179); (185, 185); (4969, 4977); (6618, 6618); (8304, 8304);
   (8308, 8313); (8320, 8329); (9312, 9320); (9332, 9340); (9352, 9360);
   (9450, 9450); (9461, 9469); (9471, 9471); (10102, 10110); (10112, 10120);
   (10122, 10130); (68160, 68163); (69216, 69224); (69714, 69722);
   (127232, 127242)]%N.

Definition unicode_isspace (c : N) : bool := in_ranges unicode_spaces c.

Definition unicode_isdigit (c : N) : bool :=
  in_ranges unicode_decimals c || in_ranges unicode_other_digits c.

Definition unicode_todecimal (c : N) : option N :=
  match
    find (fun r => (fst r <=? c) && (c <=? snd r))%N unicode_decimals
  with
  | Some r => Some ((c - fst r) mod 10)%N
  | None => None
  end.

(** CPython 3.11: the tables of Unicode 14.0.0, and numbers of at most
    4300 digits. *)
Definition cpython_3_11 : Interpreter :=
  mkInterpreter unicode_isspace unicode_isdigit unicode_todecimal 4300.

(** The code points of a text in Latin-1. *)
Definition str_of (s : string) : str :=
  map N_of_ascii (list_ascii_of_string s).

(** The code points of a decimal numeral. *)
Fixpoint codes (d : Decimal.uint) : str :=
  match d with
  | Decimal.Nil => []
  | Decimal.D0 d' => 48%N :: codes d'
  | Decimal.D1 d' => 49%N :: codes d'
  | Decimal.D2 d' => 50%N :: codes d'
  | Decimal.D3 d' => 51%N :: codes d'
  | Decimal.D4 d' => 52%N :: codes d'
  | Decimal.D5 d' => 53%N :: codes d'
  | Decimal.D6 d' => 54%N :: codes d'
  | Decimal.D7 d' => 55%N :: codes d'
  | Decimal.D8 d' => 56%N :: codes d'
  | Decimal.D9 d' => 57%N :: codes d'
  end.

(** [str(n)] for a natural number. *)
Definition decimal (n : N) : str := codes (N.to_uint n).

(** [",".join(items)] *)
Fixpoint join_comma (items : list str) : str :=
  match items with
  | [] => []
  | [x] => x
  | x :: items' => x ++ 44%N :: join_comma items'
  end.

(** ** Further quantities *)

(** The copies that the donor rows can give away in all. *)
Definition spare_total (donors : list LibraryBook) : Z :=
  fold_right (fun d acc => Z.max 0 (lb_quantity d - 1) + acc) 0 donors.

(** The loops of the base planner for one book, over given recipients. *)
Definition plan_over (db : Database) (book nlibs : Z) (recipients : list Z)
    : list Move :=
  let holdings := holdings_of db book in
  let total := sum_quantity holdings in
  if total =? 0 then []
  else
    let target_coverage := Z.min nlibs total in
    let covered := Z.of_nat (List.length (covering holdings)) in
    if target_coverage <=? covered then []
    else base_for book target_coverage (donors_of holdings) covered
           recipients [].

(** The libraries of the map [fc] that hold no copy of the book and have
    room, in the order in which the planner tries them. *)
Definition roomy_recipients
    (set_difference_iter : list Z -> list Z -> list Z)
    (fc : PyDict.t Z Z) (db : Database) (book : Z) : list Z :=
  filter (fun lid => 0 <? PyDict.get_default Z.eq_dec fc lid 0)
    (set_difference_iter (PyDict.keys fc) (covering (holdings_of db book))).

(** The moves of one book are drawn from the donors in their order: the
    moves out of the first donor, then those out of the second, and on. *)
Inductive drawn (book : Z) : list LibraryBook -> list Move -> Prop :=
| drawn_nil donors : drawn book donors []
| drawn_cons d donors taken new :
    drawn book donors new ->
    drawn book (d :: donors) (units book (lb_library_id d) taken ++ new).

(** A donor with more copies comes before one with fewer. *)
Definition richer_first (x y : LibraryBook) : Prop :=
  lb_quantity y <= lb_quantity x.

(** Every book has reached its target coverage. *)
Definition saturated (db : Database) : Prop :=
  forall b, Z.min (nlibs_of db) (total db b) <= coverage db b.

(** [self] with its [dry_run] attribute set to [d]. *)
Definition with_dry_run (d : bool) (self : Manager) : Manager :=
  match self with
  | RedistributionManager _ => RedistributionManager d
  | CapacityAwareRedistributionManager _ fc =>
      CapacityAwareRedistributionManager d fc
  | PriorityRedistributionManager _ fc p a =>
      PriorityRedistributionManager d fc p a
  end.

(** [year_desc] as [sort_key] orders two books. *)
Definition newest_first (x y : Book) : bool := b_year y <=? b_year x.

(** ** Further example databases *)

(** Five libraries; library 1 holds two and library 2 three copies of
    book 7. *)
Definition two_donors : Database :=
  mkDatabase
    [mkLibrary 1 10; mkLibrary 2 10; mkLibrary 3 10; mkLibrary 4 10;
     mkLibrary 5 10]
    [mkBook 7 2000 1]
    [mkLibraryBook 1 7 2; mkLibraryBook 2 7 3].

Definition two_donors_plan : Plan :=
  mkPlan [mkMove 7 2 3 1; mkMove 7 2 4 1; mkMove 7 1 5 1] 3 1.

Definition two_donors_after : Database :=
  mkDatabase
    [mkLibrary 1 10; mkLibrary 2 10; mkLibrary 3 10; mkLibrary 4 10;
     mkLibrary 5 10]
    [mkBook 7 2000 1]
    [mkLibraryBook 1 7 1; mkLibraryBook 2 7 1; mkLibraryBook 3 7 1;
     mkLibraryBook 4 7 1; mkLibraryBook 5 7 1].

(* ================================================================== *)
(** * Dictionaries *)

Section DictFacts.
Variables K V : Type.
Variable K_dec : forall a b : K, {a = b} + {a <> b}.
Implicit Types (d : PyDict.t K V) (k : K) (v : V).

Lemma get_set_same d k v : PyDict.get K_dec (PyDict.set K_dec d k v) k = Some v.
Proof.
  induction d as [|[k' v'] d IH]; simpl.
  - destruct (K_dec k k); congruence.
  - destruct (K_dec k k') as [->|Hne]; simpl.
    + destruct (K_dec k' k'); congruence.
    + destruct (K_dec k k'); [contradiction|exact IH].
Qed.

Lemma get_set_other d k k0 v :
  k0 <> k -> PyDict.get K_dec (PyDict.set K_dec d k v) k0 = PyDict.get K_dec d k0.
Proof.
  intros Hne. induction d as [|[k' v'] d IH]; simpl.
  - destruct (K_dec k0 k); [contradiction|reflexivity].
  - destruct (K_dec k k') as [->|Hkk]; simpl.
    + destruct (K_dec k0 k'); [contradiction|reflexivity].
    + destruct (K_dec k0 k'); [reflexivity|exact IH].
Qed.

Lemma get_None_iff d k : PyDict.get K_dec d k = None <-> ~ In k (PyDict.keys d).
Proof.
  induction d as [|[k' v'] d IH]; simpl.
  - tauto.
  - destruct (K_dec k k') as [->|Hne].
    + split; [discriminate|intros H; exfalso; apply H; now left].
    + rewrite IH. split; intros H; [intros [E|E]; [congruence|tauto]|tauto].
Qed.

Lemma get_Some_In d k v : PyDict.get K_dec d k = Some v -> In (k, v) d.
Proof.
  induction d as [|[k' v'] d IH]; simpl; [discriminate|].
  destruct (K_dec k k') as [->|Hne].
  - intros [= ->]. now left.
  - intros H. right. now apply IH.
Qed.

Lemma In_keys_get d k : In k (PyDict.keys d) -> exists v, PyDict.get K_dec d k = Some v.
Proof.
  intros H. destruct (PyDict.get K_dec d k) eqn:E; [eauto|].
  apply get_None_iff in E. contradiction.
Qed.

Lemma keys_set_present d k v :
  In k (PyDict.keys d) -> PyDict.keys (PyDict.set K_dec d k v) = PyDict.keys d.
Proof.
  induction d as [|[k' v'] d IH]; simpl; [tauto|].
  intros H. destruct (K_dec k k') as [->|Hne]; simpl; [reflexivity|].
  f_equal. apply IH. destruct H; [congruence|assumption].
Qed.

Lemma keys_set_absent d k v :
  ~ In k (PyDict.keys d) -> PyDict.set K_dec d k v = d ++ [(k, v)].
Proof.
  induction d as [|[k' v'] d IH]; simpl; [reflexivity|].
  intros H. destruct (K_dec k k') as [->|Hne]; [tauto|].
  f_equal. apply IH. tauto.
Qed.

Lemma In_keys_set d k v k0 :
  In k0 (PyDict.keys (PyDict.set K_dec d k v)) <-> k0 = k \/ In k0 (PyDict.keys d).
Proof.
  destruct (in_dec K_dec k (PyDict.keys d)) as [Hin|Hnin].
  - rewrite keys_set_present by assumption.
    split; [tauto|intros [->|H]; assumption].
  - rewrite keys_set_absent by assumption.
    unfold PyDict.keys. rewrite map_app, in_app_iff. simpl.
    split; [intros [H|[H|[]]]; auto|intros [->|H]; auto].
Qed.

Lemma NoDup_keys_set d k v :
  NoDup (PyDict.keys d) -> NoDup (PyDict.keys (PyDict.set K_dec d k v)).
Proof.
  intros Hnd. destruct (in_dec K_dec k (PyDict.keys d)) as [Hin|Hnin].
  - now rewrite keys_set_present.
  - rewrite keys_set_absent by assumption.
    unfold PyDict.keys. rewrite map_app. simpl.
    apply NoDup_app; [assumption|repeat constructor; simpl; tauto|].
    intros x Hx [<-|[]]. contradiction.
Qed.

End DictFacts.

(* ================================================================== *)
(** * Sorting *)

Section SortedFacts.
Variable A : Type.
Variable le : A -> A -> bool.

Lemma insert_sorted_perm (x : A) (l : list A) :
  Permutation (insert_sorted le x l) (x :: l).
Proof.
  induction l as [|y l IH]; simpl; [reflexivity|].
  destruct (le x y); [reflexivity|].
  rewrite IH. apply perm_swap.
Qed.

Lemma sorted_perm (l : list A) : Permutation (sorted le l) l.
Proof.
  induction l as [|x l IH]; simpl; [reflexivity|].
  rewrite insert_sorted_perm. now constructor.
Qed.

Lemma sorted_In (l : list A) (x : A) : In x (sorted le l) <-> In x l.
Proof.
  split; apply Permutation_in; [|symmetry]; apply sorted_perm.
Qed.

Hypothesis le_total : forall a b, le a b = true \/ le b a = true.
Hypothesis le_trans : forall a b c, le a b = true -> le b c = true -> le a c = true.

Lemma insert_sorted_sorted (x : A) (l : list A) :
  StronglySorted (fun a b => le a b = true) l ->
  StronglySorted (fun a b => le a b = true) (insert_sorted le x l).
Proof.
  induction 1 as [|y l Hs IH Hall]; simpl.
  - repeat constructor.
  - destruct (le x y) eqn:E.
    + constructor; [now constructor|].
      constructor; [assumption|].
      eapply Forall_impl; [|exact Hall]. intros a Ha. eauto.
    + constructor; [assumption|].
      assert (Hyx : le y x = true) by (destruct (le_total x y); congruence).
      rewrite Forall_forall in *. intros a Ha.
      apply (Permutation_in _ (insert_sorted_perm x l)) in Ha.
      destruct Ha as [<-|Ha]; auto.
Qed.

Lemma sorted_sorted (l : list A) :
  StronglySorted (fun a b => le a b = true) (sorted le l).
Proof.
  induction l as [|x l IH]; simpl; [constructor|].
  now apply insert_sorted_sorted.
Qed.

End SortedFacts.

Lemma ascending_difference_NoDup xs ys : NoDup (ascending_difference xs ys).
Proof.
  unfold ascending_difference.
  eapply Permutation_NoDup; [symmetry; apply sorted_perm|].
  apply NoDup_nodup.
Qed.

Lemma mem_In x l : mem x l = true <-> In x l.
Proof.
  unfold mem. rewrite existsb_exists. split.
  - intros (y & Hy & E). apply Z.eqb_eq in E. now subst.
  - intros H. exists x. split; [assumption|apply Z.eqb_refl].
Qed.

Lemma mem_false x l : mem x l = false <-> ~ In x l.
Proof.
  rewrite <- mem_In. destruct (mem x l); split; congruence.
Qed.

Lemma ascending_difference_In xs ys x :
  In x (ascending_difference xs ys) <-> In x xs /\ ~ In x ys.
Proof.
  unfold ascending_difference.
  rewrite sorted_In, nodup_In, filter_In, negb_true_iff, mem_false.
  tauto.
Qed.

(* ================================================================== *)
(** * Sums over moves and rows *)

Unset Implicit Arguments.

Lemma moved_cons P m ms :
  moved P (m :: ms) = (if P m then quantity m else 0) + moved P ms.
Proof. reflexivity. Qed.

Lemma moved_app P a b : moved P (a ++ b) = moved P a + moved P b.
Proof.
  induction a as [|m a IH]; simpl; [reflexivity|]. rewrite IH. lia.
Qed.

Lemma moved_ext P Q ms :
  (forall m, In m ms -> P m = Q m) -> moved P ms = moved Q ms.
Proof.
  induction ms as [|m ms IH]; simpl; intros H; [reflexivity|].
  rewrite (H m) by now left. rewrite IH; [reflexivity|]. intros; apply H; now right.
Qed.

Lemma moved_none P ms :
  (forall m, In m ms -> P m = false) -> moved P ms = 0.
Proof.
  induction ms as [|m ms IH]; simpl; intros H; [reflexivity|].
  rewrite (H m) by now left. rewrite IH; [reflexivity|]. intros; apply H; now right.
Qed.

Lemma sum_quantity_app a b :
  sum_quantity (a ++ b) = sum_quantity a + sum_quantity b.
Proof.
  induction a as [|r a IH]; simpl; [reflexivity|]. rewrite IH. lia.
Qed.

Lemma held_app P a b : held P (a ++ b) = held P a + held P b.
Proof.
  unfold held. now rewrite filter_app, sum_quantity_app.
Qed.

Lemma held_cons P r t :
  held P (r :: t) = (if P (lb_key r) then lb_quantity r else 0) + held P t.
Proof.
  unfold held. simpl. destruct (P (lb_key r)); simpl; lia.
Qed.

Lemma key_eqb_eq a b : key_eqb a b = true <-> a = b.
Proof.
  destruct a as [a1 a2], b as [b1 b2]. unfold key_eqb. simpl.
  rewrite andb_true_iff, !Z.eqb_eq. split; [intros []; congruence|intros [= -> ->]; auto].
Qed.

Lemma key_eqb_refl a : key_eqb a a = true.
Proof. now apply key_eqb_eq. Qed.

Lemma key_eqb_neq a b : key_eqb a b = false <-> a <> b.
Proof.
  rewrite <- key_eqb_eq. destruct (key_eqb a b); split; congruence.
Qed.

Lemma has_key_eq k r : has_key k r = true <-> lb_key r = k.
Proof.
  destruct k as [l b]. unfold has_key, lb_key. simpl.
  rewrite andb_true_iff, !Z.eqb_eq. split; [intros []; congruence|intros [= -> ->]; auto].
Qed.

Lemma has_key_false k r : has_key k r = false <-> lb_key r <> k.
Proof.
  rewrite <- has_key_eq. destruct (has_key k r); split; congruence.
Qed.

(* ================================================================== *)
(** * The loops of the planners *)

Lemma units_targets book donor taken :
  map to_library_id (units book donor taken) = taken.
Proof.
  unfold units. rewrite map_map. simpl. apply map_id.
Qed.

Lemma units_Forall (P : Move -> Prop) book donor taken :
  (forall t, In t taken -> P (mkMove book donor t 1)) ->
  Forall P (units book donor taken).
Proof.
  intros H. apply Forall_forall. intros m Hm.
  apply in_map_iff in Hm. destruct Hm as (t & <- & Ht). auto.
Qed.

Lemma base_while_spec book donor target rest :
  forall can_move covered moves,
  exists taken rest',
    base_while book donor can_move covered target rest moves
    = (covered + Z.of_nat (List.length taken), rest',
       moves ++ units book donor taken)
    /\ rest = taken ++ rest'
    /\ Z.of_nat (List.length taken) <= Z.max 0 can_move.
Proof.
  induction rest as [|to_lib rest IH]; intros can_move covered moves; simpl.
  - exists [], []. simpl. rewrite Z.add_0_r, app_nil_r. repeat split; lia.
  - destruct ((0 <? can_move) && (covered <? target)) eqn:E.
    + apply andb_true_iff in E. destruct E as [Hc _]. apply Z.ltb_lt in Hc.
      destruct (IH (can_move - 1) (covered + 1)
                   (moves ++ [mkMove book donor to_lib 1]))
        as (taken & rest' & Heq & Hrest & Hlen).
      exists (to_lib :: taken), rest'. rewrite Heq. simpl List.length.
      repeat split.
      * rewrite <- app_assoc. simpl.
        replace (covered + 1 + Z.of_nat (List.length taken))
          with (covered + Z.pos (Pos.of_succ_nat (List.length taken)))
          by lia.
        reflexivity.
      * simpl. now f_equal.
      * lia.
    + exists [], (to_lib :: rest). simpl.
      rewrite Z.add_0_r, app_nil_r. repeat split; lia.
Qed.

Lemma capacity_while_spec book donor target rest :
  forall can_move covered fc moves,
  incl rest (PyDict.keys fc) ->
  exists taken rest' fc',
    capacity_while book donor can_move covered target rest fc moves
    = Ok (covered + Z.of_nat (List.length taken), rest', fc',
          moves ++ units book donor taken)
    /\ incl taken rest /\ incl rest' rest
    /\ (NoDup rest -> NoDup (taken ++ rest'))
    /\ Z.of_nat (List.length taken) <= Z.max 0 can_move
    /\ PyDict.keys fc' = PyDict.keys fc
    /\ (forall l, PyDict.get_default Z.eq_dec fc' l 0
                  = PyDict.get_default Z.eq_dec fc l 0
                    - moved (fun m => to_library_id m =? l)
                        (units book donor taken))
    /\ (forall l, Z.min 0 (PyDict.get_default Z.eq_dec fc l 0)
                  <= PyDict.get_default Z.eq_dec fc' l 0).
Proof.
  induction rest as [|to_lib rest IH]; intros can_move covered fc moves Hkeys;
    simpl.
  - exists [], [], fc. simpl. rewrite Z.add_0_r, app_nil_r.
    repeat split; auto using incl_refl; try lia.
  - assert (Hrest : incl rest (PyDict.keys fc))
      by (intros x Hx; apply Hkeys; now right).
    destruct ((0 <? can_move) && (covered <? target)) eqn:E.
    + apply andb_true_iff in E. destruct E as [Hc _]. apply Z.ltb_lt in Hc.
      destruct (In_keys_get Z.eq_dec fc to_lib) as [free Hfree];
        [apply Hkeys; now left|].
      rewrite Hfree. destruct (free <=? 0) eqn:Efree.
      * destruct (IH can_move covered fc moves Hrest)
          as (taken & rest' & fc' & Heq & Ht & Hr & Hnd & Hlen & Hk & Hv & Hm).
        exists taken, rest', fc'. rewrite Heq.
        repeat split; auto.
        -- intros x Hx. right. auto.
        -- intros x Hx. right. auto.
        -- intros Hnd'. apply Hnd. now inversion Hnd'.
      * apply Z.leb_gt in Efree.
        set (fc1 := PyDict.set Z.eq_dec fc to_lib (free - 1)).
        assert (Hk1 : PyDict.keys fc1 = PyDict.keys fc)
          by (apply keys_set_present; apply Hkeys; now left).
        destruct (IH (can_move - 1) (covered + 1) fc1
                     (moves ++ [mkMove book donor to_lib 1]))
          as (taken & rest' & fc' & Heq & Ht & Hr & Hnd & Hlen & Hk & Hv & Hm).
        { now rewrite Hk1. }
        exists (to_lib :: taken), rest', fc'. rewrite Heq.
        assert (Hgd : forall l, PyDict.get_default Z.eq_dec fc1 l 0
                  = PyDict.get_default Z.eq_dec fc l 0
                    - (if to_lib =? l then 1 else 0)).
        { intros l. unfold PyDict.get_default, fc1.
          destruct (Z.eqb_spec to_lib l) as [->|Hne].
          - rewrite get_set_same, Hfree. reflexivity.
          - rewrite get_set_other by congruence. lia. }
        simpl List.length. repeat split.
        -- rewrite <- app_assoc. simpl.
           replace (covered + 1 + Z.of_nat (List.length taken))
             with (covered + Z.pos (Pos.of_succ_nat (List.length taken)))
             by lia.
           reflexivity.
        -- intros x [<-|Hx]; [now left|right; auto].
        -- intros x Hx. right. auto.
        -- intros Hnd'. inversion Hnd' as [|? ? Hnin Hnd'']; subst.
           simpl. constructor; [|auto].
           rewrite in_app_iff. intros [H|H]; apply Hnin; auto.
        -- lia.
        -- congruence.
        -- intros l. rewrite Hv, Hgd. simpl. lia.
        -- intros l. specialize (Hm l). rewrite Hgd in Hm.
           destruct (Z.eqb_spec to_lib l) as [->|Hne].
           ++ assert (Hf : PyDict.get_default Z.eq_dec fc l 0 = free)
                by (unfold PyDict.get_default; now rewrite Hfree).
              rewrite Hf in *. lia.
           ++ lia.
    + exists [], (to_lib :: rest), fc. simpl. rewrite Z.add_0_r, app_nil_r.
      repeat split; auto using incl_refl; try lia.
      intros x [].
Qed.

Lemma NoDup_app_incl (A : Type) (a b c : list A) :
  NoDup (a ++ c) -> incl b c -> NoDup b -> NoDup (a ++ b).
Proof.
  intros Hac Hbc Hb. induction a as [|x a IH]; simpl in *; [assumption|].
  inversion Hac as [|? ? Hnin Hac']; subst. constructor; [|auto].
  rewrite in_app_iff in *. intros [H|H]; apply Hnin; auto.
Qed.

Lemma moved_units_from book donor taken l :
  moved (fun m => from_library_id m =? l) (units book donor taken)
  = if donor =? l then Z.of_nat (List.length taken) else 0.
Proof.
  induction taken as [|t taken IH].
  - simpl. now destruct (donor =? l).
  - change (units book donor (t :: taken))
      with (mkMove book donor t 1 :: units book donor taken).
    rewrite moved_cons, IH. simpl List.length. simpl.
    destruct (donor =? l); lia.
Qed.

Lemma book_plan_nil book donors rest : book_plan book donors rest [].
Proof.
  repeat split; [constructor|intros; constructor|].
  intros l. simpl. induction donors as [|d donors IH]; simpl; [lia|].
  destruct (lb_library_id d =? l); lia.
Qed.

Lemma spare_nonneg l donors : 0 <= spare l donors.
Proof.
  induction donors as [|d donors IH]; simpl; [lia|].
  destruct (lb_library_id d =? l); lia.
Qed.

Lemma book_plan_step book d donors rest taken rest' new' :
  incl taken rest -> incl rest' rest ->
  (NoDup rest -> NoDup (taken ++ rest')) ->
  Z.of_nat (List.length taken) <= Z.max 0 (lb_quantity d - 1) ->
  book_plan book donors rest' new' ->
  book_plan book (d :: donors) rest
    (units book (lb_library_id d) taken ++ new').
Proof.
  intros Ht Hr Hnd Hlen (Hall & Hnd' & Hsp). repeat split.
  - apply Forall_app. split.
    + apply units_Forall. intros t Hin. simpl. auto.
    + eapply Forall_impl; [|exact Hall]. simpl.
      intros m (? & ? & ? & ?). auto.
  - intros Hrest. rewrite map_app, units_targets.
    specialize (Hnd Hrest).
    apply NoDup_app_incl with (c := rest'); auto.
    + intros x Hx. apply in_map_iff in Hx. destruct Hx as (m & <- & Hm).
      rewrite Forall_forall in Hall. now apply Hall.
    + apply Hnd'. now apply NoDup_app_remove_l in Hnd.
  - intros l. rewrite moved_app, moved_units_from. simpl.
    specialize (Hsp l). destruct (lb_library_id d =? l); lia.
Qed.

Lemma base_for_spec book target donors :
  forall covered rest moves,
  exists new,
    base_for book target donors covered rest moves = moves ++ new
    /\ book_plan book donors rest new.
Proof.
  induction donors as [|d donors IH]; intros covered rest moves; simpl.
  - exists []. rewrite app_nil_r. split; [reflexivity|apply book_plan_nil].
  - destruct (base_while_spec book (lb_library_id d) target rest
                (lb_quantity d - 1) covered moves)
      as (taken & rest' & Heq & Hrest & Hlen).
    rewrite Heq.
    assert (Ht : incl taken rest) by (subst rest; apply incl_appl, incl_refl).
    assert (Hr : incl rest' rest) by (subst rest; apply incl_appr, incl_refl).
    assert (Hnd : NoDup rest -> NoDup (taken ++ rest')) by now subst rest.
    destruct (target <=? covered + Z.of_nat (List.length taken)).
    + exists (units book (lb_library_id d) taken). split; [reflexivity|].
      rewrite <- (app_nil_r (units _ _ _)).
      eapply book_plan_step; eauto using book_plan_nil.
    + destruct (IH (covered + Z.of_nat (List.length taken)) rest'
                   (moves ++ units book (lb_library_id d) taken))
        as (new' & Heq' & Hplan).
      exists (units book (lb_library_id d) taken ++ new'). split.
      * rewrite Heq'. now rewrite app_assoc.
      * eapply book_plan_step; eauto.
Qed.

Lemma capacity_for_spec book target donors :
  forall covered rest fc moves,
  incl rest (PyDict.keys fc) ->
  exists new fc',
    capacity_for book target donors covered rest fc moves
    = Ok (moves ++ new, fc')
    /\ book_plan book donors rest new
    /\ PyDict.keys fc' = PyDict.keys fc
    /\ (forall l, PyDict.get_default Z.eq_dec fc' l 0
                  = PyDict.get_default Z.eq_dec fc l 0
                    - moved (fun m => to_library_id m =? l) new)
    /\ (forall l, Z.min 0 (PyDict.get_default Z.eq_dec fc l 0)
                  <= PyDict.get_default Z.eq_dec fc' l 0).
Proof.
  induction donors as [|d donors IH]; intros covered rest fc moves Hkeys;
    simpl.
  - exists [], fc. rewrite app_nil_r. simpl.
    split; [reflexivity|]. split; [apply book_plan_nil|].
    repeat split; intros; lia.
  - destruct (capacity_while_spec book (lb_library_id d) target rest
                (lb_quantity d - 1) covered fc moves Hkeys)
      as (taken & rest' & fc' & Heq & Ht & Hr & Hnd & Hlen & Hk & Hv & Hm).
    rewrite Heq. simpl.
    destruct (target <=? covered + Z.of_nat (List.length taken)).
    + exists (units book (lb_library_id d) taken), fc'.
      split; [reflexivity|]. split; [|auto].
      rewrite <- (app_nil_r (units _ _ _)).
      eapply book_plan_step; eauto using book_plan_nil.
    + destruct (IH (covered + Z.of_nat (List.length taken)) rest' fc'
                   (moves ++ units book (lb_library_id d) taken))
        as (new' & fc'' & Heq' & Hplan & Hk' & Hv' & Hm').
      { rewrite Hk. intros x Hx. auto. }
      exists (units book (lb_library_id d) taken ++ new'), fc''.
      split; [|split; [|repeat split]].
      * rewrite Heq'. now rewrite app_assoc.
      * eapply book_plan_step; eauto.
      * congruence.
      * intros l. rewrite Hv', Hv, moved_app. lia.
      * intros l. specialize (Hm l). specialize (Hm' l). lia.
Qed.

Lemma spare_perm l a b : Permutation a b -> spare l a = spare l b.
Proof.
  induction 1; simpl; try lia.
Qed.

Lemma donors_of_perm db book :
  Permutation (donors_of (holdings_of db book)) (donor_rows db book).
Proof. unfold donors_of, donor_rows. apply sorted_perm. Qed.

Lemma effective_capacity_stable fc fc' db :
  PyDict.keys fc' = PyDict.keys (effective_capacity fc db) ->
  effective_capacity fc' db = fc'.
Proof.
  unfold effective_capacity. intros Hk.
  destruct fc' as [|kv fc']; simpl; [|reflexivity].
  destruct fc as [|kv fc]; simpl in *.
  - destruct (_compute_free_capacity db); [reflexivity|discriminate].
  - discriminate.
Qed.

(* ================================================================== *)
(** * The plan of one book *)

Section BookPlan.
Variable set_difference_iter : list Z -> list Z -> list Z.
Hypothesis set_difference_NoDup :
  forall xs ys, NoDup (set_difference_iter xs ys).
Hypothesis set_difference_In :
  forall xs ys x, In x (set_difference_iter xs ys) <-> In x xs /\ ~ In x ys.

Lemma book_plan_result db dom book rest new :
  NoDup rest ->
  (forall x, In x rest ->
     In x dom /\ ~ In x (covering (holdings_of db book))) ->
  book_plan book (donors_of (holdings_of db book)) rest new ->
  book_result db dom book new.
Proof.
  intros Hnd Hrest (Hall & Hnd' & Hsp). repeat split.
  - eapply Forall_impl; [|exact Hall]. simpl.
    intros m (Hb & Hq & Hfrom & Hto). subst book.
    destruct (Hrest _ Hto) as [Hdom Hcov].
    repeat split; auto.
    eapply Permutation_in; [|exact Hfrom].
    apply Permutation_map, donors_of_perm.
  - auto.
  - intros l. rewrite <- (spare_perm l _ _ (donors_of_perm db book)). auto.
Qed.

Lemma book_result_nil db dom book : book_result db dom book [].
Proof.
  repeat split; [constructor|constructor|].
  intros l. simpl. apply spare_nonneg.
Qed.

Lemma base_build_spec db book nlibs :
  book_result db (map l_id (Library_objects db)) book
    (base_build_plan_for_book set_difference_iter db book nlibs).
Proof.
  unfold base_build_plan_for_book.
  destruct (sum_quantity (holdings_of db book) =? 0);
    [apply book_result_nil|].
  destruct (Z.min nlibs (sum_quantity (holdings_of db book)) <=? _);
    [apply book_result_nil|].
  match goal with
  | |- context [base_for ?b ?t ?d ?c ?r ?m] =>
      destruct (base_for_spec b t d c r m) as (new & -> & Hplan)
  end.
  simpl. eapply book_plan_result; [| |exact Hplan].
  - apply set_difference_NoDup.
  - intros x Hx. now apply set_difference_In in Hx.
Qed.

Lemma capacity_build_spec fc0 db book nlibs :
  exists new fc',
    capacity_build_plan_for_book set_difference_iter fc0 db book nlibs
    = Ok (new, fc')
    /\ book_result db (PyDict.keys (effective_capacity fc0 db)) book new
    /\ PyDict.keys fc' = PyDict.keys (effective_capacity fc0 db)
    /\ (forall l, PyDict.get_default Z.eq_dec fc' l 0
                  = PyDict.get_default Z.eq_dec
                      (effective_capacity fc0 db) l 0
                    - moved (fun m => to_library_id m =? l) new)
    /\ (forall l, Z.min 0 (PyDict.get_default Z.eq_dec
                             (effective_capacity fc0 db) l 0)
                  <= PyDict.get_default Z.eq_dec fc' l 0).
Proof.
  unfold capacity_build_plan_for_book.
  fold (effective_capacity fc0 db).
  set (fc := effective_capacity fc0 db).
  assert (Hnil : exists new fc',
             @Ok (list Move * PyDict.t Z Z) ([], fc) = Ok (new, fc')
             /\ book_result db (PyDict.keys fc) book new
             /\ PyDict.keys fc' = PyDict.keys fc
             /\ (forall l, PyDict.get_default Z.eq_dec fc' l 0
                           = PyDict.get_default Z.eq_dec fc l 0
                             - moved (fun m => to_library_id m =? l) new)
             /\ (forall l, Z.min 0 (PyDict.get_default Z.eq_dec fc l 0)
                           <= PyDict.get_default Z.eq_dec fc' l 0)).
  { exists [], fc. split; [reflexivity|]. split; [apply book_result_nil|].
    repeat split; intros; simpl; lia. }
  destruct (sum_quantity (holdings_of db book) =? 0); [exact Hnil|].
  destruct (Z.min nlibs (sum_quantity (holdings_of db book)) <=? _);
    [exact Hnil|].
  clear Hnil.
  match goal with
  | |- context [capacity_for ?b ?t ?d ?c ?r ?f ?m] =>
      destruct (capacity_for_spec b t d c r f m)
        as (new & fc' & Heq & Hplan & Hk & Hv & Hm)
  end.
  { intros x Hx. apply filter_In in Hx. destruct Hx as [Hx _].
    now apply set_difference_In in Hx. }
  exists new, fc'. simpl in Heq. split; [exact Heq|]. split; [|auto].
  eapply book_plan_result; [| |exact Hplan].
  - apply NoDup_filter, set_difference_NoDup.
  - intros x Hx. apply filter_In in Hx. destruct Hx as [Hx _].
    now apply set_difference_In in Hx.
Qed.

Lemma build_plan_spec self db book nlibs :
  exists new self',
    _build_plan_for_book set_difference_iter self db book nlibs
    = Ok (new, self')
    /\ book_result db (recipient_domain self db) book new
    /\ self' = set_free_capacity self (free_capacity self')
    /\ recipient_domain self' db = recipient_domain self db
    /\ (is_capacity_aware self = true ->
        (forall l, tracked self' db l
                   = tracked self db l
                     - moved (fun m => to_library_id m =? l) new)
        /\ (forall l, Z.min 0 (tracked self db l) <= tracked self' db l)
        /\ PyDict.keys (free_capacity self') = recipient_domain self db).
Proof.
  destruct self as [d|d fc|d fc p a]; simpl.
  - eexists _, _. split; [reflexivity|].
    split; [apply base_build_spec|]. repeat split; discriminate.
  - destruct (capacity_build_spec fc db book nlibs)
      as (new & fc' & -> & Hres & Hk & Hv & Hm). simpl.
    eexists _, _. split; [reflexivity|]. split; [exact Hres|].
    split; [reflexivity|]. unfold tracked. simpl.
    rewrite (effective_capacity_stable fc fc' db Hk). auto.
  - destruct (capacity_build_spec fc db book nlibs)
      as (new & fc' & -> & Hres & Hk & Hv & Hm). simpl.
    eexists _, _. split; [reflexivity|]. split; [exact Hres|].
    split; [reflexivity|]. unfold tracked. simpl.
    rewrite (effective_capacity_stable fc fc' db Hk). auto.
Qed.

End BookPlan.

(* ================================================================== *)
(** * The plan of a run *)

Lemma run_plan_nil db dom : run_plan db dom [].
Proof.
  repeat split; [constructor|intros; constructor|].
  intros l b. simpl. apply spare_nonneg.
Qed.

Lemma filter_all (A : Type) (f : A -> bool) (l : list A) :
  (forall x, In x l -> f x = true) -> filter f l = l.
Proof.
  induction l as [|x l IH]; simpl; intros H; [reflexivity|].
  rewrite (H x) by now left. f_equal. apply IH. intros; apply H; now right.
Qed.

Lemma filter_none (A : Type) (f : A -> bool) (l : list A) :
  (forall x, In x l -> f x = false) -> filter f l = [].
Proof.
  induction l as [|x l IH]; simpl; intros H; [reflexivity|].
  rewrite (H x) by now left. apply IH. intros; apply H; now right.
Qed.

Lemma run_plan_extend db dom acc book new :
  run_plan db dom acc ->
  (forall m, In m acc -> book_id m <> book) ->
  book_result db dom book new ->
  run_plan db dom (acc ++ new).
Proof.
  intros (Hall & Hnd & Hsp) Hfresh (Hall' & Hnd' & Hsp').
  rewrite Forall_forall in Hall'.
  repeat split.
  - apply Forall_app. split; [assumption|].
    apply Forall_forall. intros m Hm. now apply Hall'.
  - intros b. rewrite filter_app, map_app.
    destruct (Z.eq_dec b book) as [->|Hne].
    + rewrite (filter_none _ _ acc), (filter_all _ _ new); [assumption| |].
      * intros m Hm. apply Z.eqb_eq. now apply Hall'.
      * intros m Hm. apply Z.eqb_neq. now apply Hfresh.
    + rewrite (filter_none _ _ new), app_nil_r; [apply Hnd|].
      intros m Hm. apply Z.eqb_neq. destruct (Hall' m Hm) as [-> _]. auto.
  - intros l b. rewrite moved_app.
    destruct (Z.eq_dec b book) as [->|Hne].
    + rewrite (moved_none _ acc).
      * rewrite (moved_ext _ (fun m => from_library_id m =? l) new);
          [apply Hsp'|].
        intros m Hm. destruct (Hall' m Hm) as [Hb _].
        unfold key_eqb, move_source. simpl.
        rewrite Hb, Z.eqb_refl, andb_true_r. apply Z.eqb_sym.
      * intros m Hm. unfold key_eqb, move_source. simpl.
        apply andb_false_iff. right. apply Z.eqb_neq.
        specialize (Hfresh m Hm). congruence.
    + rewrite (moved_none _ new); [specialize (Hsp l b); lia|].
      intros m Hm. unfold key_eqb, move_source. simpl.
      apply andb_false_iff. right. apply Z.eqb_neq.
      destruct (Hall' m Hm) as [-> _]. auto.
Qed.

Section RunPlan.
Variable set_difference_iter : list Z -> list Z -> list Z.
Hypothesis set_difference_NoDup :
  forall xs ys, NoDup (set_difference_iter xs ys).
Hypothesis set_difference_In :
  forall xs ys x, In x (set_difference_iter xs ys) <-> In x xs /\ ~ In x ys.

Lemma plan_books_spec db nlibs books :
  forall self acc considered,
  NoDup books ->
  run_plan db (recipient_domain self db) acc ->
  (forall m, In m acc -> ~ In (book_id m) books) ->
  exists ms self',
    plan_books set_difference_iter self db nlibs books acc considered
    = Ok (ms, considered + Z.of_nat (List.length books), self')
    /\ run_plan db (recipient_domain self db) ms
    /\ self' = set_free_capacity self (free_capacity self')
    /\ (forall m, In m ms -> In m acc \/ In (book_id m) books)
    /\ (books = [] -> self' = self)
    /\ (is_capacity_aware self = true ->
        (forall l, tracked self' db l
                   = tracked self db l
                     - (moved (fun m => to_library_id m =? l) ms
                        - moved (fun m => to_library_id m =? l) acc))
        /\ (forall l, Z.min 0 (tracked self db l) <= tracked self' db l)
        /\ (books <> [] ->
            PyDict.keys (free_capacity self') = recipient_domain self db)).
Proof.
  induction books as [|book books IH]; intros self acc considered Hnd Hacc Hfresh.
  - exists acc, self. simpl. rewrite Z.add_0_r.
    split; [reflexivity|]. split; [assumption|].
    split; [now destruct self|]. split; [auto|]. split; [reflexivity|].
    intros _. split; [intros; lia|]. split; [intros; lia|]. congruence.
  - inversion Hnd as [|? ? Hnin Hnd']; subst.
    destruct (build_plan_spec set_difference_iter set_difference_NoDup
                set_difference_In self db book nlibs)
      as (new & self1 & Heq & Hres & Hself & Hdom & Hcap).
    simpl plan_books. rewrite Heq. simpl bind.
    destruct (IH self1 (acc ++ new) (considered + 1) Hnd')
      as (ms & self' & Heq' & Hrun & Hself' & Horigin & Hnil & Hcap').
    { rewrite Hdom. eapply run_plan_extend; eauto.
      intros m Hm E. apply (Hfresh m Hm). now left. }
    { intros m Hm Hin. apply in_app_iff in Hm. destruct Hm as [Hm|Hm].
      - apply (Hfresh m Hm). now right.
      - destruct Hres as (Hall & _). rewrite Forall_forall in Hall.
        destruct (Hall m Hm) as [Hb _]. congruence. }
    exists ms, self'. rewrite Heq'.
    split; [do 3 f_equal; simpl List.length; lia|].
    split; [now rewrite <- Hdom|].
    split.
    { rewrite Hself', Hself. now destruct self. }
    split.
    { intros m Hm. destruct (Horigin m Hm) as [H|H]; [|right; now right].
      apply in_app_iff in H. destruct H as [H|H]; [now left|].
      right. left. destruct Hres as (Hall & _). rewrite Forall_forall in Hall.
      destruct (Hall m H) as [Hb _]. congruence. }
    split; [discriminate|].
    intros Hca. destruct (Hcap Hca) as (Hv & Hm & Hkeys).
    assert (Hca1 : is_capacity_aware self1 = true)
      by (rewrite Hself; now destruct self).
    destruct (Hcap' Hca1) as (Hv' & Hm' & Hkeys'). split; [|split].
    + intros l. rewrite Hv', Hv, moved_app. lia.
    + intros l. specialize (Hm l). specialize (Hm' l). lia.
    + intros _. destruct books as [|book' books].
      * rewrite (Hnil eq_refl). exact Hkeys.
      * rewrite Hkeys' by discriminate. exact Hdom.
Qed.

End RunPlan.

(* ================================================================== *)
(** * The order of the books *)

Lemma candidate_book_ids_NoDup nlibs db : NoDup (_candidate_book_ids nlibs db).
Proof.
  unfold _candidate_book_ids. apply NoDup_filter.
  eapply Permutation_NoDup; [apply Permutation_sym, sorted_perm|].
  apply NoDup_nodup.
Qed.

Lemma candidate_book_ids_held nlibs db b :
  In b (_candidate_book_ids nlibs db) ->
  exists h, In h (LibraryBook_objects db) /\ lb_book_id h = b.
Proof.
  unfold _candidate_book_ids. intros H. apply filter_In in H.
  destruct H as [H _]. apply sorted_In, nodup_In, in_map_iff in H.
  destruct H as (h & <- & Hh). eauto.
Qed.

Lemma decorate_snd key_of l decorated :
  decorate key_of l = Ok decorated -> map snd decorated = l.
Proof.
  revert decorated. induction l as [|x l IH]; simpl; intros decorated.
  - now intros [= <-].
  - destruct (key_of x) as [k|e]; simpl; [|discriminate].
    destruct (decorate key_of l) as [rest|e]; simpl; [|discriminate].
    intros [= <-]. simpl. f_equal. now apply IH.
Qed.

Lemma decorate_fst key_of l decorated :
  decorate key_of l = Ok decorated ->
  Forall (fun kx => key_of (snd kx) = Ok (fst kx)) decorated.
Proof.
  revert decorated. induction l as [|x l IH]; simpl; intros decorated.
  - intros [= <-]. constructor.
  - destruct (key_of x) as [k|e] eqn:E; simpl; [|discriminate].
    destruct (decorate key_of l) as [rest|e]; simpl; [|discriminate].
    intros [= <-]. constructor; [exact E|]. now apply IH.
Qed.

Lemma decorate_ok key_of l :
  (forall x, In x l -> exists k, key_of x = Ok k) ->
  exists decorated, decorate key_of l = Ok decorated.
Proof.
  induction l as [|x l IH]; simpl; intros H; [eauto|].
  destruct (H x) as [k ->]; [now left|]. simpl.
  destruct IH as [rest ->]; [intros; apply H; now right|]. simpl. eauto.
Qed.

Lemma sorted_by_key_perm key_of l ordered :
  sorted_by_key key_of l = Ok ordered -> Permutation ordered l.
Proof.
  unfold sorted_by_key.
  destruct (decorate key_of l) as [decorated|e] eqn:E; simpl; [|discriminate].
  intros [= <-]. rewrite <- (decorate_snd _ _ _ E).
  apply Permutation_map, sorted_perm.
Qed.

Lemma book_order_perm self db books :
  book_order self db = Ok books ->
  Permutation books (_candidate_book_ids (nlibs_of db) db).
Proof.
  destruct self; simpl; try (intros [= <-]; reflexivity).
  apply sorted_by_key_perm.
Qed.

Lemma book_order_NoDup self db books :
  book_order self db = Ok books -> NoDup books.
Proof.
  intros H. eapply Permutation_NoDup.
  - symmetry. eapply book_order_perm, H.
  - apply candidate_book_ids_NoDup.
Qed.

Lemma book_meta_keys (books : list Book) :
  forall d k,
  In k (PyDict.keys
          (fold_left (fun d b => PyDict.set Z.eq_dec d (b_id b) b) books d))
  <-> In k (map b_id books) \/ In k (PyDict.keys d).
Proof.
  induction books as [|b books IH]; intros d k; simpl; [tauto|].
  rewrite IH, In_keys_set. intuition congruence.
Qed.

Lemma sort_key_ok priority author_ids base_ids db bid :
  In bid base_ids -> In bid (map b_id (Book_objects db)) ->
  exists k, sort_key priority author_ids (book_meta_of base_ids db) bid = Ok k.
Proof.
  intros Hbase Hbook. unfold sort_key.
  destruct (In_keys_get Z.eq_dec (book_meta_of base_ids db) bid) as [meta ->].
  - unfold book_meta_of. apply book_meta_keys. left.
    apply in_map_iff in Hbook. destruct Hbook as (b & <- & Hb).
    apply in_map, filter_In. split; [assumption|]. now apply mem_In.
  - destruct (_ && _); [eauto|]. destruct (String.eqb _ _); eauto.
Qed.

Lemma book_order_ok self db :
  (forall h, In h (LibraryBook_objects db) ->
     In (lb_book_id h) (map b_id (Book_objects db))) ->
  exists books, book_order self db = Ok books.
Proof.
  intros Hfk. destruct self as [d|d fc|d fc p a]; simpl; eauto.
  unfold ordered_book_ids, sorted_by_key.
  destruct (decorate_ok
              (sort_key p a
                 (book_meta_of (_candidate_book_ids (nlibs_of db) db) db))
              (_candidate_book_ids (nlibs_of db) db)) as [decorated ->].
  - intros x Hx. apply sort_key_ok; [assumption|].
    destruct (candidate_book_ids_held _ _ _ Hx) as (h & Hh & <-). auto.
  - simpl. eauto.
Qed.

Section Rebalance.
Variable set_difference_iter : list Z -> list Z -> list Z.
Hypothesis set_difference_NoDup :
  forall xs ys, NoDup (set_difference_iter xs ys).
Hypothesis set_difference_In :
  forall xs ys x, In x (set_difference_iter xs ys) <-> In x xs /\ ~ In x ys.

Lemma rebalance_unfold self db :
  rebalance set_difference_iter self db
  = let* books := book_order self db in
    let* '(moves, considered, self') :=
      plan_books set_difference_iter self db (nlibs_of db) books [] 0 in
    finish self' db moves considered.
Proof. destruct self; reflexivity. Qed.

Lemma dry_run_set_free_capacity self fc :
  dry_run (set_free_capacity self fc) = dry_run self.
Proof. now destruct self. Qed.

(** Planning never raises once the books are ordered, and the plan obeys
    [run_plan]. *)
Lemma rebalance_plan self db books :
  book_order self db = Ok books ->
  exists ms self',
    rebalance set_difference_iter self db
    = finish self' db ms (Z.of_nat (List.length books))
    /\ run_plan db (recipient_domain self db) ms
    /\ self' = set_free_capacity self (free_capacity self')
    /\ (forall m, In m ms -> In (book_id m) books)
    /\ (is_capacity_aware self = true ->
        (forall l, tracked self' db l
                   = tracked self db l
                     - moved (fun m => to_library_id m =? l) ms)
        /\ (forall l, Z.min 0 (tracked self db l) <= tracked self' db l)
        /\ (books <> [] ->
            PyDict.keys (free_capacity self') = recipient_domain self db)).
Proof.
  intros Hbooks. rewrite rebalance_unfold, Hbooks. simpl bind.
  destruct (plan_books_spec set_difference_iter set_difference_NoDup
              set_difference_In db (nlibs_of db) books self [] 0)
    as (ms & self' & Heq & Hrun & Hself & Horigin & _ & Hcap).
  - eapply book_order_NoDup, Hbooks.
  - apply run_plan_nil.
  - intros m [].
  - exists ms, self'. rewrite Heq. simpl.
    split; [reflexivity|]. split; [assumption|]. split; [assumption|].
    split.
    + intros m Hm. destruct (Horigin m Hm) as [[]|H]. exact H.
    + intros Hca. destruct (Hcap Hca) as (Hv & Hm & Hkeys).
      split; [|split; assumption].
      intros l. rewrite Hv. simpl. lia.
Qed.

End Rebalance.

(* ================================================================== *)
(** * The statements [_apply_plan] sends to the database *)

Lemma held_absent k table :
  ~ In k (keys_of table) -> held (key_eqb k) table = 0.
Proof.
  induction table as [|r t IH]; simpl; intros H; [reflexivity|].
  rewrite held_cons, IH by tauto.
  destruct (key_eqb k (lb_key r)) eqn:E; [|reflexivity].
  apply key_eqb_eq in E. exfalso. apply H. now left.
Qed.

Lemma held_present table r :
  NoDup (keys_of table) -> In r table ->
  held (key_eqb (lb_key r)) table = lb_quantity r.
Proof.
  induction table as [|r' t IH]; simpl; intros Hnd Hin; [contradiction|].
  inversion Hnd as [|? ? Hnin Hnd']; subst. rewrite held_cons.
  destruct Hin as [->|Hin].
  - rewrite key_eqb_refl, held_absent by assumption. lia.
  - rewrite IH by assumption.
    destruct (key_eqb (lb_key r) (lb_key r')) eqn:E; [|lia].
    apply key_eqb_eq in E. exfalso. apply Hnin. rewrite <- E.
    now apply in_map.
Qed.

Lemma held_non_negative P table : non_negative table -> 0 <= held P table.
Proof.
  induction 1 as [|r t Hr _ IH]; [unfold held; simpl; lia|].
  rewrite held_cons. destruct (P (lb_key r)); lia.
Qed.

Lemma update_absent k delta table :
  ~ In k (keys_of table) -> update_quantity k delta table = Ok table.
Proof.
  intros H. unfold update_quantity.
  assert (Hk : forall r, In r table -> has_key k r = false).
  { intros r Hr. apply has_key_false. intros E. apply H. rewrite <- E.
    now apply in_map. }
  replace (existsb _ table) with false.
  - f_equal. rewrite <- (map_id table) at 2. apply map_ext_in.
    intros r Hr. now rewrite Hk.
  - symmetry. apply not_true_is_false. intros E.
    apply existsb_exists in E. destruct E as (r & Hr & E).
    rewrite Hk in E by assumption. discriminate.
Qed.

Lemma update_quantity_spec k delta table :
  NoDup (keys_of table) -> non_negative table -> In k (keys_of table) ->
  0 <= held (key_eqb k) table + delta ->
  exists table',
    update_quantity k delta table = Ok table'
    /\ keys_of table' = keys_of table
    /\ non_negative table'
    /\ (forall P, held P table' = held P table + (if P k then delta else 0)).
Proof.
  induction table as [|r t IH]; simpl; intros Hnd Hnn Hin Hq; [contradiction|].
  inversion Hnd as [|? ? Hnin Hnd']; subst.
  inversion Hnn as [|? ? Hr Hnn']; subst.
  rewrite held_cons in Hq.
  destruct (key_dec (lb_key r) k) as [E|E].
  - subst k. rewrite key_eqb_refl, held_absent in Hq by assumption.
    pose proof (update_absent (lb_key r) delta t Hnin) as Hup.
    unfold update_quantity in Hup |- *. simpl.
    assert (Hhas : has_key (lb_key r) r = true) by now apply has_key_eq.
    rewrite Hhas. simpl.
    destruct (existsb _ t); [discriminate|]. injection Hup as Hup.
    rewrite Hup.
    replace (lb_quantity r + delta <? 0) with false
      by (symmetry; apply Z.ltb_ge; lia).
    simpl. eexists. split; [reflexivity|]. split; [reflexivity|].
    split; [constructor; [simpl; lia|assumption]|].
    intros P. rewrite !held_cons. simpl.
    change (lb_key (set_quantity r (lb_quantity r + delta))) with (lb_key r).
    destruct (P (lb_key r)); lia.
  - assert (Hhas : has_key k r = false) by now apply has_key_false.
    assert (Hneq : key_eqb k (lb_key r) = false)
      by (apply key_eqb_neq; congruence).
    rewrite Hneq in Hq.
    destruct IH as (t' & Hup & Hkeys & Hnn'' & Hheld); auto.
    { destruct Hin; [contradiction|assumption]. }
    unfold update_quantity in Hup |- *. simpl. rewrite Hhas. simpl.
    destruct (existsb _ t); [discriminate|]. injection Hup as Hup.
    eexists. split; [reflexivity|]. rewrite Hup.
    split; [change (keys_of (r :: t')) with (lb_key r :: keys_of t');
            now rewrite Hkeys|].
    split; [now constructor|].
    intros P. rewrite !held_cons, Hheld. lia.
Qed.

Lemma created_rows_cons_hit by_key k v row items :
  PyDict.get key_dec by_key k = Some row ->
  created_rows by_key ((k, v) :: items) = created_rows by_key items.
Proof. intros H. unfold created_rows. simpl. now rewrite H. Qed.

Lemma created_rows_cons_miss by_key k v items :
  PyDict.get key_dec by_key k = None ->
  created_rows by_key ((k, v) :: items)
  = mkLibraryBook (fst k) (snd k) v :: created_rows by_key items.
Proof. intros H. unfold created_rows. simpl. now rewrite H. Qed.

Lemma apply_increments_spec by_key items :
  forall table to_create,
  NoDup (keys_of table) -> non_negative table ->
  (forall k v, In (k, v) items -> 0 <= v) ->
  (forall k row, PyDict.get key_dec by_key k = Some row ->
     lb_key row = k /\ In k (keys_of table)) ->
  exists table',
    apply_increments by_key items table to_create
    = Ok (table', to_create ++ created_rows by_key items)
    /\ keys_of table' = keys_of table
    /\ non_negative table'
    /\ (forall P, held P table' + held P (created_rows by_key items)
                  = held P table + dict_sum P items).
Proof.
  induction items as [|[[lib_id book] qty] items IH];
    intros table to_create Hnd Hnn Hpos Hby; simpl.
  - exists table. rewrite app_nil_r. repeat split; auto.
  - assert (Hqty : 0 <= qty) by (eapply Hpos; now left).
    destruct (PyDict.get key_dec by_key (lib_id, book)) as [row|] eqn:E.
    + destruct (Hby _ _ E) as [Hrow Hin]. rewrite Hrow.
      destruct (update_quantity_spec (lib_id, book) qty table)
        as (t1 & Hup & Hkeys & Hnn1 & Hheld); auto.
      { pose proof (held_non_negative (key_eqb (lib_id, book)) table Hnn).
        lia. }
      rewrite Hup. simpl.
      destruct (IH t1 to_create) as (t2 & Heq & Hkeys2 & Hnn2 & Hheld2).
      * now rewrite Hkeys.
      * assumption.
      * intros k v Hkv. eapply Hpos. right. exact Hkv.
      * intros k r Hr. rewrite Hkeys. now apply Hby.
      * exists t2. rewrite (created_rows_cons_hit _ _ _ _ _ E), Heq.
        split; [reflexivity|]. split; [congruence|]. split; [assumption|].
        intros P. rewrite Hheld2, Hheld. unfold dict_sum. simpl. lia.
    + destruct (IH table (to_create ++ [mkLibraryBook lib_id book qty]))
        as (t2 & Heq & Hkeys2 & Hnn2 & Hheld2); auto.
      { intros k v Hkv. eapply Hpos. right. exact Hkv. }
      exists t2. rewrite (created_rows_cons_miss _ _ _ _ E), Heq.
      split; [now rewrite <- app_assoc|]. split; [assumption|].
      split; [assumption|].
      intros P. rewrite held_cons. specialize (Hheld2 P).
      unfold dict_sum in *. unfold lb_key at 1. simpl. lia.
Qed.

Lemma apply_decrements_spec items :
  forall table,
  NoDup (map fst items) -> NoDup (keys_of table) -> non_negative table ->
  (forall k v, In (k, v) items ->
     In k (keys_of table) /\ v <= held (key_eqb k) table) ->
  exists table',
    apply_decrements items table = Ok table'
    /\ keys_of table' = keys_of table
    /\ non_negative table'
    /\ (forall P, held P table' = held P table - dict_sum P items).
Proof.
  induction items as [|[k qty] items IH]; intros table Hi Hnd Hnn Hdec; simpl.
  - exists table. repeat split; auto. intros P. unfold dict_sum. simpl. lia.
  - inversion Hi as [|? ? Hnin Hi']; subst.
    destruct (Hdec k qty) as [Hin Hle]; [now left|].
    destruct (update_quantity_spec k (- qty) table)
      as (t1 & Hup & Hkeys & Hnn1 & Hheld); auto; [lia|].
    rewrite Hup. simpl.
    destruct (IH t1) as (t2 & Heq & Hkeys2 & Hnn2 & Hheld2); auto.
    + now rewrite Hkeys.
    + intros k' v' Hkv. destruct (Hdec k' v') as [Hin' Hle']; [now right|].
      rewrite Hkeys, Hheld. split; [assumption|].
      replace (key_eqb k' k) with false; [lia|].
      symmetry. apply key_eqb_neq. intros ->. apply Hnin.
      change k with (fst (k, v')). now apply in_map.
    + exists t2. rewrite Heq. split; [reflexivity|].
      split; [congruence|]. split; [assumption|].
      intros P. rewrite Hheld2, Hheld. unfold dict_sum. simpl.
      destruct (P k); lia.
Qed.

(* ================================================================== *)
(** * The dictionaries of [_apply_plan] *)

Lemma dict_add_sum P d k q :
  dict_sum P (dict_add d k q) = dict_sum P d + (if P k then q else 0).
Proof.
  unfold dict_add, PyDict.get_default.
  induction d as [|[k' v'] d IH]; simpl.
  - destruct (P k); lia.
  - destruct (key_dec k k') as [->|Hne]; simpl.
    + destruct (key_dec k' k'); [|contradiction]. simpl.
      destruct (P k'); lia.
    + destruct (key_dec k k'); [contradiction|]. simpl.
      rewrite IH. lia.
Qed.

Lemma dict_add_keys d k q k0 :
  In k0 (PyDict.keys (dict_add d k q)) <-> k0 = k \/ In k0 (PyDict.keys d).
Proof. apply In_keys_set. Qed.

Lemma dict_add_NoDup d k q :
  NoDup (PyDict.keys d) -> NoDup (PyDict.keys (dict_add d k q)).
Proof. apply NoDup_keys_set. Qed.

Lemma dict_sum_absent (d : PyDict.t key Z) k :
  ~ In k (PyDict.keys d) -> dict_sum (key_eqb k) d = 0.
Proof.
  unfold PyDict.keys.
  induction d as [|[k1 v1] d IH]; simpl; intros H; [reflexivity|].
  fold (dict_sum (key_eqb k) d). rewrite IH by tauto.
  destruct (key_eqb k k1) eqn:E; [|reflexivity].
  apply key_eqb_eq in E. subst. tauto.
Qed.

Lemma dict_value (d : PyDict.t key Z) k v :
  NoDup (PyDict.keys d) -> In (k, v) d -> dict_sum (key_eqb k) d = v.
Proof.
  induction d as [|[k' v'] d IH]; simpl; intros Hnd Hin; [contradiction|].
  inversion Hnd as [|? ? Hnin Hnd']; subst.
  fold (dict_sum (key_eqb k) d).
  destruct Hin as [[= -> ->]|Hin].
  - rewrite key_eqb_refl, dict_sum_absent by assumption. lia.
  - rewrite IH by assumption.
    destruct (key_eqb k k') eqn:E; [|lia].
    apply key_eqb_eq in E. subst k'. exfalso. apply Hnin.
    change k with (fst (k, v)). now apply in_map.
Qed.

Lemma aggregate_spec ms :
  forall acc,
  let r := fold_left aggregate_step ms acc in
  (forall P, dict_sum P (fst r)
             = dict_sum P (fst acc) + moved (fun m => P (move_target m)) ms)
  /\ (forall P, dict_sum P (snd r)
                = dict_sum P (snd acc)
                  + moved (fun m => P (move_source m)) ms)
  /\ (NoDup (PyDict.keys (fst acc)) -> NoDup (PyDict.keys (fst r)))
  /\ (NoDup (PyDict.keys (snd acc)) -> NoDup (PyDict.keys (snd r)))
  /\ (forall k, In k (PyDict.keys (fst r)) <->
                In k (PyDict.keys (fst acc))
                \/ exists m, In m ms /\ move_target m = k)
  /\ (forall k, In k (PyDict.keys (snd r)) <->
                In k (PyDict.keys (snd acc))
                \/ exists m, In m ms /\ move_source m = k).
Proof.
  induction ms as [|m ms IH]; intros acc; simpl.
  - repeat split; intros; try lia; auto.
    + destruct H as [H|(m & [] & _)]; assumption.
    + destruct H as [H|(m & [] & _)]; assumption.
  - destruct (IH (aggregate_step acc m)) as (Hi & Hd & Hni & Hnd & Hki & Hkd).
    simpl in *. repeat split.
    + intros P. rewrite Hi, dict_add_sum. unfold move_target. lia.
    + intros P. rewrite Hd, dict_add_sum. unfold move_source. lia.
    + intros H. apply Hni. now apply dict_add_NoDup.
    + intros H. apply Hnd. now apply dict_add_NoDup.
    + intros H. apply Hki in H. rewrite dict_add_keys in H.
      destruct H as [[->|H]|(m' & Hm' & E)]; eauto.
    + intros H. apply Hki. rewrite dict_add_keys.
      destruct H as [H|(m' & [->|Hm'] & E)]; eauto.
    + intros H. apply Hkd in H. rewrite dict_add_keys in H.
      destruct H as [[->|H]|(m' & Hm' & E)]; eauto.
    + intros H. apply Hkd. rewrite dict_add_keys.
      destruct H as [H|(m' & [->|Hm'] & E)]; eauto.
Qed.

Lemma fold_set_keys (A : Type) (f : A -> key) (l : list A) :
  forall d k,
  In k (PyDict.keys (fold_left (fun d x => PyDict.set key_dec d (f x) x) l d))
  <-> In k (map f l) \/ In k (PyDict.keys d).
Proof.
  induction l as [|x l IH]; intros d k; simpl; [tauto|].
  rewrite IH, In_keys_set. intuition congruence.
Qed.

Lemma fold_set_get (A : Type) (f : A -> key) (l : list A) :
  forall d k x,
  PyDict.get key_dec
    (fold_left (fun d x => PyDict.set key_dec d (f x) x) l d) k = Some x ->
  (f x = k /\ In x l) \/ PyDict.get key_dec d k = Some x.
Proof.
  induction l as [|y l IH]; intros d k x; simpl; [auto|].
  intros H. apply IH in H. destruct H as [[E Hin]|H]; [auto|].
  destruct (key_dec k (f y)) as [->|Hne].
  - rewrite get_set_same in H. injection H as <-. auto.
  - rewrite get_set_other in H by assumption. auto.
Qed.

Lemma by_key_hit rows k row :
  PyDict.get key_dec (by_key_of rows) k = Some row ->
  lb_key row = k /\ In row rows.
Proof.
  intros H. apply fold_set_get in H. destruct H as [H|H]; [exact H|].
  discriminate.
Qed.

Lemma by_key_miss rows k :
  PyDict.get key_dec (by_key_of rows) k = None -> ~ In k (keys_of rows).
Proof.
  intros H Hin. apply get_None_iff in H. apply H.
  unfold by_key_of. apply fold_set_keys. now left.
Qed.

Lemma locked_rows_In touched table r :
  In r (locked_rows touched table) -> In r table.
Proof. unfold locked_rows. intros H. now apply filter_In in H. Qed.

Lemma locked_rows_touched touched table k :
  In k touched -> In k (keys_of table) ->
  In k (keys_of (locked_rows touched table)).
Proof.
  intros Ht Hk. apply in_map_iff in Hk. destruct Hk as (r & <- & Hr).
  apply in_map. unfold locked_rows. apply filter_In. split; [assumption|].
  apply andb_true_iff. split; apply mem_In.
  - change (lb_library_id r) with (fst (lb_key r)). now apply in_map.
  - change (lb_book_id r) with (snd (lb_key r)). now apply in_map.
Qed.

Lemma created_rows_keys by_key items :
  keys_of (created_rows by_key items)
  = map fst (filter (fun kv => match PyDict.get key_dec by_key (fst kv) with
                               | Some _ => false
                               | None => true
                               end) items).
Proof.
  unfold keys_of, created_rows. rewrite map_map. apply map_ext.
  intros [[l b] v]. reflexivity.
Qed.

Lemma created_rows_In by_key items k :
  In k (keys_of (created_rows by_key items)) ->
  In k (map fst items) /\ PyDict.get key_dec by_key k = None.
Proof.
  rewrite created_rows_keys. intros H. apply in_map_iff in H.
  destruct H as (kv & <- & Hkv). apply filter_In in Hkv.
  destruct Hkv as [Hin Hget]. split; [now apply in_map|].
  now destruct (PyDict.get key_dec by_key (fst kv)).
Qed.

Lemma filter_keys_NoDup (V : Type) (keep : key * V -> bool)
    (items : list (key * V)) :
  NoDup (map fst items) -> NoDup (map fst (filter keep items)).
Proof.
  intros Hnd. induction items as [|kv items IH]; simpl; [constructor|].
  inversion Hnd as [|? ? Hnin Hnd']; subst.
  destruct (keep kv); simpl; [|auto]. constructor; [|auto].
  contradict Hnin. apply in_map_iff in Hnin.
  destruct Hnin as (kv' & E & Hin). apply filter_In in Hin.
  rewrite <- E. apply in_map, Hin.
Qed.

Lemma created_rows_NoDup by_key items :
  NoDup (map fst items) -> NoDup (keys_of (created_rows by_key items)).
Proof.
  intros H. rewrite created_rows_keys. now apply filter_keys_NoDup.
Qed.

Lemma created_rows_non_negative by_key items :
  (forall k v, In (k, v) items -> 0 <= v) ->
  non_negative (created_rows by_key items).
Proof.
  intros H. unfold non_negative, created_rows. apply Forall_forall.
  intros r Hr. apply in_map_iff in Hr. destruct Hr as ([k v] & <- & Hkv).
  apply filter_In in Hkv. simpl. eapply H, Hkv.
Qed.

Lemma moved_non_negative P ms :
  Forall (fun m => 0 <= quantity m) ms -> 0 <= moved P ms.
Proof.
  induction 1 as [|m ms Hm _ IH]; simpl; [lia|]. destruct (P m); lia.
Qed.

Lemma bulk_create_cases lib_ids book_ids to_create :
  forall table,
  NoDup (keys_of to_create) -> non_negative to_create ->
  (forall k, In k (keys_of to_create) -> ~ In k (keys_of table)) ->
  match bulk_create lib_ids book_ids to_create table with
  | Ok table' =>
      table' = table ++ to_create
      /\ (forall k, In k (keys_of to_create) ->
            In (fst k) lib_ids /\ In (snd k) book_ids)
  | Raise _ =>
      exists k, In k (keys_of to_create)
                /\ ~ (In (fst k) lib_ids /\ In (snd k) book_ids)
  end.
Proof.
  induction to_create as [|r new IH]; intros table Hnd Hnn Habs; simpl.
  - rewrite app_nil_r. split; [reflexivity|]. intros k [].
  - inversion Hnd as [|? ? Hnin Hnd']; subst.
    inversion Hnn as [|? ? Hr Hnn']; subst.
    replace (lb_quantity r <? 0) with false
      by (symmetry; apply Z.ltb_ge; lia).
    replace (existsb (has_key (lb_key r)) table) with false.
    2:{ symmetry. apply not_true_is_false. intros E.
        apply existsb_exists in E. destruct E as (x & Hx & E).
        apply has_key_eq in E. apply (Habs (lb_key r)); [now left|].
        rewrite <- E. now apply in_map. }
    destruct (mem (lb_library_id r) lib_ids && mem (lb_book_id r) book_ids)
      eqn:Efk.
    + apply andb_true_iff in Efk. destruct Efk as [Hl Hb].
      apply mem_In in Hl. apply mem_In in Hb.
      specialize (IH (table ++ [r]) Hnd' Hnn').
      destruct (bulk_create lib_ids book_ids new (table ++ [r])) as [t|e].
      * destruct IH as [-> Hfk].
        { intros k Hk. unfold keys_of. rewrite map_app, in_app_iff. simpl.
          intros [H|[H|[]]].
          - apply (Habs k); [now right|assumption].
          - subst k. contradiction. }
        split; [now rewrite <- app_assoc|].
        intros k [<-|Hk]; [now split|auto].
      * destruct IH as (k & Hk & Hfk).
        { intros k Hk. unfold keys_of. rewrite map_app, in_app_iff. simpl.
          intros [H|[H|[]]].
          - apply (Habs k); [now right|assumption].
          - subst k. contradiction. }
        exists k. split; [now right|assumption].
    + exists (lb_key r). split; [now left|]. simpl. intros [Hl Hb].
      apply mem_In in Hl. apply mem_In in Hb. rewrite Hl, Hb in Efk.
      discriminate.
Qed.

(** The effect of [_apply_plan] on a well-formed database, for moves that
    leave from existing rows and take no more than the rows hold: it
    raises only when a move names a library that does not exist. *)
Lemma apply_plan_cases db ms :
  well_formed db ->
  Forall (fun m => 0 <= quantity m) ms ->
  (forall m, In m ms ->
     In (move_source m) (keys_of (LibraryBook_objects db))) ->
  (forall k, moved (fun m => key_eqb k (move_source m)) ms <= holding db k) ->
  match _apply_plan ms db with
  | Ok db' =>
      Library_objects db' = Library_objects db
      /\ Book_objects db' = Book_objects db
      /\ well_formed db'
      /\ (forall P, held P (LibraryBook_objects db')
                    = held P (LibraryBook_objects db)
                      + moved (fun m => P (move_target m)) ms
                      - moved (fun m => P (move_source m)) ms)
  | Raise _ =>
      exists m, In m ms
                /\ ~ In (to_library_id m) (map l_id (Library_objects db))
  end.
Proof.
  intros Hwf Hq Hfrom Hbound. unfold _apply_plan.
  destruct (aggregate_spec ms ([], [])) as (Hi & Hd & Hni & Hnd & Hki & Hkd).
  fold (aggregate ms) in Hi, Hd, Hni, Hnd, Hki, Hkd.
  destruct (aggregate ms) as [inc dec]. simpl in Hi, Hd, Hni, Hnd, Hki, Hkd.
  specialize (Hni (NoDup_nil _)). specialize (Hnd (NoDup_nil _)).
  set (table := LibraryBook_objects db) in *.
  set (by_key := by_key_of (locked_rows (touched inc dec) table)).
  assert (Hbook : forall m, In m ms ->
            In (book_id m) (map b_id (Book_objects db))).
  { intros m Hm. specialize (Hfrom m Hm). apply in_map_iff in Hfrom.
    destruct Hfrom as (h & E & Hh). unfold move_source, lb_key in E.
    injection E as _ <-. now apply (wf_book_fk Hwf). }
  assert (Hnn : non_negative table).
  { apply Forall_forall. apply (wf_quantity_non_negative Hwf). }
  assert (Hinc : forall k v, In (k, v) inc -> 0 <= v).
  { intros k v Hkv. rewrite <- (dict_value inc k v Hni Hkv), Hi. simpl.
    now apply moved_non_negative. }
  destruct (apply_increments_spec by_key (PyDict.items inc) table [])
    as (t1 & Heq1 & Hk1 & Hnn1 & Hh1); auto.
  { apply (wf_uniq_library_book Hwf). }
  { intros k row Hrow. apply by_key_hit in Hrow. destruct Hrow as [E Hrow].
    split; [assumption|]. rewrite <- E. apply in_map.
    eapply locked_rows_In, Hrow. }
  rewrite Heq1. simpl app. simpl bind.
  set (created := created_rows by_key (PyDict.items inc)) in *.
  assert (Hnew : forall k, In k (keys_of created) -> ~ In k (keys_of table)).
  { intros k Hk Hin. apply created_rows_In in Hk. destruct Hk as [Hk Hmiss].
    apply by_key_miss in Hmiss. apply Hmiss.
    apply locked_rows_touched; [|assumption].
    unfold touched. apply nodup_In, in_or_app. now left. }
  pose proof (bulk_create_cases (map l_id (Library_objects db))
                (map b_id (Book_objects db)) created t1
                (created_rows_NoDup by_key _ Hni)
                (created_rows_non_negative by_key _ Hinc)) as Hbulk.
  rewrite Hk1 in Hbulk. specialize (Hbulk Hnew).
  destruct (bulk_create _ _ created t1) as [t|e].
  2:{ simpl. destruct Hbulk as (k & Hk & Hfk).
      apply created_rows_In in Hk. destruct Hk as [Hk _].
      apply Hki in Hk. destruct Hk as [[]|(m & Hm & E)].
      exists m. split; [assumption|]. intros Hto. apply Hfk.
      subst k. unfold move_target. simpl. auto. }
  destruct Hbulk as [-> Hfk]. simpl bind.
  assert (Hnd2 : NoDup (keys_of (t1 ++ created))).
  { unfold keys_of. rewrite map_app. apply NoDup_app.
    - fold (keys_of t1). rewrite Hk1. apply (wf_uniq_library_book Hwf).
    - apply created_rows_NoDup, Hni.
    - intros k Hk Hc. fold (keys_of t1) in Hk. rewrite Hk1 in Hk.
      now apply (Hnew k). }
  assert (Hnn2 : non_negative (t1 ++ created)).
  { apply Forall_app. split; [assumption|].
    apply created_rows_non_negative, Hinc. }
  destruct (apply_decrements_spec (PyDict.items dec) (t1 ++ created))
    as (t2 & Heq2 & Hk2 & Hnn3 & Hh2); auto.
  { intros k v Hkv. split.
    - unfold keys_of. rewrite map_app, in_app_iff. left.
      fold (keys_of t1). rewrite Hk1.
      assert (Hin : In k (PyDict.keys dec))
        by (change k with (fst (k, v)); now apply in_map).
      apply Hkd in Hin. destruct Hin as [[]|(m & Hm & <-)]. auto.
    - rewrite <- (dict_value dec k v Hnd Hkv), Hd. simpl.
      rewrite held_app. specialize (Hh1 (key_eqb k)). fold created in Hh1.
      rewrite Hi in Hh1. simpl in Hh1.
      pose proof (moved_non_negative
                    (fun m => key_eqb k (move_target m)) ms Hq).
      specialize (Hbound k). unfold holding in Hbound. fold table in Hbound.
      lia. }
  rewrite Heq2. simpl.
  split; [reflexivity|]. split; [reflexivity|]. split.
  - constructor; simpl; try apply Hwf.
    + fold (keys_of t2). now rewrite Hk2.
    + intros h Hh. apply (in_map lb_key) in Hh. fold (keys_of t2) in Hh.
      rewrite Hk2 in Hh. unfold keys_of in Hh. rewrite map_app in Hh.
      apply in_app_iff in Hh. destruct Hh as [Hh|Hh].
      * fold (keys_of t1) in Hh. rewrite Hk1 in Hh.
        apply in_map_iff in Hh. destruct Hh as (h' & E & Hh').
        unfold lb_key in E. injection E as E1 E2. rewrite <- E1.
        now apply (wf_library_fk Hwf).
      * apply (Hfk _ Hh).
    + intros h Hh. apply (in_map lb_key) in Hh. fold (keys_of t2) in Hh.
      rewrite Hk2 in Hh. unfold keys_of in Hh. rewrite map_app in Hh.
      apply in_app_iff in Hh. destruct Hh as [Hh|Hh].
      * fold (keys_of t1) in Hh. rewrite Hk1 in Hh.
        apply in_map_iff in Hh. destruct Hh as (h' & E & Hh').
        unfold lb_key in E. injection E as E1 E2. rewrite <- E2.
        now apply (wf_book_fk Hwf).
      * apply (Hfk _ Hh).
    + intros h Hh. unfold non_negative in Hnn3.
      rewrite Forall_forall in Hnn3. auto.
  - intros P. rewrite Hh2, held_app, Hd. specialize (Hh1 P).
    fold created in Hh1. rewrite Hi in Hh1. simpl in Hh1 |- *. lia.
Qed.

(* ================================================================== *)
(** * Donors, holdings and the free-capacity map *)

Lemma spare_table_absent l b table :
  ~ In (l, b) (keys_of table) ->
  spare l (filter (fun h => 1 <? lb_quantity h)
             (filter (fun h => lb_book_id h =? b) table)) = 0.
Proof.
  induction table as [|r t IH]; simpl; intros H; [reflexivity|].
  destruct (Z.eqb_spec (lb_book_id r) b) as [Eb|Eb]; simpl; [|apply IH; tauto].
  destruct (1 <? lb_quantity r); simpl; [|apply IH; tauto].
  rewrite IH by tauto.
  destruct (Z.eqb_spec (lb_library_id r) l) as [El|El]; [|reflexivity].
  exfalso. apply H. left. unfold lb_key. congruence.
Qed.

Lemma spare_holding db l b :
  NoDup (keys_of (LibraryBook_objects db)) ->
  spare l (donor_rows db b) = Z.max 0 (holding db (l, b) - 1).
Proof.
  unfold donor_rows, holdings_of, holding.
  induction (LibraryBook_objects db) as [|r t IH]; simpl; intros Hnd;
    [reflexivity|].
  inversion Hnd as [|? ? Hnin Hnd']; subst. rewrite held_cons.
  destruct (key_dec (lb_key r) (l, b)) as [E|E].
  - unfold lb_key in E. injection E as El Eb. subst l b.
    change (lb_library_id r, lb_book_id r) with (lb_key r) in *.
    rewrite key_eqb_refl, held_absent by assumption.
    rewrite Z.eqb_refl. simpl.
    destruct (Z.ltb_spec 1 (lb_quantity r)); simpl.
    + rewrite Z.eqb_refl, spare_table_absent by assumption. lia.
    + rewrite spare_table_absent by assumption. lia.
  - replace (key_eqb (l, b) (lb_key r)) with false
      by (symmetry; apply key_eqb_neq; congruence).
    rewrite Z.add_0_l, <- IH by assumption.
    destruct (Z.eqb_spec (lb_book_id r) b) as [Eb|Eb]; simpl; [|lia].
    destruct (1 <? lb_quantity r); simpl; [|lia].
    destruct (Z.eqb_spec (lb_library_id r) l) as [El|El]; [|lia].
    exfalso. apply E. unfold lb_key. congruence.
Qed.

Lemma donor_row_key db m :
  In (from_library_id m) (map lb_library_id (donor_rows db (book_id m))) ->
  exists h, In h (LibraryBook_objects db) /\ lb_key h = move_source m
            /\ 1 < lb_quantity h.
Proof.
  intros H. apply in_map_iff in H. destruct H as (h & E & Hh).
  unfold donor_rows, holdings_of in Hh.
  apply filter_In in Hh. destruct Hh as [Hh Hq].
  apply filter_In in Hh. destruct Hh as [Hh Hb].
  apply Z.eqb_eq in Hb. apply Z.ltb_lt in Hq.
  exists h. repeat split; auto. unfold lb_key, move_source. congruence.
Qed.

Section FoldSet.
Variables K V A : Type.
Variable K_dec : forall a b : K, {a = b} + {a <> b}.
Variable f : A -> K.
Variable g : A -> V.

Lemma fold_set_keys_gen (l : list A) :
  forall d k,
  In k (PyDict.keys (fold_left (fun d x => PyDict.set K_dec d (f x) (g x)) l d))
  <-> In k (map f l) \/ In k (PyDict.keys d).
Proof.
  induction l as [|x l IH]; intros d k; simpl; [tauto|].
  rewrite IH, In_keys_set. intuition congruence.
Qed.

Lemma fold_set_get_other (l : list A) :
  forall d k, ~ In k (map f l) ->
  PyDict.get K_dec (fold_left (fun d x => PyDict.set K_dec d (f x) (g x)) l d) k
  = PyDict.get K_dec d k.
Proof.
  induction l as [|x l IH]; intros d k H; simpl in *; [reflexivity|].
  rewrite IH by tauto. apply get_set_other. intros ->. tauto.
Qed.

Lemma fold_set_get_gen (l : list A) :
  forall d x, NoDup (map f l) -> In x l ->
  PyDict.get K_dec (fold_left (fun d x => PyDict.set K_dec d (f x) (g x)) l d)
    (f x) = Some (g x).
Proof.
  induction l as [|y l IH]; intros d x Hnd Hin; simpl in *; [contradiction|].
  inversion Hnd as [|? ? Hnin Hnd']; subst.
  destruct Hin as [->|Hin].
  - rewrite fold_set_get_other by assumption. apply get_set_same.
  - now apply IH.
Qed.

End FoldSet.

Lemma compute_free_capacity_keys db l :
  In l (PyDict.keys (_compute_free_capacity db))
  <-> In l (map l_id (Library_objects db)).
Proof.
  unfold _compute_free_capacity.
  rewrite (fold_set_keys_gen Z Z Library Z.eq_dec l_id
             (fun lib => l_capacity lib - used_capacity db (l_id lib))).
  simpl. tauto.
Qed.

Lemma capacity_of_library db lib :
  NoDup (map l_id (Library_objects db)) -> In lib (Library_objects db) ->
  capacity_of db (l_id lib) = l_capacity lib.
Proof.
  unfold capacity_of.
  induction (Library_objects db) as [|x libs IH]; simpl; intros Hnd Hin;
    [contradiction|].
  inversion Hnd as [|? ? Hnin Hnd']; subst.
  destruct (Z.eqb_spec (l_id x) (l_id lib)) as [E|E].
  - destruct Hin as [->|Hin]; [reflexivity|].
    exfalso. apply Hnin. rewrite E. now apply in_map.
  - destruct Hin as [->|Hin]; [contradiction|]. now apply IH.
Qed.

Lemma compute_free_capacity_get db lib :
  NoDup (map l_id (Library_objects db)) -> In lib (Library_objects db) ->
  PyDict.get Z.eq_dec (_compute_free_capacity db) (l_id lib)
  = Some (l_capacity lib - used_capacity db (l_id lib)).
Proof.
  intros Hnd Hin. unfold _compute_free_capacity.
  apply (fold_set_get_gen Z Z Library Z.eq_dec l_id
           (fun lib => l_capacity lib - used_capacity db (l_id lib)));
    assumption.
Qed.

Lemma recipient_domain_known db self :
  known_libraries db self ->
  incl (recipient_domain self db) (map l_id (Library_objects db)).
Proof.
  unfold known_libraries. intros Hk l Hl.
  destruct self as [d|d fc|d fc p a]; simpl in *; [assumption| |];
    unfold effective_capacity in Hl;
    (destruct (PyDict.is_empty fc);
     [now apply compute_free_capacity_keys in Hl|auto]).
Qed.

Lemma tracked_bound db self lib :
  well_formed db -> tracked_sound db self -> In lib (Library_objects db) ->
  is_capacity_aware self = true ->
  tracked self db (l_id lib)
  <= Z.max 0 (l_capacity lib - used_capacity db (l_id lib)).
Proof.
  intros Hwf Hs Hin Hca. unfold tracked, effective_capacity.
  destruct (PyDict.is_empty (free_capacity self)) eqn:E.
  - unfold PyDict.get_default.
    rewrite compute_free_capacity_get; auto using wf_library_pk. lia.
  - unfold PyDict.get_default.
    destruct (PyDict.get Z.eq_dec (free_capacity self) (l_id lib)) as [v|] eqn:G;
      [|lia].
    apply get_Some_In in G. apply Hs in G.
    rewrite capacity_of_library in G; auto using wf_library_pk. lia.
Qed.

(* ================================================================== *)
(** * Coverage *)

Lemma total_held db b :
  total db b = held (fun k => snd k =? b) (LibraryBook_objects db).
Proof. reflexivity. Qed.

Lemma used_capacity_held db l :
  used_capacity db l = held (fun k => fst k =? l) (LibraryBook_objects db).
Proof. reflexivity. Qed.

Lemma covering_In db b l :
  In l (covering (holdings_of db b)) <->
  exists h, In h (LibraryBook_objects db) /\ lb_key h = (l, b)
            /\ 0 < lb_quantity h.
Proof.
  unfold covering, holdings_of. rewrite nodup_In, in_map_iff. split.
  - intros (h & <- & Hh). apply filter_In in Hh. destruct Hh as [Hh Hq].
    apply filter_In in Hh. destruct Hh as [Hh Hb].
    apply Z.eqb_eq in Hb. apply Z.ltb_lt in Hq.
    exists h. repeat split; auto. unfold lb_key. congruence.
  - intros (h & Hh & E & Hq). unfold lb_key in E. injection E as <- <-.
    exists h. split; [reflexivity|].
    apply filter_In. split; [|now apply Z.ltb_lt].
    apply filter_In. split; [assumption|apply Z.eqb_refl].
Qed.

Lemma covering_holding db b l :
  NoDup (keys_of (LibraryBook_objects db)) ->
  In l (covering (holdings_of db b)) <-> 0 < holding db (l, b).
Proof.
  intros Hnd. rewrite covering_In. unfold holding. split.
  - intros (h & Hh & E & Hq). rewrite <- E, held_present; assumption.
  - intros Hq.
    destruct (in_dec key_dec (l, b) (keys_of (LibraryBook_objects db)))
      as [Hin|Hnin].
    + apply in_map_iff in Hin. destruct Hin as (h & E & Hh).
      exists h. split; [assumption|]. split; [assumption|].
      rewrite <- E, held_present in Hq; assumption.
    + rewrite held_absent in Hq by assumption. lia.
Qed.

Lemma donor_covering db b l :
  In l (map lb_library_id (donor_rows db b)) ->
  In l (covering (holdings_of db b)).
Proof.
  intros H. apply in_map_iff in H. destruct H as (h & <- & Hh).
  unfold donor_rows in Hh. apply filter_In in Hh. destruct Hh as [Hh Hq].
  unfold covering. apply nodup_In, in_map, filter_In.
  split; [assumption|]. apply Z.ltb_lt in Hq. apply Z.ltb_lt. lia.
Qed.

Lemma positive_rows_sum rows :
  non_negative rows ->
  Z.of_nat (List.length (filter (fun h => 0 <? lb_quantity h) rows))
  <= sum_quantity rows.
Proof.
  induction 1 as [|r rows Hr _ IH]; simpl; [lia|].
  destruct (Z.ltb_spec 0 (lb_quantity r)); simpl List.length; lia.
Qed.

Lemma coverage_bound db b :
  well_formed db -> coverage db b <= Z.min (nlibs_of db) (total db b).
Proof.
  intros Hwf. unfold coverage, nlibs_of, total. apply Z.min_glb.
  - rewrite <- (length_map l_id). apply inj_le.
    apply NoDup_incl_length; [apply NoDup_nodup|].
    intros l Hl. apply covering_In in Hl. destruct Hl as (h & Hh & E & _).
    unfold lb_key in E. injection E as <- _. now apply (wf_library_fk Hwf).
  - etransitivity; [|apply positive_rows_sum].
    + unfold covering. apply inj_le.
      etransitivity;
        [apply NoDup_incl_length;
           [apply NoDup_nodup|intros x Hx; apply nodup_In in Hx; exact Hx]|].
      now rewrite length_map.
    + apply Forall_forall. intros h Hh. unfold holdings_of in Hh.
      apply filter_In in Hh. apply (wf_quantity_non_negative Hwf), Hh.
Qed.

Lemma coverage_mono db db' b :
  NoDup (keys_of (LibraryBook_objects db)) ->
  NoDup (keys_of (LibraryBook_objects db')) ->
  (forall k, 0 < holding db k -> 0 < holding db' k) ->
  coverage db b <= coverage db' b.
Proof.
  intros Hnd Hnd' Hpos. unfold coverage. apply inj_le.
  apply NoDup_incl_length; [apply NoDup_nodup|].
  intros l Hl. apply covering_holding; [assumption|].
  apply Hpos. now apply covering_holding.
Qed.

(* ================================================================== *)
(** * A run on a well-formed database *)

Lemma run_plan_apply_cases db dom ms :
  well_formed db -> run_plan db dom ms ->
  match _apply_plan ms db with
  | Ok db' =>
      Library_objects db' = Library_objects db
      /\ Book_objects db' = Book_objects db
      /\ well_formed db'
      /\ (forall P, held P (LibraryBook_objects db')
                    = held P (LibraryBook_objects db)
                      + moved (fun m => P (move_target m)) ms
                      - moved (fun m => P (move_source m)) ms)
  | Raise _ =>
      exists m, In m ms
                /\ ~ In (to_library_id m) (map l_id (Library_objects db))
  end.
Proof.
  intros Hwf (Hall & Hnd & Hsp). rewrite Forall_forall in Hall.
  apply apply_plan_cases; auto.
  - apply Forall_forall. intros m Hm. destruct (Hall m Hm) as [-> _]. lia.
  - intros m Hm. destruct (Hall m Hm) as (_ & Hfrom & _).
    destruct (donor_row_key db m Hfrom) as (h & Hh & <- & _).
    now apply in_map.
  - intros [l b]. specialize (Hsp l b).
    rewrite spare_holding in Hsp by apply (wf_uniq_library_book Hwf).
    assert (0 <= holding db (l, b)).
    { apply held_non_negative, Forall_forall.
      apply (wf_quantity_non_negative Hwf). }
    lia.
Qed.

Lemma run_plan_apply db dom ms :
  well_formed db -> incl dom (map l_id (Library_objects db)) ->
  run_plan db dom ms ->
  exists db',
    _apply_plan ms db = Ok db'
    /\ Library_objects db' = Library_objects db
    /\ Book_objects db' = Book_objects db
    /\ well_formed db'
    /\ (forall P, held P (LibraryBook_objects db')
                  = held P (LibraryBook_objects db)
                    + moved (fun m => P (move_target m)) ms
                    - moved (fun m => P (move_source m)) ms).
Proof.
  intros Hwf Hdom Hrun.
  pose proof (run_plan_apply_cases db dom ms Hwf Hrun) as H.
  destruct (_apply_plan ms db) as [db'|e].
  - exists db'. split; [reflexivity|exact H].
  - destruct H as (m & Hm & Habs). exfalso. apply Habs, Hdom.
    destruct Hrun as (Hall & _). rewrite Forall_forall in Hall.
    apply (Hall m Hm).
Qed.

Lemma moved_into_at_most_one ms l b :
  Forall (fun m => quantity m = 1) ms ->
  NoDup (map to_library_id (filter (fun m => book_id m =? b) ms)) ->
  moved (fun m => key_eqb (l, b) (move_target m)) ms <= 1.
Proof.
  induction 1 as [|m ms Hm Hall IH]; simpl; intros Hnd; [lia|].
  assert (Hzero : ~ In l (map to_library_id
                            (filter (fun m => book_id m =? b) ms)) ->
                  moved (fun m => key_eqb (l, b) (move_target m)) ms = 0).
  { intros Hnin. apply moved_none. intros m' Hm'.
    apply key_eqb_neq. unfold move_target. intros [= -> ->].
    apply Hnin. apply in_map, filter_In. split; [assumption|apply Z.eqb_refl]. }
  unfold key_eqb at 1. unfold move_target at 1. simpl.
  destruct (Z.eqb_spec (book_id m) b) as [Eb|Eb].
  - simpl in Hnd. inversion Hnd as [|? ? Hnin Hnd']; subst.
    destruct (Z.eqb_spec l (to_library_id m)) as [El|El]; simpl.
    + rewrite Z.eqb_refl, Hm, Hzero; [lia|]. now rewrite El.
    + specialize (IH Hnd'). lia.
  - replace (b =? book_id m) with false
      by (symmetry; apply Z.eqb_neq; congruence).
    rewrite andb_false_r. specialize (IH Hnd). lia.
Qed.

Section Properties.
Variable set_difference_iter : list Z -> list Z -> list Z.
Hypothesis set_difference_NoDup :
  forall xs ys, NoDup (set_difference_iter xs ys).
Hypothesis set_difference_In :
  forall xs ys x, In x (set_difference_iter xs ys) <-> In x xs /\ ~ In x ys.

(** Whatever [rebalance] returns, its moves obey [run_plan]. *)
Lemma rebalance_returns_run_plan self db plan self' db' :
  rebalance set_difference_iter self db = Ok (plan, self', db') ->
  run_plan db (recipient_domain self db) (moves plan).
Proof.
  intros Hret. destruct (book_order self db) as [books|e] eqn:Hbooks.
  - destruct (rebalance_plan set_difference_iter set_difference_NoDup
                set_difference_In self db books Hbooks)
      as (ms & self1 & Heq & Hrun & _).
    rewrite Heq in Hret. unfold finish in Hret.
    destruct (if dry_run self1 then Ok db else _apply_plan ms db);
      simpl in Hret; [|discriminate].
    injection Hret as <- _ _. exact Hrun.
  - rewrite rebalance_unfold, Hbooks in Hret. discriminate.
Qed.

(** On a well-formed database a run returns, and its plan can be applied:
    [applied] is the database after [_apply_plan]. *)
Lemma rebalance_applied self db :
  well_formed db -> known_libraries db self ->
  exists plan self' applied,
    rebalance set_difference_iter self db
    = Ok (plan, self', if dry_run self then db else applied)
    /\ _apply_plan (moves plan) db = Ok applied
    /\ run_plan db (recipient_domain self db) (moves plan)
    /\ well_formed applied
    /\ Library_objects applied = Library_objects db
    /\ (forall P, held P (LibraryBook_objects applied)
                  = held P (LibraryBook_objects db)
                    + moved (fun m => P (move_target m)) (moves plan)
                    - moved (fun m => P (move_source m)) (moves plan))
    /\ (is_capacity_aware self = true ->
        (forall l, tracked self' db l
                   = tracked self db l
                     - moved (fun m => to_library_id m =? l) (moves plan))
        /\ (forall l, Z.min 0 (tracked self db l) <= tracked self' db l)).
Proof.
  intros Hwf Hknown.
  destruct (book_order_ok self db (wf_book_fk Hwf)) as [books Hbooks].
  destruct (rebalance_plan set_difference_iter set_difference_NoDup
              set_difference_In self db books Hbooks)
    as (ms & self1 & Heq & Hrun & Hself & _ & Hcap).
  destruct (run_plan_apply db _ ms Hwf (recipient_domain_known db self Hknown)
              Hrun)
    as (applied & Happ & Hlibs & _ & Hwf' & Hheld).
  exists (mkPlan ms (Z.of_nat (List.length ms)) (Z.of_nat (List.length books))),
    self1, applied.
  simpl. rewrite Heq. unfold finish.
  assert (Hdry : dry_run self1 = dry_run self)
    by (rewrite Hself; apply dry_run_set_free_capacity).
  rewrite Hdry, Happ. split; [now destruct (dry_run self)|].
  split; [reflexivity|]. split; [assumption|]. split; [assumption|].
  split; [assumption|]. split; [assumption|].
  intros Hca. destruct (Hcap Hca) as (Hv & Hm & _). now split.
Qed.

Lemma rebalance_applies_own_plan self db plan self' db' :
  rebalance set_difference_iter self db = Ok (plan, self', db') ->
  if dry_run self then db' = db else _apply_plan (moves plan) db = Ok db'.
Proof.
  intros Hret. destruct (book_order self db) as [books|e] eqn:Hbooks.
  - destruct (rebalance_plan set_difference_iter set_difference_NoDup
                set_difference_In self db books Hbooks)
      as (ms & self1 & Heq & _ & Hself & _).
    rewrite Heq in Hret. unfold finish in Hret.
    assert (Hdry : dry_run self1 = dry_run self)
      by (rewrite Hself; apply dry_run_set_free_capacity).
    rewrite Hdry in Hret. destruct (dry_run self).
    + simpl in Hret. now injection Hret as _ _ <-.
    + destruct (_apply_plan ms db) as [applied|e] eqn:Happ; simpl in Hret;
        [|discriminate].
      injection Hret as <- _ <-. exact Happ.
  - rewrite rebalance_unfold, Hbooks in Hret. discriminate.
Qed.

(** C1. Whatever class of manager produced a plan on a well-formed
    database, when [_apply_plan] applies it, the sum of the quantities of
    every book over all libraries is the same before and after, and every
    holding changes by the copies moved in minus the copies moved out. A
    run without [dry_run] applies its own plan in this way. *)
Theorem apply_conserves_copies self db plan self' db' applied :
  well_formed db ->
  rebalance set_difference_iter self db = Ok (plan, self', db') ->
  _apply_plan (moves plan) db = Ok applied ->
  (forall book, total applied book = total db book)
  /\ (forall k, holding applied k
                = holding db k
                  + moved (fun m => key_eqb k (move_target m)) (moves plan)
                  - moved (fun m => key_eqb k (move_source m)) (moves plan))
  /\ (if dry_run self then db' = db else db' = applied).
Proof.
  intros Hwf Hret Happ.
  pose proof (rebalance_returns_run_plan self db plan self' db' Hret) as Hrun.
  pose proof (run_plan_apply_cases db _ (moves plan) Hwf Hrun) as H.
  rewrite Happ in H. destruct H as (_ & _ & _ & Hheld).
  split; [|split].
  - intros book. rewrite !total_held, Hheld.
    unfold move_target, move_source. simpl. lia.
  - intros k. unfold holding. apply Hheld.
  - pose proof (rebalance_applies_own_plan self db plan self' db' Hret) as Hown.
    destruct (dry_run self); [assumption|congruence].
Qed.

(** C2. After the plan of a run is applied, the coverage of every book is
    at most the number of libraries counted at the start and at most the
    total of the book, and it is not below the coverage before the run. *)
Theorem coverage_after_apply self db plan self' db' applied :
  well_formed db ->
  rebalance set_difference_iter self db = Ok (plan, self', db') ->
  _apply_plan (moves plan) db = Ok applied ->
  forall book,
    coverage db book <= coverage applied book
    /\ coverage applied book <= Z.min (nlibs_of db) (total applied book).
Proof.
  intros Hwf Hret Happ book.
  pose proof (rebalance_returns_run_plan self db plan self' db' Hret) as Hrun.
  pose proof (run_plan_apply_cases db _ (moves plan) Hwf Hrun) as H.
  rewrite Happ in H. destruct H as (Hlibs & _ & Hwf' & Hheld).
  split.
  - apply coverage_mono; try apply wf_uniq_library_book; auto.
    intros [l b] Hpos. unfold holding in *. rewrite Hheld.
    destruct Hrun as (Hall & _ & Hsp). specialize (Hsp l b).
    rewrite spare_holding in Hsp by apply (wf_uniq_library_book Hwf).
    unfold holding in Hsp.
    assert (0 <= moved (fun m => key_eqb (l, b) (move_target m))
                   (moves plan)).
    { apply moved_non_negative. eapply Forall_impl; [|exact Hall].
      intros m (-> & _). lia. }
    lia.
  - pose proof (coverage_bound applied book Hwf') as H.
    unfold nlibs_of in *. now rewrite Hlibs in H.
Qed.

(** C3. In the plan of a run, the moves of a book that leave a library
    carry at most its quantity minus one, every move leaves a holding of
    more than one copy, and the donors the planner walks through are the
    rows of the book with a quantity above one. *)
Theorem donors_keep_one_copy self db plan self' db' :
  well_formed db ->
  rebalance set_difference_iter self db = Ok (plan, self', db') ->
  (forall l b,
     moved (fun m => key_eqb (l, b) (move_source m)) (moves plan)
     <= Z.max 0 (holding db (l, b) - 1))
  /\ (forall m, In m (moves plan) ->
        quantity m = 1 /\ 1 < holding db (move_source m))
  /\ (forall book h,
        In h (donors_of (holdings_of db book)) <->
        In h (LibraryBook_objects db) /\ lb_book_id h = book
        /\ 1 < lb_quantity h).
Proof.
  intros Hwf Hret.
  destruct (rebalance_returns_run_plan _ _ _ _ _ Hret) as (Hall & _ & Hsp).
  pose proof (wf_uniq_library_book Hwf) as Hnd. repeat split.
  - intros l b. rewrite <- spare_holding by assumption. apply Hsp.
  - rewrite Forall_forall in Hall. apply (Hall m H).
  - rewrite Forall_forall in Hall. destruct (Hall m H) as (_ & Hfrom & _).
    destruct (donor_row_key db m Hfrom) as (h & Hh & <- & Hq).
    unfold holding. now rewrite held_present.
  - apply (Permutation_in _ (donors_of_perm db book)) in H.
    unfold donor_rows, holdings_of in H. apply filter_In in H.
    destruct H as [H _]. now apply filter_In in H.
  - apply (Permutation_in _ (donors_of_perm db book)) in H.
    unfold donor_rows, holdings_of in H. apply filter_In in H.
    destruct H as [H _]. apply filter_In in H. now apply Z.eqb_eq.
  - apply (Permutation_in _ (donors_of_perm db book)) in H.
    unfold donor_rows in H. apply filter_In in H. now apply Z.ltb_lt.
  - intros (Hh & Hb & Hq).
    apply (Permutation_in _ (Permutation_sym (donors_of_perm db book))).
    unfold donor_rows, holdings_of.
    apply filter_In. split; [|now apply Z.ltb_lt].
    apply filter_In. split; [assumption|now apply Z.eqb_eq].
Qed.

(** X29. A capacity-aware run whose manager starts
    with the empty map of a new object, or with a map that names only
    libraries of the database and does not overstate their room, on a
    database in which every library is within its capacity: the run returns
    without error, and after its plan is applied every library is still
    within its capacity; the tracked free capacity of a library goes down
    by the copies moved into it, never from a non-negative value to a
    negative one, so the copies moved into a library are at most the
    positive part of its tracked free capacity. *)
Theorem capacity_respected self db :
  well_formed db -> is_capacity_aware self = true ->
  known_libraries db self -> tracked_sound db self ->
  within_capacity db ->
  exists plan self' applied,
    rebalance set_difference_iter self db
    = Ok (plan, self', if dry_run self then db else applied)
    /\ _apply_plan (moves plan) db = Ok applied
    /\ within_capacity applied
    /\ (forall l, tracked self' db l
                  = tracked self db l
                    - moved (fun m => to_library_id m =? l) (moves plan))
    /\ (forall l, 0 <= tracked self db l -> 0 <= tracked self' db l)
    /\ (forall l, moved (fun m => to_library_id m =? l) (moves plan)
                  <= Z.max 0 (tracked self db l)).
Proof.
  intros Hwf Hca Hknown Hsound Hwithin.
  destruct (rebalance_applied self db Hwf Hknown)
    as (plan & self' & applied & Hret & Happ & Hrun & Hwf' & Hlibs & Hheld
        & Hcap).
  destruct (Hcap Hca) as [Hv Hm].
  exists plan, self', applied. repeat split; auto.
  - intros lib Hlib. rewrite Hlibs in Hlib.
    rewrite used_capacity_held, Hheld, <- used_capacity_held.
    unfold move_target, move_source. simpl.
    pose proof (tracked_bound db self lib Hwf Hsound Hlib Hca) as Hb.
    specialize (Hv (l_id lib)). specialize (Hm (l_id lib)).
    specialize (Hwithin lib Hlib).
    assert (0 <= moved (fun m => from_library_id m =? l_id lib)
                   (moves plan)).
    { apply moved_non_negative. destruct Hrun as (Hall & _).
      eapply Forall_impl; [|exact Hall]. intros m (-> & _). lia. }
    lia.
  - intros l Hl. specialize (Hm l). lia.
  - intros l. specialize (Hv l). specialize (Hm l). lia.
Qed.

(** C10. In every plan that [rebalance] returns, every move carries one
    copy, the destinations of the moves of one book are pairwise distinct
    and none of them is the source of a move of that book, so the
    dictionaries [inc] and [dec] of [_apply_plan] share no key and every
    value of [inc] is 1. *)
Theorem unit_moves_disjoint_keys self db plan self' db' :
  rebalance set_difference_iter self db = Ok (plan, self', db') ->
  Forall (fun m => quantity m = 1) (moves plan)
  /\ (forall book,
        NoDup (map to_library_id
                 (filter (fun m => book_id m =? book) (moves plan))))
  /\ (forall m1 m2, In m1 (moves plan) -> In m2 (moves plan) ->
        book_id m1 = book_id m2 ->
        to_library_id m1 <> from_library_id m2)
  /\ (forall k, In k (PyDict.keys (fst (aggregate (moves plan)))) ->
                ~ In k (PyDict.keys (snd (aggregate (moves plan)))))
  /\ (forall k v, In (k, v) (fst (aggregate (moves plan))) -> v = 1).
Proof.
  intros Hret.
  destruct (rebalance_returns_run_plan _ _ _ _ _ Hret) as (Hall & Hnd & _).
  assert (Hunit : Forall (fun m => quantity m = 1) (moves plan)).
  { eapply Forall_impl; [|exact Hall]. now intros m (? & _). }
  rewrite Forall_forall in Hall.
  assert (Hdisj : forall m1 m2, In m1 (moves plan) -> In m2 (moves plan) ->
            book_id m1 = book_id m2 ->
            to_library_id m1 <> from_library_id m2).
  { intros m1 m2 H1 H2 Eb E.
    destruct (Hall m1 H1) as (_ & _ & _ & Hto).
    destruct (Hall m2 H2) as (_ & Hfrom & _).
    apply Hto. rewrite Eb, E. now apply donor_covering. }
  destruct (aggregate_spec (moves plan) ([], []))
    as (Hi & _ & Hni & _ & Hki & Hkd).
  fold (aggregate (moves plan)) in Hi, Hni, Hki, Hkd. simpl in Hi, Hki, Hkd.
  repeat split; auto.
  - intros k Hinc Hdec.
    apply Hki in Hinc. destruct Hinc as [[]|(m1 & H1 & E1)].
    apply Hkd in Hdec. destruct Hdec as [[]|(m2 & H2 & E2)].
    rewrite <- E2 in E1. unfold move_target, move_source in E1.
    injection E1 as El Eb. now apply (Hdisj m1 m2).
  - intros [l b] v Hkv.
    rewrite <- (dict_value _ _ _ (Hni (NoDup_nil _)) Hkv), Hi. simpl.
    pose proof (moved_into_at_most_one (moves plan) l b Hunit (Hnd b)) as Hle.
    assert (Hin : In (l, b) (PyDict.keys (fst (aggregate (moves plan)))))
      by (change (l, b) with (fst ((l, b), v)); now apply in_map).
    apply Hki in Hin. destruct Hin as [[]|(m & Hm & E)].
    assert (Hge : 1 <= moved (fun m => key_eqb (l, b) (move_target m))
                         (moves plan)).
    { clear - Hm E Hunit. induction (moves plan) as [|m' ms IH];
        [contradiction|].
      inversion Hunit as [|? ? Hq Hunit']; subst. rewrite moved_cons.
      pose proof (moved_non_negative
                    (fun m => key_eqb (l, b) (move_target m)) ms) as Hnn.
      destruct Hm as [->|Hm].
      - rewrite E, key_eqb_refl, Hq.
        assert (0 <= moved (fun m => key_eqb (l, b) (move_target m)) ms).
        { apply Hnn. eapply Forall_impl; [|exact Hunit'].
          intros x ->. lia. }
        lia.
      - specialize (IH Hunit' Hm).
        destruct (key_eqb (l, b) (move_target m')); lia. }
    lia.
Qed.

Lemma rebalance_returns self db plan self' db' :
  rebalance set_difference_iter self db = Ok (plan, self', db') ->
  exists books,
    book_order self db = Ok books
    /\ self' = set_free_capacity self (free_capacity self')
    /\ (dry_run self = true -> db' = db)
    /\ (forall m, In m (moves plan) -> In (book_id m) books)
    /\ (is_capacity_aware self = true ->
        (forall l, tracked self' db l
                   = tracked self db l
                     - moved (fun m => to_library_id m =? l) (moves plan))
        /\ (books <> [] ->
            PyDict.keys (free_capacity self') = recipient_domain self db)).
Proof.
  intros Hret. destruct (book_order self db) as [books|e] eqn:Hbooks.
  - destruct (rebalance_plan set_difference_iter set_difference_NoDup
                set_difference_In self db books Hbooks)
      as (ms & self1 & Heq & _ & Hself & Horigin & Hcap).
    rewrite Heq in Hret. unfold finish in Hret.
    assert (Hdry : dry_run self1 = dry_run self)
      by (rewrite Hself; apply dry_run_set_free_capacity).
    rewrite Hdry in Hret. exists books. split; [reflexivity|].
    destruct (dry_run self).
    + simpl in Hret. injection Hret as <- <- <-. simpl.
      repeat split; auto; now apply Hcap.
    + destruct (_apply_plan ms db); simpl in Hret; [|discriminate].
      injection Hret as <- <- <-. simpl.
      repeat split; auto; try discriminate; now apply Hcap.
  - rewrite rebalance_unfold, Hbooks in Hret. discriminate.
Qed.

















(** C8, as the code has it. The free-capacity map is an attribute of the
    manager object and outlives the call: after a run that planned a move,
    the map of the object is not empty, so a later call on the same object
    works with that map whatever the database holds, and the map is the
    view the run started from, lowered by the copies planned into each
    library. *)
Theorem second_run_sees_leftover_map self db plan self' db' :
  is_capacity_aware self = true ->
  rebalance set_difference_iter self db = Ok (plan, self', db') ->
  moves plan <> [] ->
  (forall db2, effective_capacity (free_capacity self') db2
               = free_capacity self')
  /\ (forall l, PyDict.get_default Z.eq_dec (free_capacity self') l 0
                = tracked self db l
                  - moved (fun m => to_library_id m =? l) (moves plan)).
Proof.
  intros Hca Hret Hmoves.
  pose proof (rebalance_returns_run_plan self db plan self' db' Hret)
    as (Hall & _).
  destruct (rebalance_returns self db plan self' db' Hret)
    as (books & _ & _ & _ & Horigin & Hcap).
  destruct (Hcap Hca) as (Hv & Hkeys).
  destruct (moves plan) as [|m ms] eqn:E; [contradiction|].
  assert (Hbooks : books <> []).
  { intros ->. apply (Horigin m). now left. }
  specialize (Hkeys Hbooks).
  inversion Hall as [|? ? (_ & _ & Hto & _) _]; subst.
  assert (Hne : PyDict.is_empty (free_capacity self') = false).
  { destruct (free_capacity self'); [|reflexivity].
    simpl in Hkeys. rewrite <- Hkeys in Hto. contradiction. }
  assert (Heff : forall db2, effective_capacity (free_capacity self') db2
                             = free_capacity self').
  { intros db2. unfold effective_capacity. now rewrite Hne. }
  split; [exact Heff|].
  intros l. rewrite <- Hv. unfold tracked. now rewrite Heff.
Qed.

End Properties.

(* ================================================================== *)
(** * No library *)

Lemma candidate_book_ids_none db nlibs :
  nlibs <= 0 -> _candidate_book_ids nlibs db = [].
Proof.
  intros H. unfold _candidate_book_ids. apply filter_none. intros b _.
  apply andb_false_iff. left. apply Z.ltb_ge. lia.
Qed.

Lemma apply_plan_nil db : _apply_plan [] db = Ok db.
Proof. destruct db. reflexivity. Qed.

(** C6, as the code has it. With no library, [rebalance] of every class
    returns an ordinary report with no book considered and no move, and
    leaves the manager and the database as they were; it raises
    nothing. *)
Theorem no_libraries_empty_report
    (set_difference_iter : list Z -> list Z -> list Z)
    (self : Manager) (db : Database) :
  Library_objects db = [] ->
  rebalance set_difference_iter self db = Ok (mkPlan [] 0 0, self, db).
Proof.
  intros Hlibs. rewrite rebalance_unfold.
  assert (Hn : nlibs_of db = 0) by (unfold nlibs_of; now rewrite Hlibs).
  assert (Hbooks : book_order self db = Ok []).
  { unfold book_order. rewrite Hn, candidate_book_ids_none by lia.
    now destruct self. }
  rewrite Hbooks. simpl. unfold finish.
  destruct (dry_run self); [reflexivity|].
  rewrite apply_plan_nil. reflexivity.
Qed.

(* ================================================================== *)
(** * The order of [author_first] *)

Lemma tuple_leb_total a b : tuple_leb a b = true \/ tuple_leb b a = true.
Proof.
  unfold tuple_leb.
  rewrite !orb_true_iff, !andb_true_iff, !Z.ltb_lt, !Z.eqb_eq, !Z.leb_le.
  lia.
Qed.

Lemma tuple_leb_trans a b c :
  tuple_leb a b = true -> tuple_leb b c = true -> tuple_leb a c = true.
Proof.
  unfold tuple_leb.
  rewrite !orb_true_iff, !andb_true_iff, !Z.ltb_lt, !Z.eqb_eq, !Z.leb_le.
  lia.
Qed.

Lemma fold_meta_get (books : list Book) :
  forall d bid b,
  (forall k v, PyDict.get Z.eq_dec d k = Some v -> b_id v = k) ->
  PyDict.get Z.eq_dec
    (fold_left (fun d b => PyDict.set Z.eq_dec d (b_id b) b) books d) bid
  = Some b ->
  b_id b = bid.
Proof.
  induction books as [|x books IH]; intros d bid b Hd; simpl; [apply Hd|].
  apply IH. intros k v. destruct (Z.eq_dec k (b_id x)) as [->|Hne].
  - rewrite get_set_same. now intros [= <-].
  - rewrite get_set_other by assumption. apply Hd.
Qed.

Lemma book_meta_get base_ids db bid b :
  PyDict.get Z.eq_dec (book_meta_of base_ids db) bid = Some b -> b_id b = bid.
Proof.
  unfold book_meta_of. apply fold_meta_get. discriminate.
Qed.

Lemma sort_key_author_first author_ids base_ids db bid k :
  sort_key "author_first" author_ids (book_meta_of base_ids db) bid = Ok k ->
  exists b,
    PyDict.get Z.eq_dec (book_meta_of base_ids db) bid = Some b
    /\ b_id b = bid
    /\ k = if mem (b_author_id b) author_ids then (0, - b_year b)
           else (2, b_id b).
Proof.
  unfold sort_key.
  destruct (PyDict.get Z.eq_dec (book_meta_of base_ids db) bid) as [b|] eqn:E;
    [|discriminate].
  intros Hkey. exists b. split; [reflexivity|].
  split; [eapply book_meta_get, E|].
  simpl in Hkey.
  destruct (mem (b_author_id b) author_ids); now injection Hkey.
Qed.

Lemma author_first_keys author_ids x y :
  tuple_leb
    (if mem (b_author_id x) author_ids then (0, - b_year x) else (2, b_id x))
    (if mem (b_author_id y) author_ids then (0, - b_year y) else (2, b_id y))
  = true ->
  author_first_before author_ids x y = true.
Proof.
  unfold author_first_before, tuple_leb.
  destruct (mem (b_author_id x) author_ids), (mem (b_author_id y) author_ids);
    simpl; rewrite ?Z.leb_le; try lia; try discriminate; auto.
Qed.

Lemma Forall2_In_r (A B : Type) (P : A -> B -> Prop) l1 l2 y :
  Forall2 P l1 l2 -> In y l2 -> exists x, In x l1 /\ P x y.
Proof.
  induction 1 as [|a b l1 l2 Hab _ IH]; simpl; [contradiction|].
  intros [<-|Hy]; [eauto|]. destruct (IH Hy) as (x & Hx & Hp). eauto.
Qed.

(** C7, as the code has it. Under [author_first] the books are processed
    in an order that is a rearrangement of the candidate books in which
    the books of the listed authors come first, by descending year, and
    the other books come after them by ascending book id. *)
Theorem author_first_order dry fc author_ids db ordered :
  book_order (PriorityRedistributionManager dry fc "author_first" author_ids)
    db = Ok ordered ->
  Permutation ordered (_candidate_book_ids (nlibs_of db) db)
  /\ exists books,
       Forall2 (fun bid b => meta_of db bid = Some b /\ b_id b = bid)
         ordered books
       /\ in_order (author_first_before author_ids) books = true.
Proof.
  intros Hord. split; [eapply book_order_perm, Hord|].
  simpl in Hord. unfold ordered_book_ids, sorted_by_key in Hord.
  set (base := _candidate_book_ids (nlibs_of db) db) in *.
  set (key_of := sort_key "author_first" author_ids (book_meta_of base db))
    in *.
  destruct (decorate key_of base) as [decorated|e] eqn:Hdec;
    simpl in Hord; [|discriminate].
  injection Hord as <-.
  set (le := fun a b : (Z * Z) * Z => tuple_leb (fst a) (fst b)).
  assert (Hsorted : StronglySorted (fun a b => le a b = true)
                      (sorted le decorated)).
  { apply sorted_sorted.
    - intros a b. apply tuple_leb_total.
    - intros a b c. apply tuple_leb_trans. }
  assert (Hkeys : Forall (fun kx => key_of (snd kx) = Ok (fst kx))
                    (sorted le decorated)).
  { apply Forall_forall. intros kx Hkx. apply sorted_In in Hkx.
    pose proof (decorate_fst _ _ _ Hdec) as Hall.
    rewrite Forall_forall in Hall. now apply Hall. }
  induction Hsorted as [|kx rest Hrest IH Hle].
  - exists []. split; constructor.
  - inversion Hkeys as [|? ? Hkx Hkeys']; subst.
    destruct (IH Hkeys') as (books & Hmeta & Hin).
    destruct (sort_key_author_first _ _ _ _ _ Hkx) as (b & Hb & Hid & Hk).
    exists (b :: books). split.
    + simpl. constructor; [now split|assumption].
    + simpl. rewrite Hin, andb_true_r. apply forallb_forall.
      intros y Hy.
      destruct (Forall2_In_r _ _ _ _ _ y Hmeta Hy) as (bid & Hbid & Hy').
      apply in_map_iff in Hbid. destruct Hbid as (ky & <- & Hky).
      rewrite Forall_forall in Hle, Hkeys'.
      specialize (Hle ky Hky). specialize (Hkeys' ky Hky).
      destruct (sort_key_author_first _ _ _ _ _ Hkeys')
        as (b' & Hb' & Hid' & Hk').
      destruct Hy' as [Hy' _]. unfold meta_of in Hy'. fold base in Hy'.
      rewrite Hb' in Hy'. injection Hy' as <-.
      apply author_first_keys. unfold le in Hle. now rewrite Hk, Hk' in Hle.
Qed.

(* ================================================================== *)
(** * The command *)

Lemma int_raises py x e : int py x = Raise e -> e = ValueError.
Proof.
  unfold int. destruct (read_sign _) as [sign s].
  destruct (starts_with 95 s); [congruence|].
  destruct (scan_digits s 0 0 0) as [[[[value digits] prev] rest]|];
    [|congruence].
  destruct (prev =? 95)%N; [congruence|].
  destruct (too_many_digits py digits); [congruence|].
  destruct (digits =? 0)%N; [congruence|].
  destruct (skip_spaces rest); [discriminate|congruence].
Qed.

Lemma int_of_each_raises py items e :
  int_of_each py items = Raise e -> e = ValueError.
Proof.
  induction items as [|x items IH]; simpl; [discriminate|].
  destruct (isdigit py (strip py x)); [|exact IH].
  destruct (int py x) as [n|e'] eqn:Hx; simpl.
  - destruct (int_of_each py items) as [ns|e'']; simpl; [discriminate|].
    intros H. injection H as <-. now apply IH.
  - intros H. injection H as <-. exact (int_raises _ _ _ Hx).
Qed.

(** C9, as the code has it. The command reads the authors first, and an
    item that passes the digit filter and that [int] refuses ends it with
    [ValueError] before a manager is built. Otherwise the command takes
    the capacity-aware path exactly when [--capacity-aware] is given:
    without it, whatever the priority and the authors, the manager is the
    base one and the run is the run of the base manager. *)
Theorem capacity_path_only_on_request (py : Interpreter) (opts : Options) :
  match handle_manager py opts with
  | Ok mgr => is_capacity_aware mgr = opt_capacity_aware opts
  | Raise e => e = ValueError /\ authors_of py opts = Raise ValueError
  end
  /\ handle_manager py
       (mkOptions (opt_apply opts) false (opt_priority opts)
          (opt_authors opts))
     = (let* _ := authors_of py opts in
        Ok (RedistributionManager (negb (opt_apply opts))))
  /\ forall set_difference_iter db,
       handle set_difference_iter py
         (mkOptions (opt_apply opts) false (opt_priority opts)
            (opt_authors opts)) db
       = let* _ := authors_of py opts in
         base_rebalance set_difference_iter
           (RedistributionManager (negb (opt_apply opts))) db.
Proof.
  destruct opts as [a c p l]. simpl.
  assert (Hbase :
    handle_manager py (mkOptions a false p l)
    = (let* _ := authors_of py (mkOptions a c p l) in
       Ok (RedistributionManager (negb a)))).
  { unfold handle_manager, authors_of. simpl.
    now destruct (int_of_each py (split_comma l)). }
  split; [|split; [exact Hbase|]].
  - unfold handle_manager. simpl.
    destruct (authors_of py (mkOptions a c p l)) as [authors|e] eqn:Ha;
      simpl.
    + destruct c; simpl; [|reflexivity].
      now destruct (truthy_str p || truthy_list authors).
    + split; [|f_equal]; exact (int_of_each_raises _ _ _ Ha).
  - intros sdi db. unfold handle. rewrite Hbase.
    now destruct (authors_of py (mkOptions a c p l)).
Qed.

(* ================================================================== *)
(** * The properties on the example databases *)

Ltac example_wf :=
  constructor; simpl;
  match goal with
  | |- NoDup _ =>
      cbv [map lb_key lb_library_id lb_book_id l_id b_id];
      repeat (constructor; [simpl; intuition congruence|]); constructor
  | |- forall _, _ =>
      intros h H;
      repeat (destruct H as [<-|H]; [simpl; (lia || tauto)|]);
      contradiction
  end.

Lemma three_libraries_wf : well_formed three_libraries.
Proof. example_wf. Qed.

Lemma one_free_slot_wf : well_formed one_free_slot.
Proof. example_wf. Qed.

Lemma new_manager_known db dry :
  known_libraries db (new_CapacityAwareRedistributionManager dry).
Proof. intros l []. Qed.

Lemma new_manager_sound db dry :
  tracked_sound db (new_CapacityAwareRedistributionManager dry).
Proof. intros l v []. Qed.

Lemma three_libraries_applied :
  _apply_plan (moves three_libraries_plan) three_libraries
  = Ok three_libraries_after.
Proof. vm_compute. reflexivity. Qed.

Lemma apply_conserves_copies_witness :
  well_formed three_libraries
  /\ rebalance ascending_difference
       (new_CapacityAwareRedistributionManager false) three_libraries
     = Ok (three_libraries_plan,
           CapacityAwareRedistributionManager false [(1, 5); (2, 9); (3, 9)],
           three_libraries_after)
  /\ _apply_plan (moves three_libraries_plan) three_libraries
     = Ok three_libraries_after
  /\ (forall book,
        total three_libraries_after book = total three_libraries book)
  /\ (forall k,
        holding three_libraries_after k
        = holding three_libraries k
          + moved (fun m => key_eqb k (move_target m))
              (moves three_libraries_plan)
          - moved (fun m => key_eqb k (move_source m))
              (moves three_libraries_plan))
  /\ three_libraries_after = three_libraries_after.
Proof.
  split; [exact three_libraries_wf|].
  split; [vm_compute; reflexivity|].
  split; [exact three_libraries_applied|].
  exact (apply_conserves_copies ascending_difference
           ascending_difference_NoDup ascending_difference_In
           (new_CapacityAwareRedistributionManager false) three_libraries
           three_libraries_plan
           (CapacityAwareRedistributionManager false [(1, 5); (2, 9); (3, 9)])
           three_libraries_after three_libraries_after
           three_libraries_wf eq_refl three_libraries_applied).
Defined.

Lemma coverage_after_apply_witness :
  well_formed three_libraries
  /\ rebalance ascending_difference (new_RedistributionManager false)
       three_libraries
     = Ok (three_libraries_plan, RedistributionManager false,
           three_libraries_after)
  /\ _apply_plan (moves three_libraries_plan) three_libraries
     = Ok three_libraries_after
  /\ (forall book,
        coverage three_libraries book <= coverage three_libraries_after book
        /\ coverage three_libraries_after book
           <= Z.min (nlibs_of three_libraries)
                (total three_libraries_after book)).
Proof.
  split; [exact three_libraries_wf|].
  split; [vm_compute; reflexivity|].
  split; [exact three_libraries_applied|].
  exact (coverage_after_apply ascending_difference
           ascending_difference_NoDup ascending_difference_In
           (new_RedistributionManager false) three_libraries
           three_libraries_plan (RedistributionManager false)
           three_libraries_after three_libraries_after
           three_libraries_wf eq_refl three_libraries_applied).
Defined.

Lemma donors_keep_one_copy_witness :
  well_formed three_libraries
  /\ rebalance ascending_difference (new_RedistributionManager false)
       three_libraries
     = Ok (three_libraries_plan, RedistributionManager false,
           three_libraries_after)
  /\ (forall l b,
        moved (fun m => key_eqb (l, b) (move_source m))
          (moves three_libraries_plan)
        <= Z.max 0 (holding three_libraries (l, b) - 1))
  /\ (forall m, In m (moves three_libraries_plan) ->
        quantity m = 1 /\ 1 < holding three_libraries (move_source m))
  /\ (forall book h,
        In h (donors_of (holdings_of three_libraries book)) <->
        In h (LibraryBook_objects three_libraries) /\ lb_book_id h = book
        /\ 1 < lb_quantity h).
Proof.
  split; [exact three_libraries_wf|].
  split; [vm_compute; reflexivity|].
  exact (donors_keep_one_copy ascending_difference
           ascending_difference_NoDup ascending_difference_In
           (new_RedistributionManager false) three_libraries
           three_libraries_plan (RedistributionManager false)
           three_libraries_after three_libraries_wf eq_refl).
Defined.

Lemma capacity_respected_witness :
  well_formed one_free_slot
  /\ within_capacity one_free_slot
  /\ exists plan self' applied,
       rebalance ascending_difference
         (new_CapacityAwareRedistributionManager false) one_free_slot
       = Ok (plan, self', applied)
       /\ _apply_plan (moves plan) one_free_slot = Ok applied
       /\ within_capacity applied
       /\ (forall l,
             tracked self' one_free_slot l
             = tracked (new_CapacityAwareRedistributionManager false)
                 one_free_slot l
               - moved (fun m => to_library_id m =? l) (moves plan))
       /\ (forall l,
             0 <= tracked (new_CapacityAwareRedistributionManager false)
                    one_free_slot l ->
             0 <= tracked self' one_free_slot l)
       /\ (forall l,
             moved (fun m => to_library_id m =? l) (moves plan)
             <= Z.max 0 (tracked (new_CapacityAwareRedistributionManager false)
                           one_free_slot l)).
Proof.
  assert (Hwithin : within_capacity one_free_slot).
  { intros lib H. simpl in H.
    repeat (destruct H as [<-|H]; [vm_compute; discriminate|]).
    contradiction. }
  split; [exact one_free_slot_wf|]. split; [exact Hwithin|].
  exact (capacity_respected ascending_difference
           ascending_difference_NoDup ascending_difference_In
           (new_CapacityAwareRedistributionManager false) one_free_slot
           one_free_slot_wf eq_refl (new_manager_known one_free_slot false)
           (new_manager_sound one_free_slot false) Hwithin).
Defined.

Lemma unit_moves_disjoint_keys_witness :
  rebalance ascending_difference (new_RedistributionManager false)
    three_libraries
  = Ok (three_libraries_plan, RedistributionManager false,
        three_libraries_after)
  /\ Forall (fun m => quantity m = 1) (moves three_libraries_plan)
  /\ (forall book,
        NoDup (map to_library_id
                 (filter (fun m => book_id m =? book)
                    (moves three_libraries_plan))))
  /\ (forall m1 m2, In m1 (moves three_libraries_plan) ->
        In m2 (moves three_libraries_plan) ->
        book_id m1 = book_id m2 ->
        to_library_id m1 <> from_library_id m2)
  /\ (forall k,
        In k (PyDict.keys (fst (aggregate (moves three_libraries_plan)))) ->
        ~ In k (PyDict.keys (snd (aggregate (moves three_libraries_plan)))))
  /\ (forall k v,
        In (k, v) (fst (aggregate (moves three_libraries_plan))) -> v = 1).
Proof.
  split; [vm_compute; reflexivity|].
  exact (unit_moves_disjoint_keys ascending_difference
           ascending_difference_NoDup ascending_difference_In
           (new_RedistributionManager false) three_libraries
           three_libraries_plan (RedistributionManager false)
           three_libraries_after eq_refl).
Defined.



Lemma no_libraries_empty_report_witness :
  Library_objects no_libraries = []
  /\ rebalance ascending_difference
       (new_CapacityAwareRedistributionManager false) no_libraries
     = Ok (mkPlan [] 0 0, new_CapacityAwareRedistributionManager false,
           no_libraries).
Proof.
  split; [reflexivity|].
  exact (no_libraries_empty_report ascending_difference
           (new_CapacityAwareRedistributionManager false) no_libraries
           eq_refl).
Defined.

(** C6 as stated fails: with no library the call raises nothing and
    returns a report like any other. *)
Lemma no_libraries_no_failure :
  raised (rebalance ascending_difference (new_RedistributionManager false)
            no_libraries) = false
  /\ rebalance ascending_difference (new_RedistributionManager false)
       no_libraries
     = Ok (mkPlan [] 0 0, RedistributionManager false, no_libraries).
Proof. split; vm_compute; reflexivity. Qed.

Lemma author_first_order_witness :
  book_order (PriorityRedistributionManager true [] "author_first" [9])
    older_book_first = Ok [1; 2]
  /\ Permutation [1; 2]
       (_candidate_book_ids (nlibs_of older_book_first) older_book_first)
  /\ exists books,
       Forall2
         (fun bid b => meta_of older_book_first bid = Some b /\ b_id b = bid)
         [1; 2] books
       /\ in_order (author_first_before [9]) books = true.
Proof.
  split; [vm_compute; reflexivity|].
  exact (author_first_order true [] [9] older_book_first [1; 2] eq_refl).
Defined.

(** C7 as stated fails: neither book is by a listed author, and the book
    of 2000 is processed before the book of 2020 and takes the only free
    slot. *)
Lemma remaining_books_not_newer_first :
  book_order
    (new_PriorityRedistributionManager true (Some "author_first"%string)
       (Some [9]))
    older_book_first = Ok [1; 2]
  /\ meta_of older_book_first 1 = Some (mkBook 1 2000 5)
  /\ meta_of older_book_first 2 = Some (mkBook 2 2020 5)
  /\ in_order (newer_first_before [9]) [mkBook 1 2000 5; mkBook 2 2020 5]
     = false
  /\ planned
       (rebalance ascending_difference
          (new_PriorityRedistributionManager true
             (Some "author_first"%string) (Some [9]))
          older_book_first)
     = Some (mkPlan [mkMove 1 1 2 1] 1 2,
             PriorityRedistributionManager true [(1, 6); (2, 0)]
               "author_first" [9]).
Proof. repeat split; vm_compute; reflexivity. Qed.

Lemma second_run_sees_leftover_map_witness :
  is_capacity_aware (new_CapacityAwareRedistributionManager true) = true
  /\ rebalance ascending_difference
       (new_CapacityAwareRedistributionManager true) one_free_slot
     = Ok (mkPlan [mkMove 7 1 2 1] 1 1,
           CapacityAwareRedistributionManager true [(1, 8); (2, 0)],
           one_free_slot)
  /\ moves (mkPlan [mkMove 7 1 2 1] 1 1) <> []
  /\ (forall db2,
        effective_capacity
          (free_capacity
             (CapacityAwareRedistributionManager true [(1, 8); (2, 0)])) db2
        = free_capacity
            (CapacityAwareRedistributionManager true [(1, 8); (2, 0)]))
  /\ (forall l,
        PyDict.get_default Z.eq_dec
          (free_capacity
             (CapacityAwareRedistributionManager true [(1, 8); (2, 0)])) l 0
        = tracked (new_CapacityAwareRedistributionManager true)
            one_free_slot l
          - moved (fun m => to_library_id m =? l)
              (moves (mkPlan [mkMove 7 1 2 1] 1 1))).
Proof.
  split; [reflexivity|]. split; [vm_compute; reflexivity|].
  split; [discriminate|].
  exact (second_run_sees_leftover_map ascending_difference
           ascending_difference_NoDup ascending_difference_In
           (new_CapacityAwareRedistributionManager true) one_free_slot
           (mkPlan [mkMove 7 1 2 1] 1 1)
           (CapacityAwareRedistributionManager true [(1, 8); (2, 0)])
           one_free_slot eq_refl eq_refl
           (fun H : moves (mkPlan [mkMove 7 1 2 1] 1 1) = [] =>
              match H in (_ = l) return
                    match l with [] => False | _ :: _ => True end
              with eq_refl => I end)).
Defined.

(** C8 as stated fails: the second dry run of one capacity-aware manager
    object plans nothing, while a newly constructed manager plans the move
    on the same database. *)
Lemma second_run_differs_from_new_instance :
  run_twice ascending_difference
    (new_CapacityAwareRedistributionManager true) one_free_slot
  = Ok (mkPlan [mkMove 7 1 2 1] 1 1, mkPlan [] 0 1)
  /\ planned
       (rebalance ascending_difference
          (new_CapacityAwareRedistributionManager true) one_free_slot)
     = Some (mkPlan [mkMove 7 1 2 1] 1 1,
             CapacityAwareRedistributionManager true [(1, 8); (2, 0)]).
Proof. split; vm_compute; reflexivity. Qed.

(** C9 as stated fails: with [--priority author_first --authors 1] and no
    [--capacity-aware] the command builds the base manager, whose plan
    fills library 2 beyond its capacity of one copy. *)
Lemma priority_without_capacity_uses_base :
  handle_manager cpython_3_11
    (mkOptions true false (Some "author_first"%string) (str_of "1"))
  = Ok (RedistributionManager false)
  /\ is_capacity_aware (RedistributionManager false) = false
  /\ match handle ascending_difference cpython_3_11
             (mkOptions true false (Some "author_first"%string)
                (str_of "1"))
             full_recipient with
     | Ok (plan, _, db') =>
         moves plan = [mkMove 7 1 2 1]
         /\ used_capacity db' 2 = 2 /\ capacity_of db' 2 = 1
     | Raise _ => False
     end.
Proof. repeat split; vm_compute; reflexivity. Qed.

(** C4. The code breaks the claim on a manager object that runs twice.
    The capacity-aware manager that ran on [before_intake] keeps the map
    of that run, in which library 2 has room for one copy. After the
    intake library 2 is full, every library is within its capacity, and
    the second run of the same object plans from the map it kept: it
    moves a copy of book 7 into library 2, which then holds two copies
    for a capacity of one. The class promises that nothing is moved where
    there is no free room. *)
Lemma capacity_exceeded_on_reused_manager :
  rebalance ascending_difference
    (new_CapacityAwareRedistributionManager false) before_intake
  = Ok (mkPlan [] 0 1,
        CapacityAwareRedistributionManager false [(1, 9); (2, 1)],
        before_intake)
  /\ well_formed after_intake
  /\ within_capacity after_intake
  /\ match rebalance ascending_difference
             (CapacityAwareRedistributionManager false [(1, 9); (2, 1)])
             after_intake with
     | Ok (plan, _, db') =>
         moves plan = [mkMove 7 1 2 1]
         /\ used_capacity db' 2 = 2 /\ capacity_of db' 2 = 1
     | Raise _ => False
     end.
Proof.
  split; [vm_compute; reflexivity|]. split; [example_wf|]. split.
  - intros lib H. simpl in H.
    repeat (destruct H as [<-|H]; [vm_compute; discriminate|]).
    contradiction.
  - vm_compute. repeat split; reflexivity.
Qed.

(* ================================================================== *)
(** * [_apply_plan] on an arbitrary list of moves *)

Lemma update_quantity_keeps k delta table table' :
  update_quantity k delta table = Ok table' ->
  keys_of table' = keys_of table
  /\ (non_negative table -> non_negative table').
Proof.
  unfold update_quantity.
  destruct (existsb _ table) eqn:E; [discriminate|].
  intros H. injection H as <-. split.
  - unfold keys_of. rewrite map_map. apply map_ext. intros r.
    now destruct (has_key k r).
  - unfold non_negative. rewrite !Forall_forall. intros Hnn r Hr.
    apply in_map_iff in Hr as (r0 & <- & Hr0).
    destruct (has_key k r0) eqn:Hk; [|now apply Hnn].
    simpl. destruct (lb_quantity r0 + delta <? 0) eqn:Hneg.
    + assert (F : existsb
                    (fun r => has_key k r && (lb_quantity r + delta <? 0))
                    table = true).
      { apply existsb_exists. exists r0. now rewrite Hk, Hneg. }
      congruence.
    + now apply Z.ltb_ge.
Qed.

Lemma apply_increments_keeps by_key items :
  forall table to_create table' to_create',
  apply_increments by_key items table to_create = Ok (table', to_create') ->
  keys_of table' = keys_of table
  /\ (non_negative table -> non_negative table').
Proof.
  induction items as [|[[lib_id book] qty] items IH];
    intros table to_create table' to_create' H; simpl in H.
  - injection H as <- _. now split.
  - destruct (PyDict.get key_dec by_key (lib_id, book)) as [row|].
    + destruct (update_quantity (lb_key row) qty table) as [t1|e] eqn:E;
        [|discriminate].
      simpl in H. apply IH in H as [Hk Hn].
      apply update_quantity_keeps in E as [Hk1 Hn1].
      split; [congruence|auto].
    + now apply IH in H.
Qed.

Lemma apply_decrements_keeps items :
  forall table table',
  apply_decrements items table = Ok table' ->
  keys_of table' = keys_of table
  /\ (non_negative table -> non_negative table').
Proof.
  induction items as [|[k qty] items IH]; intros table table' H; simpl in H.
  - injection H as <-. now split.
  - destruct (update_quantity k (- qty) table) as [t1|e] eqn:E;
      [|discriminate].
    simpl in H. apply IH in H as [Hk Hn].
    apply update_quantity_keeps in E as [Hk1 Hn1].
    split; [congruence|auto].
Qed.

Lemma bulk_create_keeps lib_ids book_ids to_create :
  forall table table',
  bulk_create lib_ids book_ids to_create table = Ok table' ->
  exists added,
    table' = table ++ added
    /\ Forall (fun r => In (lb_library_id r) lib_ids
                        /\ In (lb_book_id r) book_ids
                        /\ 0 <= lb_quantity r) added
    /\ (NoDup (keys_of table) -> NoDup (keys_of table')).
Proof.
  induction to_create as [|r to_create IH]; intros table table' H;
    simpl in H.
  - injection H as <-. exists []. rewrite app_nil_r. now repeat split.
  - destruct (lb_quantity r <? 0) eqn:Hq; [discriminate|].
    destruct (existsb (has_key (lb_key r)) table) eqn:Hex.
    + now apply IH in H.
    + destruct (mem (lb_library_id r) lib_ids && mem (lb_book_id r) book_ids)
        eqn:Hfk; [|discriminate].
      apply IH in H as (added & -> & Hadded & Hnd).
      exists (r :: added). rewrite <- app_assoc. split; [reflexivity|].
      split.
      * constructor; [|exact Hadded].
        apply andb_true_iff in Hfk as [H1 H2].
        apply mem_In in H1. apply mem_In in H2. apply Z.ltb_ge in Hq.
        now repeat split.
      * intros Ht. rewrite <- app_assoc in Hnd. apply Hnd.
        unfold keys_of. rewrite map_app. simpl.
        apply Permutation_NoDup with (l := lb_key r :: map lb_key table).
        { apply Permutation_cons_append. }
        constructor; [|exact Ht]. intros Hin.
        apply in_map_iff in Hin as (r0 & E0 & Hr0).
        assert (F : existsb (has_key (lb_key r)) table = true).
        { apply existsb_exists. exists r0. split; [exact Hr0|].
          now apply has_key_eq. }
        congruence.
Qed.

Lemma apply_plan_keeps ms db db' :
  _apply_plan ms db = Ok db' ->
  Library_objects db' = Library_objects db
  /\ Book_objects db' = Book_objects db
  /\ exists table added,
       LibraryBook_objects db' = table ++ added
       /\ keys_of table = keys_of (LibraryBook_objects db)
       /\ Forall (fun r => In (lb_library_id r) (map l_id (Library_objects db))
                           /\ In (lb_book_id r) (map b_id (Book_objects db)))
            added
       /\ (NoDup (keys_of (LibraryBook_objects db)) ->
           NoDup (keys_of (LibraryBook_objects db')))
       /\ (non_negative (LibraryBook_objects db) ->
           non_negative (LibraryBook_objects db')).
Proof.
  unfold _apply_plan. destruct (aggregate ms) as [inc dec].
  destruct (apply_increments _ _ _ _) as [[t1 tc]|e] eqn:E1; [|discriminate].
  simpl.
  destruct (bulk_create _ _ tc t1) as [t2|e] eqn:E2; [|discriminate].
  simpl.
  destruct (apply_decrements _ t2) as [t3|e] eqn:E3; [|discriminate].
  simpl. intros H. injection H as <-. simpl.
  split; [reflexivity|]. split; [reflexivity|].
  apply apply_increments_keeps in E1 as [K1 N1].
  apply bulk_create_keeps in E2 as (added & -> & Hadded & D2).
  apply apply_decrements_keeps in E3 as [K3 N3].
  unfold keys_of in K3. rewrite map_app in K3.
  exists (firstn (List.length t1) t3), (skipn (List.length t1) t3).
  assert (Hlen : List.length (map lb_key t3)
                 = List.length (map lb_key t1 ++ map lb_key added))
    by now rewrite K3.
  split; [now rewrite firstn_skipn|].
  assert (Hfst : keys_of (firstn (List.length t1) t3) = keys_of t1).
  { unfold keys_of. rewrite <- firstn_map, K3.
    rewrite <- (length_map lb_key t1). rewrite firstn_app, Nat.sub_diag.
    simpl. now rewrite firstn_all, app_nil_r. }
  assert (Hsnd : keys_of (skipn (List.length t1) t3) = keys_of added).
  { unfold keys_of. rewrite <- skipn_map, K3.
    rewrite <- (length_map lb_key t1). rewrite skipn_app, Nat.sub_diag.
    simpl. now rewrite skipn_all. }
  split; [congruence|]. split.
  - rewrite Forall_forall in *. intros r Hr.
    assert (Hk : In (lb_key r) (keys_of added)).
    { rewrite <- Hsnd. now apply in_map. }
    apply in_map_iff in Hk as (r0 & E0 & Hr0).
    apply Hadded in Hr0 as (Hl & Hb & _).
    unfold lb_key in E0. injection E0 as El Eb. now rewrite <- El, <- Eb.
  - split.
    + intros Hnd. unfold keys_of at 1. rewrite K3. rewrite <- map_app.
      apply D2. fold (keys_of t1). now rewrite K1.
    + intros Hnn. apply N3. unfold non_negative. apply Forall_app.
      split; [now apply N1|].
      eapply Forall_impl; [|exact Hadded]. simpl. tauto.
Qed.

(** X1. Whatever the moves are, when [_apply_plan] returns, the constraints
    of the schema hold as before, the libraries and the books are the
    same, and no row of the holdings is deleted: the keys of the table
    are the keys it had, followed by those of the created rows. *)
Theorem apply_keeps_schema ms db db' :
  well_formed db ->
  _apply_plan ms db = Ok db' ->
  well_formed db'
  /\ Library_objects db' = Library_objects db
  /\ Book_objects db' = Book_objects db
  /\ exists created,
       keys_of (LibraryBook_objects db')
       = keys_of (LibraryBook_objects db) ++ keys_of created.
Proof.
  intros Hwf H.
  destruct (apply_plan_keeps ms db db' H)
    as (HL & HB & table & added & Ht & Hk & Hadded & Hnd & Hnn).
  assert (Hrow : forall r, In r table ->
            exists r0, In r0 (LibraryBook_objects db)
                       /\ lb_library_id r0 = lb_library_id r
                       /\ lb_book_id r0 = lb_book_id r).
  { intros r Hr.
    assert (Hin : In (lb_key r) (keys_of (LibraryBook_objects db))).
    { rewrite <- Hk. now apply in_map. }
    apply in_map_iff in Hin as (r0 & E0 & Hr0).
    unfold lb_key in E0. injection E0 as El Eb. now exists r0. }
  split; [|split; [exact HL|split; [exact HB|]]].
  - constructor.
    + rewrite HL. apply (wf_library_pk Hwf).
    + rewrite HB. apply (wf_book_pk Hwf).
    + apply Hnd, (wf_uniq_library_book Hwf).
    + intros h Hh. rewrite HL. rewrite Ht in Hh.
      apply in_app_or in Hh as [Hh|Hh].
      * apply Hrow in Hh as (r0 & Hr0 & <- & _).
        now apply (wf_library_fk Hwf).
      * rewrite Forall_forall in Hadded. now apply Hadded in Hh.
    + intros h Hh. rewrite HB. rewrite Ht in Hh.
      apply in_app_or in Hh as [Hh|Hh].
      * apply Hrow in Hh as (r0 & Hr0 & _ & <-).
        now apply (wf_book_fk Hwf).
      * rewrite Forall_forall in Hadded. now apply Hadded in Hh.
    + assert (Hall : non_negative (LibraryBook_objects db')).
      { apply Hnn. unfold non_negative. apply Forall_forall.
        apply (wf_quantity_non_negative Hwf). }
      unfold non_negative in Hall. rewrite Forall_forall in Hall.
      exact Hall.
    + rewrite HL. apply (wf_capacity_non_negative Hwf).
  - exists added. rewrite Ht. unfold keys_of in *. rewrite map_app.
    now rewrite Hk.
Qed.

(* ================================================================== *)
(** * The coverage after a plan is applied *)

Lemma moved_into_positive ms k :
  0 < moved (fun m => key_eqb k (move_target m)) ms ->
  exists m, In m ms /\ move_target m = k.
Proof.
  induction ms as [|m ms IH]; simpl; [lia|].
  destruct (key_eqb k (move_target m)) eqn:E.
  - intros _. exists m. split; [now left|].
    symmetry. now apply key_eqb_eq.
  - intros H. destruct IH as (m' & Hm' & E'); [lia|].
    exists m'. split; [now right|assumption].
Qed.

Lemma moved_into_present ms m :
  Forall (fun m => quantity m = 1) ms -> In m ms ->
  1 <= moved (fun m' => key_eqb (move_target m) (move_target m')) ms.
Proof.
  induction 1 as [|m0 ms Hm0 Hall IH]; intros Hin; [contradiction|].
  rewrite moved_cons.
  assert (Hrest : 0 <= moved (fun m' => key_eqb (move_target m)
                                          (move_target m')) ms).
  { apply moved_non_negative. eapply Forall_impl; [|exact Hall].
    simpl. intros a Ha. lia. }
  destruct Hin as [->|Hin].
  - rewrite key_eqb_refl. lia.
  - specialize (IH Hin).
    destruct (key_eqb (move_target m) (move_target m0)); lia.
Qed.

Lemma run_plan_covering db dom ms applied :
  well_formed db -> run_plan db dom ms ->
  _apply_plan ms db = Ok applied ->
  forall b l,
    In l (covering (holdings_of applied b)) <->
    In l (covering (holdings_of db b))
    \/ In l (map to_library_id (filter (fun m => book_id m =? b) ms)).
Proof.
  intros Hwf Hrun Happ b l.
  pose proof (run_plan_apply_cases db dom ms Hwf Hrun) as H.
  rewrite Happ in H. destruct H as (_ & _ & Hwf' & Hheld).
  destruct Hrun as (Hall & _ & Hsp).
  assert (Hunit : Forall (fun m => quantity m = 1) ms).
  { eapply Forall_impl; [|exact Hall]. now intros m (Hq & _). }
  assert (Hin0 : forall k,
            0 <= moved (fun m => key_eqb k (move_target m)) ms).
  { intros k. apply moved_non_negative. eapply Forall_impl; [|exact Hunit].
    simpl. intros m Hm. lia. }
  assert (Hout0 : forall k,
            0 <= moved (fun m => key_eqb k (move_source m)) ms).
  { intros k. apply moved_non_negative. eapply Forall_impl; [|exact Hunit].
    simpl. intros m Hm. lia. }
  assert (Hfinal : holding applied (l, b)
                   = holding db (l, b)
                     + moved (fun m => key_eqb (l, b) (move_target m)) ms
                     - moved (fun m => key_eqb (l, b) (move_source m)) ms)
    by apply Hheld.
  assert (Hnn : 0 <= holding db (l, b)).
  { apply held_non_negative. apply Forall_forall.
    apply (wf_quantity_non_negative Hwf). }
  specialize (Hsp l b). specialize (Hin0 (l, b)). specialize (Hout0 (l, b)).
  rewrite spare_holding in Hsp by apply (wf_uniq_library_book Hwf).
  rewrite (covering_holding applied b l (wf_uniq_library_book Hwf')).
  rewrite (covering_holding db b l (wf_uniq_library_book Hwf)).
  split.
  - intros Hpos.
    destruct (Z.ltb_spec 0 (holding db (l, b))) as [Hold|Hold];
      [now left|right].
    destruct (moved_into_positive ms (l, b)) as (m & Hm & E); [lia|].
    unfold move_target in E. injection E as El Eb.
    rewrite <- El. apply in_map, filter_In. split; [exact Hm|].
    now apply Z.eqb_eq.
  - intros [Hold|Hnew]; [lia|].
    apply in_map_iff in Hnew as (m & El & Hm).
    apply filter_In in Hm as [Hm Eb]. apply Z.eqb_eq in Eb.
    pose proof (moved_into_present ms m Hunit Hm) as Hone.
    unfold move_target at 1 in Hone. rewrite El, Eb in Hone.
    rewrite Forall_forall in Hall.
    destruct (Hall m Hm) as (_ & _ & _ & Hnot).
    rewrite El, Eb in Hnot.
    rewrite (covering_holding db b l (wf_uniq_library_book Hwf)) in Hnot.
    lia.
Qed.

Lemma run_plan_coverage db dom ms applied :
  well_formed db -> run_plan db dom ms ->
  _apply_plan ms db = Ok applied ->
  forall b,
    coverage applied b
    = coverage db b
      + Z.of_nat (List.length (filter (fun m => book_id m =? b) ms)).
Proof.
  intros Hwf Hrun Happ b. unfold coverage.
  rewrite <- Nat2Z.inj_add. f_equal.
  rewrite <- (length_map to_library_id (filter _ ms)), <- length_app.
  apply Permutation_length, NoDup_Permutation.
  - apply NoDup_nodup.
  - destruct Hrun as (Hall & Hnd & _).
    apply NoDup_app; [apply NoDup_nodup|apply Hnd|].
    intros l Hold Hnew. apply in_map_iff in Hnew as (m & El & Hm).
    apply filter_In in Hm as [Hm Eb]. apply Z.eqb_eq in Eb.
    rewrite Forall_forall in Hall.
    destruct (Hall m Hm) as (_ & _ & _ & Hnot).
    apply Hnot. now rewrite El, Eb.
  - intros l. rewrite in_app_iff.
    apply (run_plan_covering db dom ms applied Hwf Hrun Happ).
Qed.

(* ================================================================== *)
(** * How many moves the base planner makes *)

Lemma base_while_count book donor target rest :
  forall can_move covered moves,
  exists taken rest',
    base_while book donor can_move covered target rest moves
    = (covered + Z.of_nat (List.length taken), rest',
       moves ++ units book donor taken)
    /\ rest = taken ++ rest'
    /\ Z.of_nat (List.length taken)
       = Z.min (Z.max 0 can_move)
           (Z.min (Z.max 0 (target - covered)) (Z.of_nat (List.length rest))).
Proof.
  induction rest as [|to_lib rest IH]; intros can_move covered moves; simpl.
  - exists [], []. simpl. rewrite Z.add_0_r, app_nil_r. repeat split; lia.
  - destruct ((0 <? can_move) && (covered <? target)) eqn:E.
    + apply andb_true_iff in E. destruct E as [Hc Ht].
      apply Z.ltb_lt in Hc. apply Z.ltb_lt in Ht.
      destruct (IH (can_move - 1) (covered + 1)
                   (moves ++ [mkMove book donor to_lib 1]))
        as (taken & rest' & Heq & Hrest & Hlen).
      exists (to_lib :: taken), rest'. rewrite Heq. simpl List.length.
      split; [|split].
      * rewrite <- app_assoc. simpl.
        replace (covered + 1 + Z.of_nat (List.length taken))
          with (covered + Z.pos (Pos.of_succ_nat (List.length taken)))
          by lia.
        reflexivity.
      * simpl. now f_equal.
      * lia.
    + exists [], (to_lib :: rest). simpl.
      rewrite Z.add_0_r, app_nil_r. split; [reflexivity|].
      split; [reflexivity|].
      apply andb_false_iff in E. destruct E as [E|E]; apply Z.ltb_ge in E; lia.
Qed.

Lemma spare_total_nonneg donors : 0 <= spare_total donors.
Proof. induction donors as [|d donors IH]; simpl; lia. Qed.

Lemma units_count book donor taken :
  List.length (units book donor taken) = List.length taken.
Proof. apply length_map. Qed.

Lemma base_for_count book target donors :
  forall covered rest moves,
  Z.of_nat (List.length (base_for book target donors covered rest moves))
  = Z.of_nat (List.length moves)
    + Z.min (Z.max 0 (target - covered))
        (Z.min (spare_total donors) (Z.of_nat (List.length rest))).
Proof.
  induction donors as [|d donors IH]; intros covered rest moves; simpl.
  - lia.
  - destruct (base_while_count book (lb_library_id d) target rest
                (lb_quantity d - 1) covered moves)
      as (taken & rest' & Heq & Hrest & Hlen).
    rewrite Heq.
    pose proof (spare_total_nonneg donors) as Hnn.
    assert (Hsplit : Z.of_nat (List.length rest)
                     = Z.of_nat (List.length taken)
                       + Z.of_nat (List.length rest')).
    { rewrite Hrest, length_app. lia. }
    destruct (Z.leb_spec target (covered + Z.of_nat (List.length taken))).
    + rewrite length_app, units_count. lia.
    + rewrite IH, length_app, units_count. lia.
Qed.

Lemma spare_total_perm a b :
  Permutation a b -> spare_total a = spare_total b.
Proof. induction 1; simpl; lia. Qed.

Lemma spare_total_rows rows :
  non_negative rows ->
  spare_total (filter (fun h => 1 <? lb_quantity h) rows)
  = sum_quantity rows
    - Z.of_nat (List.length (filter (fun h => 0 <? lb_quantity h) rows)).
Proof.
  induction 1 as [|r rows Hr _ IH]; simpl; [reflexivity|].
  destruct (Z.ltb_spec 1 (lb_quantity r)), (Z.ltb_spec 0 (lb_quantity r));
    simpl; try lia.
Qed.

Lemma covering_rows rows :
  NoDup (map lb_library_id rows) ->
  covering rows
  = map lb_library_id (filter (fun h => 0 <? lb_quantity h) rows).
Proof.
  intros Hnd. unfold covering. apply nodup_fixed_point.
  induction rows as [|r rows IH]; simpl; [constructor|].
  inversion Hnd as [|? ? Hnin Hnd']; subst.
  destruct (0 <? lb_quantity r); simpl; [constructor|]; auto.
  intros Hin. apply Hnin. apply in_map_iff in Hin as (h & E & Hh).
  apply filter_In in Hh as [Hh _]. rewrite <- E. now apply in_map.
Qed.

Lemma holdings_libraries_NoDup db b :
  NoDup (keys_of (LibraryBook_objects db)) ->
  NoDup (map lb_library_id (holdings_of db b)).
Proof.
  unfold holdings_of, keys_of.
  induction (LibraryBook_objects db) as [|r table IH]; simpl;
    intros Hnd; [constructor|].
  inversion Hnd as [|? ? Hnin Hnd']; subst.
  destruct (Z.eqb_spec (lb_book_id r) b) as [E|E]; simpl; [|auto].
  constructor; [|auto].
  intros Hin. apply Hnin. apply in_map_iff in Hin as (h & El & Hh).
  apply filter_In in Hh as [Hh Eb]. apply Z.eqb_eq in Eb.
  apply in_map_iff. exists h. split; [|exact Hh].
  unfold lb_key. congruence.
Qed.

(** With the unique key, the rows of a book with a positive quantity are
    as many as the libraries that cover it. *)
Lemma positive_rows_coverage db b :
  NoDup (keys_of (LibraryBook_objects db)) ->
  Z.of_nat (List.length (filter (fun h => 0 <? lb_quantity h)
                           (holdings_of db b)))
  = coverage db b.
Proof.
  intros Hnd. unfold coverage.
  rewrite covering_rows by now apply holdings_libraries_NoDup.
  now rewrite length_map.
Qed.

Lemma difference_count (diff : list Z) (xs ys : list Z) :
  NoDup diff -> (forall x, In x diff <-> In x xs /\ ~ In x ys) ->
  NoDup xs -> NoDup ys -> incl ys xs ->
  (List.length diff + List.length ys = List.length xs)%nat.
Proof.
  intros Hd Hin Hxs Hys Hincl. rewrite <- length_app.
  apply Permutation_length, NoDup_Permutation; [|exact Hxs|].
  - apply NoDup_app; [exact Hd|exact Hys|].
    intros x Hx. now apply Hin in Hx.
  - intros x. rewrite in_app_iff, Hin. split.
    + intros [[H _]|H]; [exact H|now apply Hincl].
    + intros H. destruct (in_dec Z.eq_dec x ys); [now right|now left].
Qed.

Section BaseCount.
Variable set_difference_iter : list Z -> list Z -> list Z.
Hypothesis set_difference_NoDup :
  forall xs ys, NoDup (set_difference_iter xs ys).
Hypothesis set_difference_In :
  forall xs ys x, In x (set_difference_iter xs ys) <-> In x xs /\ ~ In x ys.

Lemma base_build_count db b :
  well_formed db ->
  Z.of_nat (List.length
              (base_build_plan_for_book set_difference_iter db b (nlibs_of db)))
  = Z.min (nlibs_of db) (total db b) - coverage db b.
Proof.
  intros Hwf.
  pose proof (coverage_bound db b Hwf) as Hbound.
  assert (Hcov0 : 0 <= coverage db b) by (unfold coverage; lia).
  assert (Hn0 : 0 <= nlibs_of db) by (unfold nlibs_of; lia).
  unfold base_build_plan_for_book.
  fold (total db b). fold (coverage db b).
  destruct (Z.eqb_spec (total db b) 0) as [E|E]; [simpl; lia|].
  destruct (Z.leb_spec (Z.min (nlibs_of db) (total db b)) (coverage db b));
    [simpl; lia|].
  rewrite base_for_count. simpl List.length.
  assert (Hsp : spare_total (donors_of (holdings_of db b))
                = total db b - coverage db b).
  { unfold donors_of. rewrite (spare_total_perm _ _ (sorted_perm _ _)).
    rewrite spare_total_rows.
    - rewrite positive_rows_coverage by apply (wf_uniq_library_book Hwf).
      reflexivity.
    - apply Forall_forall. intros h Hh. apply filter_In in Hh as [Hh _].
      now apply (wf_quantity_non_negative Hwf). }
  assert (Hrec : Z.of_nat (List.length
                   (set_difference_iter (map l_id (Library_objects db))
                      (covering (holdings_of db b))))
                 = nlibs_of db - coverage db b).
  { unfold nlibs_of, coverage.
    rewrite <- (length_map l_id (Library_objects db)).
    rewrite <- (difference_count
                  (set_difference_iter (map l_id (Library_objects db))
                     (covering (holdings_of db b)))
                  (map l_id (Library_objects db))
                  (covering (holdings_of db b))).
    - lia.
    - apply set_difference_NoDup.
    - apply set_difference_In.
    - apply (wf_library_pk Hwf).
    - apply NoDup_nodup.
    - intros l Hl. apply covering_In in Hl as (h & Hh & Ek & _).
      unfold lb_key in Ek. injection Ek as <- _.
      now apply (wf_library_fk Hwf). }
  rewrite Hsp, Hrec. lia.
Qed.

End BaseCount.

(* ================================================================== *)
(** * The candidate books *)

Lemma positive_total_held db b :
  0 < total db b -> In b (map lb_book_id (LibraryBook_objects db)).
Proof.
  unfold total, holdings_of.
  induction (LibraryBook_objects db) as [|r table IH]; simpl; [lia|].
  destruct (Z.eqb_spec (lb_book_id r) b) as [E|E]; [now left|].
  intros H. right. now apply IH.
Qed.

Lemma candidate_test nlibs db b :
  NoDup (keys_of (LibraryBook_objects db)) ->
  In b (_candidate_book_ids nlibs db) <->
  (coverage db b <? nlibs) && (0 <? total db b) = true.
Proof.
  intros Hnd. unfold _candidate_book_ids.
  rewrite filter_In, sorted_In, nodup_In.
  cbv zeta. rewrite positive_rows_coverage by exact Hnd.
  fold (total db b). split; [tauto|].
  intros H. split; [|exact H].
  apply andb_true_iff in H as [_ H]. apply Z.ltb_lt in H.
  now apply positive_total_held.
Qed.

(** X2. The candidates are the books that fewer than [nlibs] libraries cover
    and of which there is a copy. *)
Theorem candidates_are_under_covered nlibs db b :
  well_formed db ->
  In b (_candidate_book_ids nlibs db) <->
  coverage db b < nlibs /\ 0 < total db b.
Proof.
  intros Hwf. rewrite candidate_test by apply (wf_uniq_library_book Hwf).
  now rewrite andb_true_iff, !Z.ltb_lt.
Qed.

(* ================================================================== *)
(** * The run of the base manager *)

Lemma moves_of_flat_map (f : Z -> list Move) books b :
  NoDup books ->
  (forall x m, In m (f x) -> book_id m = x) ->
  filter (fun m => book_id m =? b) (flat_map f books)
  = if mem b books then f b else [].
Proof.
  intros Hnd Hf. induction Hnd as [|x books Hnin Hnd IH]; simpl;
    [reflexivity|].
  rewrite filter_app, IH.
  destruct (Z.eqb_spec b x) as [->|E]; simpl.
  - apply mem_false in Hnin. rewrite Hnin, app_nil_r.
    apply filter_all. intros m Hm. apply Z.eqb_eq. now apply Hf.
  - rewrite filter_none; [reflexivity|].
    intros m Hm. apply Z.eqb_neq. apply Hf in Hm. congruence.
Qed.

Section BaseRun.
Variable set_difference_iter : list Z -> list Z -> list Z.
Hypothesis set_difference_NoDup :
  forall xs ys, NoDup (set_difference_iter xs ys).
Hypothesis set_difference_In :
  forall xs ys x, In x (set_difference_iter xs ys) <-> In x xs /\ ~ In x ys.

Lemma base_plan_books d db nlibs books :
  forall acc considered,
  plan_books set_difference_iter (RedistributionManager d) db nlibs books
    acc considered
  = Ok (acc ++ flat_map
                 (fun b => base_build_plan_for_book set_difference_iter
                             db b nlibs) books,
        considered + Z.of_nat (List.length books),
        RedistributionManager d).
Proof.
  induction books as [|b books IH]; intros acc considered.
  - simpl. now rewrite app_nil_r, Z.add_0_r.
  - simpl plan_books. simpl bind. rewrite IH. simpl flat_map.
    rewrite app_assoc. do 3 f_equal. simpl List.length. lia.
Qed.

Lemma base_rebalance_moves d db plan self' db' :
  rebalance set_difference_iter (RedistributionManager d) db
  = Ok (plan, self', db') ->
  moves plan
  = flat_map (fun b => base_build_plan_for_book set_difference_iter
                         db b (nlibs_of db))
      (_candidate_book_ids (nlibs_of db) db).
Proof.
  simpl. unfold base_rebalance. rewrite base_plan_books. simpl bind.
  unfold finish.
  destruct (if dry_run (RedistributionManager d) then Ok db else _) as [x|e];
    simpl; [|discriminate].
  intros H. now injection H as <- _ _.
Qed.

Lemma base_moves_count db b :
  well_formed db ->
  Z.of_nat (List.length
              (filter (fun m => book_id m =? b)
                 (flat_map
                    (fun b => base_build_plan_for_book set_difference_iter
                                db b (nlibs_of db))
                    (_candidate_book_ids (nlibs_of db) db))))
  = Z.min (nlibs_of db) (total db b) - coverage db b.
Proof.
  intros Hwf. rewrite moves_of_flat_map.
  - destruct (mem b (_candidate_book_ids (nlibs_of db) db)) eqn:Hmem.
    + now apply base_build_count.
    + apply mem_false in Hmem.
      rewrite candidate_test in Hmem by apply (wf_uniq_library_book Hwf).
      pose proof (coverage_bound db b Hwf) as Hbound.
      assert (Hcov0 : 0 <= coverage db b) by (unfold coverage; lia).
      assert (Hn0 : 0 <= nlibs_of db) by (unfold nlibs_of; lia).
      simpl List.length.
      destruct (Z.ltb_spec (coverage db b) (nlibs_of db)),
               (Z.ltb_spec 0 (total db b)); simpl in Hmem;
        try congruence; lia.
  - apply candidate_book_ids_NoDup.
  - intros x m Hm.
    pose proof (base_build_spec set_difference_iter set_difference_NoDup
                  set_difference_In db x (nlibs_of db)) as (Hall & _).
    rewrite Forall_forall in Hall. now apply Hall in Hm.
Qed.

Lemma base_moves_of_book d db plan self' db' b :
  well_formed db ->
  rebalance set_difference_iter (RedistributionManager d) db
  = Ok (plan, self', db') ->
  Z.of_nat (List.length (filter (fun m => book_id m =? b) (moves plan)))
  = Z.min (nlibs_of db) (total db b) - coverage db b.
Proof.
  intros Hwf Hret. rewrite (base_rebalance_moves d db plan self' db' Hret).
  now apply base_moves_count.
Qed.

(** X3. The base manager plans for every book as many moves as its coverage
    lacks to the target, the smaller of the number of libraries and the
    total of the book. *)
Theorem base_plan_size d db plan self' db' :
  well_formed db ->
  rebalance set_difference_iter (RedistributionManager d) db
  = Ok (plan, self', db') ->
  forall book,
    coverage db book
    + Z.of_nat (List.length
                  (filter (fun m => book_id m =? book) (moves plan)))
    = Z.min (nlibs_of db) (total db book).
Proof.
  intros Hwf Hret book.
  rewrite (base_moves_of_book d db plan self' db' book Hwf Hret). lia.
Qed.

Lemma applied_total db dom ms applied :
  well_formed db -> run_plan db dom ms -> _apply_plan ms db = Ok applied ->
  well_formed applied
  /\ nlibs_of applied = nlibs_of db
  /\ forall b, total applied b = total db b.
Proof.
  intros Hwf Hrun Happ.
  pose proof (run_plan_apply_cases db dom ms Hwf Hrun) as H.
  rewrite Happ in H. destruct H as (HL & _ & Hwf' & Hheld).
  split; [exact Hwf'|]. split; [unfold nlibs_of; now rewrite HL|].
  intros b. rewrite !total_held, Hheld.
  unfold move_target, move_source. simpl. lia.
Qed.

Lemma base_apply_saturates d db plan self' db' applied :
  well_formed db ->
  rebalance set_difference_iter (RedistributionManager d) db
  = Ok (plan, self', db') ->
  _apply_plan (moves plan) db = Ok applied ->
  well_formed applied
  /\ forall b, coverage applied b = Z.min (nlibs_of applied) (total applied b).
Proof.
  intros Hwf Hret Happ.
  pose proof (rebalance_returns_run_plan set_difference_iter
                set_difference_NoDup set_difference_In
                _ db plan self' db' Hret) as Hrun.
  destruct (applied_total db _ (moves plan) applied Hwf Hrun Happ)
    as (Hwf' & HN & Htot).
  split; [exact Hwf'|]. intros b.
  rewrite (run_plan_coverage db _ (moves plan) applied Hwf Hrun Happ).
  rewrite (base_moves_of_book d db plan self' db' b Hwf Hret).
  rewrite HN, Htot. lia.
Qed.

(** X4. When the plan of the base manager is applied, every book is held by
    as many libraries as the target allows: by all of them, or by as many
    as there are copies. *)
Theorem base_reaches_target d db plan self' db' applied :
  well_formed db ->
  rebalance set_difference_iter (RedistributionManager d) db
  = Ok (plan, self', db') ->
  _apply_plan (moves plan) db = Ok applied ->
  forall book,
    coverage applied book = Z.min (nlibs_of db) (total db book).
Proof.
  intros Hwf Hret Happ book.
  pose proof (rebalance_returns_run_plan set_difference_iter
                set_difference_NoDup set_difference_In
                _ db plan self' db' Hret) as Hrun.
  rewrite (run_plan_coverage db _ (moves plan) applied Hwf Hrun Happ).
  rewrite (base_moves_of_book d db plan self' db' book Hwf Hret). lia.
Qed.

(** X5. Each move of a plan brings its book to one more library. *)
Theorem coverage_grows_by_moves self db plan self' db' applied :
  well_formed db ->
  rebalance set_difference_iter self db = Ok (plan, self', db') ->
  _apply_plan (moves plan) db = Ok applied ->
  forall book,
    coverage applied book
    = coverage db book
      + Z.of_nat (List.length
                    (filter (fun m => book_id m =? book) (moves plan))).
Proof.
  intros Hwf Hret Happ book.
  pose proof (rebalance_returns_run_plan set_difference_iter
                set_difference_NoDup set_difference_In
                self db plan self' db' Hret) as Hrun.
  apply (run_plan_coverage db _ (moves plan) applied Hwf Hrun Happ).
Qed.

End BaseRun.

(* ================================================================== *)
(** * A database in which every book has reached its target *)

Section Saturated.
Variable set_difference_iter : list Z -> list Z -> list Z.
Hypothesis set_difference_NoDup :
  forall xs ys, NoDup (set_difference_iter xs ys).
Hypothesis set_difference_In :
  forall xs ys x, In x (set_difference_iter xs ys) <-> In x xs /\ ~ In x ys.

Lemma build_saturated self db b :
  Z.min (nlibs_of db) (total db b) <= coverage db b ->
  exists self',
    _build_plan_for_book set_difference_iter self db b (nlibs_of db)
    = Ok ([], self')
    /\ dry_run self' = dry_run self.
Proof.
  intros Hsat.
  assert (Hbase : base_build_plan_for_book set_difference_iter db b
                    (nlibs_of db) = []).
  { unfold base_build_plan_for_book.
    destruct (sum_quantity (holdings_of db b) =? 0); [reflexivity|].
    fold (total db b). fold (coverage db b).
    destruct (Z.leb_spec (Z.min (nlibs_of db) (total db b)) (coverage db b));
      [reflexivity|lia]. }
  assert (Hcap : forall fc,
            capacity_build_plan_for_book set_difference_iter fc db b
              (nlibs_of db) = Ok ([], effective_capacity fc db)).
  { intros fc. unfold capacity_build_plan_for_book.
    destruct (sum_quantity (holdings_of db b) =? 0); [reflexivity|].
    fold (total db b). fold (coverage db b).
    destruct (Z.leb_spec (Z.min (nlibs_of db) (total db b)) (coverage db b));
      [reflexivity|lia]. }
  destruct self as [d|d fc|d fc p a]; simpl.
  - rewrite Hbase. eauto.
  - rewrite Hcap. simpl. eauto.
  - rewrite Hcap. simpl. eauto.
Qed.

Lemma plan_books_saturated db books :
  saturated db ->
  forall self acc considered,
  exists self',
    plan_books set_difference_iter self db (nlibs_of db) books acc considered
    = Ok (acc, considered + Z.of_nat (List.length books), self')
    /\ dry_run self' = dry_run self.
Proof.
  intros Hsat. induction books as [|b books IH]; intros self acc considered.
  - exists self. simpl. now rewrite Z.add_0_r.
  - destruct (build_saturated self db b (Hsat b)) as (self1 & Heq & Hdry).
    simpl plan_books. rewrite Heq. simpl bind. rewrite app_nil_r.
    destruct (IH self1 acc (considered + 1)) as (self' & Heq' & Hdry').
    exists self'. rewrite Heq'. split; [|congruence].
    do 3 f_equal. simpl List.length. lia.
Qed.

Lemma rebalance_saturated self db :
  (forall h, In h (LibraryBook_objects db) ->
     In (lb_book_id h) (map b_id (Book_objects db))) ->
  saturated db ->
  exists considered self',
    rebalance set_difference_iter self db
    = Ok (mkPlan [] 0 considered, self', db).
Proof.
  intros Hfk Hsat. rewrite rebalance_unfold.
  destruct (book_order_ok self db Hfk) as [books ->]. simpl bind.
  destruct (plan_books_saturated db books Hsat self [] 0)
    as (self' & -> & Hdry).
  simpl bind. unfold finish.
  exists (0 + Z.of_nat (List.length books)), self'.
  destruct (dry_run self'); [reflexivity|].
  now rewrite apply_plan_nil.
Qed.

(** X6. Where every book has reached its target coverage, a run of any
    manager, with or without [dry_run], plans no move and leaves the
    database as it is. *)
Theorem nothing_to_move self db :
  well_formed db ->
  (forall book, coverage db book = Z.min (nlibs_of db) (total db book)) ->
  exists considered self',
    rebalance set_difference_iter self db
    = Ok (mkPlan [] 0 considered, self', db).
Proof.
  intros Hwf Hsat. apply rebalance_saturated.
  - apply (wf_book_fk Hwf).
  - intros b. rewrite Hsat. lia.
Qed.

(** X7. After a run of the base manager that applied its plan, a further run
    of any manager finds nothing to move. *)
Theorem base_apply_then_nothing db plan self' db' next :
  well_formed db ->
  rebalance set_difference_iter (RedistributionManager false) db
  = Ok (plan, self', db') ->
  exists considered next',
    rebalance set_difference_iter next db'
    = Ok (mkPlan [] 0 considered, next', db').
Proof.
  intros Hwf Hret.
  pose proof (rebalance_applies_own_plan set_difference_iter
                set_difference_NoDup set_difference_In
                _ db plan self' db' Hret) as Happ.
  simpl in Happ.
  destruct (base_apply_saturates set_difference_iter set_difference_NoDup
              set_difference_In false db plan self' db' db' Hwf Hret Happ)
    as (Hwf' & Hsat).
  apply rebalance_saturated.
  - apply (wf_book_fk Hwf').
  - intros b. rewrite Hsat. lia.
Qed.

End Saturated.

(* ================================================================== *)
(** * The report of a run *)

Section Report.
Variable set_difference_iter : list Z -> list Z -> list Z.
Hypothesis set_difference_NoDup :
  forall xs ys, NoDup (set_difference_iter xs ys).
Hypothesis set_difference_In :
  forall xs ys x, In x (set_difference_iter xs ys) <-> In x xs /\ ~ In x ys.

(** X8. The plan that a run returns counts its own moves and the candidate
    books, also those for which it plans no move; it moves candidate
    books only. *)
Theorem report_counts self db plan self' db' :
  rebalance set_difference_iter self db = Ok (plan, self', db') ->
  total_moves plan = Z.of_nat (List.length (moves plan))
  /\ books_considered plan
     = Z.of_nat (List.length (_candidate_book_ids (nlibs_of db) db))
  /\ forall m, In m (moves plan) ->
       In (book_id m) (_candidate_book_ids (nlibs_of db) db).
Proof.
  intros Hret. destruct (book_order self db) as [books|e] eqn:Hbooks.
  - destruct (rebalance_plan set_difference_iter set_difference_NoDup
                set_difference_In self db books Hbooks)
      as (ms & self1 & Heq & _ & _ & Horigin & _).
    rewrite Heq in Hret. unfold finish in Hret.
    destruct (if dry_run self1 then Ok db else _apply_plan ms db);
      simpl in Hret; [|discriminate].
    injection Hret as <- _ _. simpl.
    pose proof (book_order_perm self db books Hbooks) as Hperm.
    split; [reflexivity|]. split.
    + now rewrite (Permutation_length Hperm).
    + intros m Hm. eapply Permutation_in; [exact Hperm|]. now apply Horigin.
  - rewrite rebalance_unfold, Hbooks in Hret. discriminate.
Qed.

(** X9. Planning raises nothing: a dry run over holdings whose books exist
    returns a plan and the database it was given, whatever the
    free-capacity map of the manager holds. *)
Theorem dry_run_returns self db :
  dry_run self = true ->
  (forall h, In h (LibraryBook_objects db) ->
     In (lb_book_id h) (map b_id (Book_objects db))) ->
  exists plan self',
    rebalance set_difference_iter self db = Ok (plan, self', db).
Proof.
  intros Hdry Hfk. destruct (book_order_ok self db Hfk) as [books Hbooks].
  destruct (rebalance_plan set_difference_iter set_difference_NoDup
              set_difference_In self db books Hbooks)
    as (ms & self1 & Heq & _ & Hself & _).
  rewrite Heq. unfold finish.
  assert (Hdry1 : dry_run self1 = true).
  { rewrite Hself, dry_run_set_free_capacity. exact Hdry. }
  rewrite Hdry1. simpl. eauto.
Qed.

End Report.

(* ================================================================== *)
(** * Preview and apply *)

Section Preview.
Variable set_difference_iter : list Z -> list Z -> list Z.

Lemma book_order_with_dry_run d self db :
  book_order (with_dry_run d self) db = book_order self db.
Proof. now destruct self. Qed.

Lemma build_with_dry_run d self db b nlibs :
  _build_plan_for_book set_difference_iter (with_dry_run d self) db b nlibs
  = let* '(ms, self') :=
      _build_plan_for_book set_difference_iter self db b nlibs in
    Ok (ms, with_dry_run d self').
Proof.
  destruct self as [d0|d0 fc|d0 fc p a]; simpl; [reflexivity| |];
    destruct (capacity_build_plan_for_book _ fc db b nlibs) as [[ms fc']|e];
    reflexivity.
Qed.

Lemma plan_books_with_dry_run d db nlibs books :
  forall self acc considered,
  plan_books set_difference_iter (with_dry_run d self) db nlibs books
    acc considered
  = let* '(ms, n, self') :=
      plan_books set_difference_iter self db nlibs books acc considered in
    Ok (ms, n, with_dry_run d self').
Proof.
  induction books as [|b books IH]; intros self acc considered;
    [reflexivity|].
  simpl plan_books. rewrite build_with_dry_run.
  destruct (_build_plan_for_book set_difference_iter self db b nlibs)
    as [[ms self1]|e]; [|reflexivity].
  simpl bind. apply IH.
Qed.

Lemma dry_run_with_dry_run d self : dry_run (with_dry_run d self) = d.
Proof. now destruct self. Qed.

(** X10. The [dry_run] attribute has no part in planning: the preview shows
    the plan that the run with [--apply] carries out, and a run with
    [--apply] carries out the plan that the preview showed. *)
Theorem preview_matches_apply self db plan self' db' :
  rebalance set_difference_iter self db = Ok (plan, self', db') ->
  rebalance set_difference_iter (with_dry_run true self) db
  = Ok (plan, with_dry_run true self', db)
  /\ forall applied,
       _apply_plan (moves plan) db = Ok applied ->
       rebalance set_difference_iter (with_dry_run false self) db
       = Ok (plan, with_dry_run false self', applied).
Proof.
  intros Hret.
  assert (Hany : forall d,
            rebalance set_difference_iter (with_dry_run d self) db
            = let* db2 := if d then Ok db
                          else _apply_plan (moves plan) db in
              Ok (plan, with_dry_run d self', db2)).
  { intros d. rewrite rebalance_unfold in Hret. rewrite rebalance_unfold.
    rewrite book_order_with_dry_run.
    destruct (book_order self db) as [books|e]; [|discriminate].
    simpl bind in *. rewrite plan_books_with_dry_run.
    destruct (plan_books set_difference_iter self db (nlibs_of db) books [] 0)
      as [[[ms n] self1]|e]; [|discriminate].
    simpl bind in *. unfold finish in *.
    rewrite dry_run_with_dry_run.
    destruct (if dry_run self1 then Ok db else _apply_plan ms db)
      as [db1|e]; [|discriminate].
    simpl in Hret. injection Hret as <- <- _. simpl. reflexivity. }
  split.
  - now rewrite Hany.
  - intros applied Happ. rewrite Hany. simpl. now rewrite Happ.
Qed.

End Preview.

(* ================================================================== *)
(** * The order of [year_desc] *)

Lemma sort_key_year_desc author_ids base_ids db bid k :
  sort_key "year_desc" author_ids (book_meta_of base_ids db) bid = Ok k ->
  exists b,
    PyDict.get Z.eq_dec (book_meta_of base_ids db) bid = Some b
    /\ b_id b = bid
    /\ k = (1, - b_year b).
Proof.
  unfold sort_key.
  destruct (PyDict.get Z.eq_dec (book_meta_of base_ids db) bid) as [b|] eqn:E;
    [|discriminate].
  intros Hkey. exists b. split; [reflexivity|].
  split; [eapply book_meta_get, E|].
  simpl in Hkey. now injection Hkey.
Qed.

(** X11. Under [year_desc] the books are processed newest first, whatever the
    author ids of the manager are. *)
Theorem year_desc_order dry fc author_ids db ordered :
  book_order (PriorityRedistributionManager dry fc "year_desc" author_ids)
    db = Ok ordered ->
  Permutation ordered (_candidate_book_ids (nlibs_of db) db)
  /\ exists books,
       Forall2 (fun bid b => meta_of db bid = Some b /\ b_id b = bid)
         ordered books
       /\ in_order newest_first books = true.
Proof.
  intros Hord. split; [eapply book_order_perm, Hord|].
  simpl in Hord. unfold ordered_book_ids, sorted_by_key in Hord.
  set (base := _candidate_book_ids (nlibs_of db) db) in *.
  set (key_of := sort_key "year_desc" author_ids (book_meta_of base db)) in *.
  destruct (decorate key_of base) as [decorated|e] eqn:Hdec;
    simpl in Hord; [|discriminate].
  injection Hord as <-.
  set (le := fun a b : (Z * Z) * Z => tuple_leb (fst a) (fst b)).
  assert (Hsorted : StronglySorted (fun a b => le a b = true)
                      (sorted le decorated)).
  { apply sorted_sorted.
    - intros a b. apply tuple_leb_total.
    - intros a b c. apply tuple_leb_trans. }
  assert (Hkeys : Forall (fun kx => key_of (snd kx) = Ok (fst kx))
                    (sorted le decorated)).
  { apply Forall_forall. intros kx Hkx. apply sorted_In in Hkx.
    pose proof (decorate_fst _ _ _ Hdec) as Hall.
    rewrite Forall_forall in Hall. now apply Hall. }
  induction Hsorted as [|kx rest Hrest IH Hle].
  - exists []. split; constructor.
  - inversion Hkeys as [|? ? Hkx Hkeys']; subst.
    destruct (IH Hkeys') as (books & Hmeta & Hin).
    destruct (sort_key_year_desc _ _ _ _ _ Hkx) as (b & Hb & Hid & Hk).
    exists (b :: books). split.
    + simpl. constructor; [now split|assumption].
    + simpl. rewrite Hin, andb_true_r. apply forallb_forall.
      intros y Hy.
      destruct (Forall2_In_r _ _ _ _ _ y Hmeta Hy) as (bid & Hbid & Hy').
      apply in_map_iff in Hbid. destruct Hbid as (ky & <- & Hky).
      rewrite Forall_forall in Hle, Hkeys'.
      specialize (Hle ky Hky). specialize (Hkeys' ky Hky).
      destruct (sort_key_year_desc _ _ _ _ _ Hkeys')
        as (b' & Hb' & Hid' & Hk').
      destruct Hy' as [Hy' _]. unfold meta_of in Hy'. fold base in Hy'.
      rewrite Hb' in Hy'. injection Hy' as <-.
      unfold le in Hle. rewrite Hk, Hk' in Hle.
      unfold tuple_leb in Hle. simpl in Hle.
      unfold newest_first. apply Z.leb_le. apply Z.leb_le in Hle. lia.
Qed.

(* ================================================================== *)
(** * The [--authors] option *)

Lemma codes_digits d : Forall (fun c => 48 <= c <= 57)%N (codes d).
Proof. induction d; simpl; constructor; solve [lia | assumption]. Qed.

Lemma split_comma_plain x s :
  Forall (fun c => c <> 44%N) x ->
  split_comma (x ++ 44%N :: s) = x :: split_comma s.
Proof.
  induction 1 as [|c x Hc _ IH]; simpl; [reflexivity|].
  apply N.eqb_neq in Hc. now rewrite Hc, IH.
Qed.

Lemma split_comma_plain_only x :
  Forall (fun c => c <> 44%N) x -> split_comma x = [x].
Proof.
  induction 1 as [|c x Hc _ IH]; simpl; [reflexivity|].
  apply N.eqb_neq in Hc. now rewrite Hc, IH.
Qed.

Lemma split_join_plain items :
  items <> [] -> Forall (Forall (fun c => c <> 44%N)) items ->
  split_comma (join_comma items) = items.
Proof.
  intros Hne Hall. induction Hall as [|x items Hx Hall IH]; [congruence|].
  destruct items as [|y items].
  - simpl. now apply split_comma_plain_only.
  - change (join_comma (x :: y :: items))
      with (x ++ 44%N :: join_comma (y :: items)).
    rewrite split_comma_plain by assumption.
    f_equal. apply IH. discriminate.
Qed.

Lemma scan_codes d : forall prev value digits,
  exists prev' value',
    scan_digits (codes d) prev value digits
    = Some (value', (digits + N.of_nat (List.length (codes d)))%N,
            prev', [])
    /\ (prev' = prev \/ ascii_digit prev' = true)
    /\ (forall acc, value = N.pos acc ->
          value' = N.pos (Pos.of_uint_acc d acc))
    /\ (value = 0%N -> value' = Pos.of_uint d).
Proof.
  induction d; intros prev value digits;
    [exists prev, value; simpl; rewrite N.add_0_r;
     repeat split; [now left|now intros acc ->|now intros ->]|..];
    (cbn [codes scan_digits List.length];
     match goal with
     | |- context [ascii_digit ?c] => change (ascii_digit c) with true
     end;
     cbv iota;
     match goal with
     | |- context [scan_digits _ ?c ?v ?k] =>
         destruct (IHd c v k) as (prev' & value' & Hs & Hp & Hacc & Hz)
     end;
     exists prev', value'; rewrite Hs;
     split;
     [match goal with
      | |- Some (_, ?x, _, _) = Some (_, ?y, _, _) =>
          replace y with x by lia; reflexivity
      end|];
     split; [right; destruct Hp as [->|Hp]; [reflexivity|assumption]|];
     split;
     [intros acc ->; cbn [Pos.of_uint_acc]; apply Hacc; lia
     |intros ->; cbn [Pos.of_uint];
      first [apply Hz; reflexivity|apply Hacc; reflexivity]]).
Qed.

Lemma codes_ascii d : forallb (fun c => c <? 128)%N (codes d) = true.
Proof.
  apply forallb_forall. intros c Hc.
  pose proof (codes_digits d) as H. rewrite Forall_forall in H.
  apply N.ltb_lt. specialize (H c Hc). lia.
Qed.

Lemma decimal_cons n : exists c s, decimal n = c :: s.
Proof.
  unfold decimal. destruct n as [|p]; [now exists 48%N, []|].
  simpl. pose proof (Unsigned.to_uint_nonnil p) as Hp.
  destruct (Pos.to_uint p); simpl; try congruence; eauto.
Qed.

Lemma int_decimal py n :
  (List.length (decimal n) <= 640)%nat ->
  int py (decimal n) = Ok (Z.of_N n).
Proof.
  intros Hlen. unfold int, to_ascii.
  unfold decimal in *. rewrite codes_ascii.
  destruct (scan_codes (N.to_uint n) 0 0 0)
    as (prev' & value' & Hs & Hp & _ & Hz).
  specialize (Hz eq_refl).
  change (Pos.of_uint (N.to_uint n)) with (N.of_uint (N.to_uint n)) in Hz.
  rewrite DecimalN.Unsigned.of_to in Hz. subst value'.
  destruct (decimal_cons n) as (c & s & Hcs). unfold decimal in Hcs.
  pose proof (codes_digits (N.to_uint n)) as Hd.
  rewrite Hcs in *. inversion Hd as [|? ? Hc _]; subst.
  assert (Hsp : Py_ISSPACE c = false).
  { unfold Py_ISSPACE.
    destruct (N.leb_spec 9 c), (N.leb_spec c 13), (N.eqb_spec c 32);
      simpl; try reflexivity; lia. }
  cbn [skip_spaces]. rewrite Hsp. unfold read_sign.
  destruct (N.eqb_spec c 43) as [?|_]; [lia|].
  destruct (N.eqb_spec c 45) as [?|_]; [lia|].
  cbn [starts_with].
  destruct (N.eqb_spec c 95) as [?|_]; [lia|].
  rewrite Hs.
  assert (Hprev : (prev' =? 95)%N = false).
  { apply N.eqb_neq. destruct Hp as [->|Hp]; [discriminate|].
    unfold ascii_digit in Hp. apply andb_prop in Hp.
    destruct Hp as [_ Hp]. apply N.leb_le in Hp. lia. }
  rewrite Hprev.
  assert (Hmany : too_many_digits py (0 + N.of_nat (List.length (c :: s)))
                  = false).
  { unfold too_many_digits.
    destruct (N.ltb_spec 640 (0 + N.of_nat (List.length (c :: s))));
      [lia|reflexivity]. }
  rewrite Hmany.
  destruct (N.eqb_spec (0 + N.of_nat (List.length (c :: s))) 0)
    as [Hzero|_]; [simpl in Hzero; lia|].
  simpl. f_equal. now destruct n.
Qed.

Section Authors.
Variable py : Interpreter.

(** What the text below needs of the tables: the ten ASCII digits are
    digits, and none of them is white space. *)
Hypothesis ascii_digits_are_digits :
  forall c, (48 <= c <= 57)%N -> Py_UNICODE_ISDIGIT py c = true.
Hypothesis ascii_digits_are_not_spaces :
  forall c, (48 <= c <= 57)%N -> Py_UNICODE_ISSPACE py c = false.

Lemma lstrip_plain x :
  Forall (fun c => Py_UNICODE_ISSPACE py c = false) x -> lstrip py x = x.
Proof. destruct 1 as [|c x Hc _]; simpl; [reflexivity|now rewrite Hc]. Qed.

Lemma rstrip_plain x :
  Forall (fun c => Py_UNICODE_ISSPACE py c = false) x -> rstrip py x = x.
Proof.
  induction 1 as [|c x Hc _ IH]; simpl; [reflexivity|].
  rewrite IH, Hc. now destruct x.
Qed.

Lemma decimal_plain n :
  Forall (fun c => Py_UNICODE_ISSPACE py c = false) (decimal n).
Proof.
  eapply Forall_impl; [|apply codes_digits].
  intros c Hc. now apply ascii_digits_are_not_spaces.
Qed.

Lemma strip_decimal n : strip py (decimal n) = decimal n.
Proof.
  unfold strip.
  now rewrite lstrip_plain, rstrip_plain by apply decimal_plain.
Qed.

Lemma isdigit_decimal n : isdigit py (decimal n) = true.
Proof.
  assert (H : forallb (Py_UNICODE_ISDIGIT py) (decimal n) = true).
  { apply forallb_forall. intros c Hc.
    pose proof (codes_digits (N.to_uint n)) as H.
    rewrite Forall_forall in H. apply ascii_digits_are_digits, H, Hc. }
  destruct (decimal_cons n) as (c & s & Hcs). unfold isdigit.
  rewrite Hcs in *. exact H.
Qed.

Lemma decimal_no_comma n : Forall (fun c => c <> 44%N) (decimal n).
Proof.
  eapply Forall_impl; [|apply codes_digits]. simpl. intros c Hc. lia.
Qed.

Lemma int_of_each_decimal ns :
  (forall n, In n ns -> (List.length (decimal n) <= 640)%nat) ->
  int_of_each py (map decimal ns) = Ok (map Z.of_N ns).
Proof.
  induction ns as [|n ns IH]; intros Hlen; simpl; [reflexivity|].
  rewrite strip_decimal, isdigit_decimal.
  rewrite int_decimal by (apply Hlen; now left). simpl.
  rewrite IH by (intros m Hm; apply Hlen; now right). reflexivity.
Qed.

(** X13. The ids written in decimal and joined by commas are read back as
    they are: for [--authors] set to [",".join(str(n) for n in ns)], with
    [ns] not empty and no id longer than 640 digits, the command computes
    the list [ns]. *)
Theorem authors_of_decimal_items a c p (ns : list N) :
  ns <> [] ->
  (forall n, In n ns -> (List.length (decimal n) <= 640)%nat) ->
  authors_of py (mkOptions a c p (join_comma (map decimal ns)))
  = Ok (map Z.of_N ns).
Proof.
  intros Hne Hlen. unfold authors_of. simpl opt_authors.
  rewrite split_join_plain.
  - now apply int_of_each_decimal.
  - now destruct ns.
  - apply Forall_forall. intros x Hx. apply in_map_iff in Hx.
    destruct Hx as (n & <- & _). apply decimal_no_comma.
Qed.

(** X26. An item in which one of the separators 28 to 31 stands before
    the digits passes the filter, since [strip] removes the separator,
    and [int], which does not skip it, refuses the item: the command
    ends with [ValueError]. *)
Theorem separator_before_digits_raises a c p (sep n : N) :
  (28 <= sep <= 31)%N ->
  Py_UNICODE_ISSPACE py sep = true ->
  isdigit py (strip py (sep :: decimal n)) = true
  /\ authors_of py (mkOptions a c p (sep :: decimal n)) = Raise ValueError
  /\ forall set_difference_iter db,
       handle set_difference_iter py (mkOptions a c p (sep :: decimal n)) db
       = Raise ValueError.
Proof.
  intros Hsep Hsp.
  assert (Hstrip : strip py (sep :: decimal n) = decimal n).
  { unfold strip. cbn [lstrip]. rewrite Hsp.
    now rewrite lstrip_plain, rstrip_plain by apply decimal_plain. }
  assert (Hint : int py (sep :: decimal n) = Raise ValueError).
  { unfold int, to_ascii. cbn [forallb].
    destruct (N.ltb_spec sep 128) as [_|?]; [|lia].
    unfold decimal. rewrite codes_ascii. cbn [andb skip_spaces].
    assert (Hnot : Py_ISSPACE sep = false).
    { unfold Py_ISSPACE.
      destruct (N.leb_spec 9 sep), (N.leb_spec sep 13), (N.eqb_spec sep 32);
        simpl; try reflexivity; lia. }
    rewrite Hnot. unfold read_sign.
    destruct (N.eqb_spec sep 43) as [?|_]; [lia|].
    destruct (N.eqb_spec sep 45) as [?|_]; [lia|].
    cbn [starts_with].
    destruct (N.eqb_spec sep 95) as [?|_]; [lia|].
    cbn [scan_digits]. unfold ascii_digit.
    destruct (N.leb_spec 48 sep) as [?|_]; [lia|]. cbn [andb].
    destruct (N.eqb_spec sep 95) as [?|_]; [lia|]. reflexivity. }
  assert (Hauthors :
    authors_of py (mkOptions a c p (sep :: decimal n)) = Raise ValueError).
  { unfold authors_of. simpl opt_authors.
    rewrite (split_comma_plain_only (sep :: decimal n)).
    - cbn [int_of_each]. rewrite Hstrip, isdigit_decimal, Hint. reflexivity.
    - constructor; [lia|apply decimal_no_comma]. }
  split; [rewrite Hstrip; apply isdigit_decimal|].
  split; [exact Hauthors|].
  intros sdi db. unfold handle, handle_manager. now rewrite Hauthors.
Qed.

End Authors.

(** X27. A digit that has no decimal value, such as a superscript two,
    passes the filter and is refused by [int]: the command ends with
    [ValueError]. *)
Theorem digit_without_value_raises py a c p (d : N) :
  (128 <= d)%N ->
  Py_UNICODE_ISDIGIT py d = true ->
  Py_UNICODE_ISSPACE py d = false ->
  Py_UNICODE_TODECIMAL py d = None ->
  isdigit py (strip py [d]) = true
  /\ authors_of py (mkOptions a c p [d]) = Raise ValueError
  /\ forall set_difference_iter db,
       handle set_difference_iter py (mkOptions a c p [d]) db
       = Raise ValueError.
Proof.
  intros Hd Hdigit Hspace Hdec.
  assert (Hstrip : strip py [d] = [d]).
  { unfold strip. simpl. rewrite Hspace. simpl. now rewrite Hspace. }
  assert (Hint : int py [d] = Raise ValueError).
  { unfold int, to_ascii. cbn [forallb].
    destruct (N.ltb_spec d 128) as [?|_]; [lia|].
    cbn [andb transform_decimal_and_space].
    destruct (N.ltb_spec d 127) as [?|_]; [lia|].
    rewrite Hspace, Hdec. reflexivity. }
  assert (Hauthors :
    authors_of py (mkOptions a c p [d]) = Raise ValueError).
  { unfold authors_of. simpl opt_authors. cbn [split_comma].
    destruct (N.eqb_spec d 44) as [?|_]; [lia|].
    cbn [int_of_each]. rewrite Hstrip. cbn [isdigit forallb].
    rewrite Hdigit, Hint. reflexivity. }
  split; [rewrite Hstrip; simpl; now rewrite Hdigit|].
  split; [exact Hauthors|].
  intros sdi db. unfold handle, handle_manager. now rewrite Hauthors.
Qed.

(** X28. A decimal digit of another script is accepted: the item that
    consists of a digit with the decimal value [v] gives the author id
    [v]. *)
Theorem foreign_decimal_digit_accepted py a c p (d v : N) :
  (128 <= d)%N ->
  Py_UNICODE_ISDIGIT py d = true ->
  Py_UNICODE_ISSPACE py d = false ->
  Py_UNICODE_TODECIMAL py d = Some v ->
  (v <= 9)%N ->
  authors_of py (mkOptions a c p [d]) = Ok [Z.of_N v].
Proof.
  intros Hd Hdigit Hspace Hdec Hv.
  assert (Hstrip : strip py [d] = [d]).
  { unfold strip. simpl. rewrite Hspace. simpl. now rewrite Hspace. }
  assert (Hint : int py [d] = Ok (Z.of_N v)).
  { unfold int, to_ascii. cbn [forallb].
    destruct (N.ltb_spec d 128) as [?|_]; [lia|].
    cbn [andb transform_decimal_and_space].
    destruct (N.ltb_spec d 127) as [?|_]; [lia|].
    rewrite Hspace, Hdec. cbn [skip_spaces].
    assert (Hnot : Py_ISSPACE (48 + v) = false).
    { unfold Py_ISSPACE.
      destruct (N.leb_spec 9 (48 + v)), (N.leb_spec (48 + v) 13),
        (N.eqb_spec (48 + v) 32); simpl; try reflexivity; lia. }
    rewrite Hnot. unfold read_sign.
    destruct (N.eqb_spec (48 + v) 43) as [?|_]; [lia|].
    destruct (N.eqb_spec (48 + v) 45) as [?|_]; [lia|].
    cbn [starts_with].
    destruct (N.eqb_spec (48 + v) 95) as [?|_]; [lia|].
    cbn [scan_digits]. unfold ascii_digit.
    destruct (N.leb_spec 48 (48 + v)) as [_|?]; [|lia].
    destruct (N.leb_spec (48 + v) 57) as [_|?]; [|lia]. cbn [andb].
    destruct (N.eqb_spec (48 + v) 95) as [?|_]; [lia|].
    unfold too_many_digits.
    change (0 + 1)%N with 1%N. change (640 <? 1)%N with false.
    change (1 =? 0)%N with false. cbn [andb skip_spaces].
    rewrite Z.mul_1_l. do 2 f_equal. lia. }
  unfold authors_of. simpl opt_authors. cbn [split_comma].
  destruct (N.eqb_spec d 44) as [?|_]; [lia|].
  cbn [int_of_each]. rewrite Hstrip. cbn [isdigit forallb].
  rewrite Hdigit, Hint. reflexivity.
Qed.

(* ================================================================== *)
(** * The free-capacity map and the load of a library *)

Lemma fold_set_fresh_keys (libs : list Library) (g : Library -> Z) :
  forall d,
  NoDup (PyDict.keys d ++ map l_id libs) ->
  PyDict.keys
    (fold_left (fun d l => PyDict.set Z.eq_dec d (l_id l) (g l)) libs d)
  = PyDict.keys d ++ map l_id libs.
Proof.
  induction libs as [|l libs IH]; intros d Hnd; simpl.
  - now rewrite app_nil_r.
  - assert (Hfresh : ~ In (l_id l) (PyDict.keys d)).
    { intros Hin. simpl in Hnd. apply NoDup_remove_2 in Hnd.
      apply Hnd, in_or_app. now left. }
    rewrite IH; rewrite (keys_set_absent Z.eq_dec d (l_id l) (g l) Hfresh);
      unfold PyDict.keys; rewrite map_app; simpl; rewrite <- app_assoc;
      [reflexivity|exact Hnd].
Qed.

(** X14. [_compute_free_capacity] gives every library, and nothing else, one
    entry: its capacity less its [used_capacity]. *)
Theorem free_capacity_of_libraries db :
  well_formed db ->
  NoDup (PyDict.keys (_compute_free_capacity db))
  /\ (forall l, In l (PyDict.keys (_compute_free_capacity db)) <->
                In l (map l_id (Library_objects db)))
  /\ (forall lib, In lib (Library_objects db) ->
        PyDict.get Z.eq_dec (_compute_free_capacity db) (l_id lib)
        = Some (l_capacity lib - used_capacity db (l_id lib)))
  /\ (forall l, ~ In l (map l_id (Library_objects db)) ->
        PyDict.get Z.eq_dec (_compute_free_capacity db) l = None).
Proof.
  intros Hwf.
  assert (Hkeys : PyDict.keys (_compute_free_capacity db)
                  = map l_id (Library_objects db)).
  { unfold _compute_free_capacity.
    rewrite fold_set_fresh_keys; [reflexivity|].
    simpl. apply (wf_library_pk Hwf). }
  split; [rewrite Hkeys; apply (wf_library_pk Hwf)|].
  split; [intros l; now rewrite Hkeys|]. split.
  - intros lib Hlib. apply compute_free_capacity_get; [|exact Hlib].
    apply (wf_library_pk Hwf).
  - intros l Hl. apply get_None_iff. now rewrite Hkeys.
Qed.

Section Load.
Variable set_difference_iter : list Z -> list Z -> list Z.
Hypothesis set_difference_NoDup :
  forall xs ys, NoDup (set_difference_iter xs ys).
Hypothesis set_difference_In :
  forall xs ys x, In x (set_difference_iter xs ys) <-> In x xs /\ ~ In x ys.

Lemma moved_units P ms :
  Forall (fun m => quantity m = 1) ms ->
  moved P ms = Z.of_nat (List.length (filter P ms)).
Proof.
  induction 1 as [|m ms Hm _ IH]; [reflexivity|].
  rewrite moved_cons, IH. simpl filter.
  destruct (P m); simpl List.length; lia.
Qed.

(** X15. When a plan is applied, the load of a library grows by the number of
    moves into it less the number of moves out of it. *)
Theorem load_after_apply self db plan self' db' applied :
  well_formed db ->
  rebalance set_difference_iter self db = Ok (plan, self', db') ->
  _apply_plan (moves plan) db = Ok applied ->
  forall l,
    used_capacity applied l
    = used_capacity db l
      + Z.of_nat (List.length
                    (filter (fun m => to_library_id m =? l) (moves plan)))
      - Z.of_nat (List.length
                    (filter (fun m => from_library_id m =? l) (moves plan))).
Proof.
  intros Hwf Hret Happ l.
  pose proof (rebalance_returns_run_plan set_difference_iter
                set_difference_NoDup set_difference_In
                self db plan self' db' Hret) as Hrun.
  pose proof (run_plan_apply_cases db _ (moves plan) Hwf Hrun) as H.
  rewrite Happ in H. destruct H as (_ & _ & _ & Hheld).
  assert (Hunit : Forall (fun m => quantity m = 1) (moves plan)).
  { destruct Hrun as (Hall & _). eapply Forall_impl; [|exact Hall].
    now intros m (Hq & _). }
  rewrite !used_capacity_held, Hheld.
  rewrite <- !(moved_units _ _ Hunit). reflexivity.
Qed.

End Load.

(* ================================================================== *)
(** * The moves of one book in the plan of a run *)

Section EachBook.
Variable set_difference_iter : list Z -> list Z -> list Z.
Hypothesis set_difference_NoDup :
  forall xs ys, NoDup (set_difference_iter xs ys).
Hypothesis set_difference_In :
  forall xs ys x, In x (set_difference_iter xs ys) <-> In x xs /\ ~ In x ys.

Lemma build_book_ids self db b nlibs new self' :
  _build_plan_for_book set_difference_iter self db b nlibs = Ok (new, self') ->
  forall m, In m new -> book_id m = b.
Proof.
  intros Heq m Hm.
  destruct (build_plan_spec set_difference_iter set_difference_NoDup
              set_difference_In self db b nlibs)
    as (new0 & self0 & Heq0 & (Hall & _) & _).
  rewrite Heq in Heq0. injection Heq0 as <- _.
  rewrite Forall_forall in Hall. now apply Hall in Hm.
Qed.

(** The moves of a book in the result of the loop over the books are
    those of the accumulator when the book is not in the loop, and the
    result of one call of [_build_plan_for_book] when it is. *)
Lemma plan_books_each db nlibs books :
  NoDup books ->
  forall self acc considered ms n self',
  (forall m, In m acc -> ~ In (book_id m) books) ->
  plan_books set_difference_iter self db nlibs books acc considered
  = Ok (ms, n, self') ->
  forall b,
    (In b books ->
     exists self1 self2,
       _build_plan_for_book set_difference_iter self1 db b nlibs
       = Ok (filter (fun m => book_id m =? b) ms, self2))
    /\ (~ In b books ->
        filter (fun m => book_id m =? b) ms
        = filter (fun m => book_id m =? b) acc).
Proof.
  induction 1 as [|b0 books Hnin Hnd IH];
    intros self acc considered ms n self' Hfresh Heq b.
  - simpl in Heq. injection Heq as <- _ _. split; [intros []|reflexivity].
  - simpl plan_books in Heq.
    destruct (_build_plan_for_book set_difference_iter self db b0 nlibs)
      as [[new self1]|e] eqn:Hbuild; [|discriminate].
    simpl bind in Heq.
    pose proof (build_book_ids self db b0 nlibs new self1 Hbuild) as Hids.
    assert (Hfresh' : forall m, In m (acc ++ new) -> ~ In (book_id m) books).
    { intros m Hm Hin. apply in_app_iff in Hm as [Hm|Hm].
      - apply (Hfresh m Hm). now right.
      - rewrite (Hids m Hm) in Hin. contradiction. }
    destruct (IH self1 (acc ++ new) (considered + 1) ms n self' Hfresh' Heq b)
      as [Hin Hout].
    assert (Hacc : b = b0 -> filter (fun m => book_id m =? b) acc = []).
    { intros ->. apply filter_none. intros m Hm. apply Z.eqb_neq.
      intros E. apply (Hfresh m Hm). now left. }
    split.
    + intros [<-|Hb]; [|now apply Hin].
      exists self, self1. rewrite (Hout Hnin), filter_app, (Hacc eq_refl).
      simpl. rewrite filter_all; [exact Hbuild|].
      intros m Hm. apply Z.eqb_eq. now apply Hids.
    + intros Hb. rewrite Hout by (intros H; apply Hb; now right).
      rewrite filter_app, (filter_none _ _ new), app_nil_r; [reflexivity|].
      intros m Hm. apply Z.eqb_neq. rewrite (Hids m Hm).
      intros E. apply Hb. now left.
Qed.

Lemma rebalance_each self db plan self' db' b :
  rebalance set_difference_iter self db = Ok (plan, self', db') ->
  filter (fun m => book_id m =? b) (moves plan) = []
  \/ exists self1 self2,
       _build_plan_for_book set_difference_iter self1 db b (nlibs_of db)
       = Ok (filter (fun m => book_id m =? b) (moves plan), self2).
Proof.
  intros Hret. rewrite rebalance_unfold in Hret.
  destruct (book_order self db) as [books|e] eqn:Hbooks; [|discriminate].
  simpl bind in Hret.
  destruct (plan_books set_difference_iter self db (nlibs_of db) books [] 0)
    as [[[ms n] self1]|e] eqn:Hplan; [|discriminate].
  simpl bind in Hret. unfold finish in Hret.
  destruct (if dry_run self1 then Ok db else _apply_plan ms db) as [db1|e];
    [|discriminate].
  simpl in Hret. injection Hret as <- _ _. simpl.
  destruct (plan_books_each db (nlibs_of db) books
              (book_order_NoDup self db books Hbooks)
              self [] 0 ms n self1 (fun m H => match H with end) Hplan b)
    as [Hin Hout].
  destruct (in_dec Z.eq_dec b books) as [Hb|Hb]; [right; auto|left; auto].
Qed.

(** ** Never more moves than the target lacks *)

Lemma capacity_while_reach book donor target rest :
  forall can_move covered fc moves covered' rest' fc' moves',
  capacity_while book donor can_move covered target rest fc moves
  = Ok (covered', rest', fc', moves') ->
  covered' <= Z.max covered target
  /\ Z.of_nat (List.length moves')
     = Z.of_nat (List.length moves) + (covered' - covered).
Proof.
  induction rest as [|to_lib rest IH];
    intros can_move covered fc moves covered' rest' fc' moves' Heq;
    simpl in Heq.
  - injection Heq as <- _ _ <-. lia.
  - destruct ((0 <? can_move) && (covered <? target)) eqn:E.
    + apply andb_true_iff in E as [_ Ht]. apply Z.ltb_lt in Ht.
      destruct (PyDict.get Z.eq_dec fc to_lib) as [free|]; [|discriminate].
      destruct (free <=? 0).
      * now apply IH in Heq.
      * apply IH in Heq as [H1 H2]. rewrite length_app in H2.
        simpl List.length in H2. lia.
    + injection Heq as <- _ _ <-. lia.
Qed.

Lemma capacity_for_reach book target donors :
  forall covered rest fc moves moves' fc',
  capacity_for book target donors covered rest fc moves = Ok (moves', fc') ->
  Z.of_nat (List.length moves')
  <= Z.of_nat (List.length moves) + Z.max 0 (target - covered).
Proof.
  induction donors as [|d donors IH];
    intros covered rest fc moves moves' fc' Heq; simpl in Heq.
  - injection Heq as <- _. lia.
  - destruct (capacity_while book (lb_library_id d) (lb_quantity d - 1)
                covered target rest fc moves)
      as [[[[c1 r1] f1] m1]|e] eqn:Hwhile; [|discriminate].
    simpl bind in Heq.
    apply capacity_while_reach in Hwhile as [H1 H2].
    destruct (Z.leb_spec target c1).
    + injection Heq as <- _. lia.
    + apply IH in Heq. lia.
Qed.

Lemma build_within_target self db b nlibs new self' :
  _build_plan_for_book set_difference_iter self db b nlibs = Ok (new, self') ->
  Z.of_nat (List.length new)
  <= Z.max 0 (Z.min nlibs (total db b) - coverage db b).
Proof.
  assert (Hbase : Z.of_nat (List.length
                    (base_build_plan_for_book set_difference_iter db b nlibs))
                  <= Z.max 0 (Z.min nlibs (total db b) - coverage db b)).
  { unfold base_build_plan_for_book.
    destruct (sum_quantity (holdings_of db b) =? 0); [simpl; lia|].
    fold (total db b). fold (coverage db b).
    destruct (Z.min nlibs (total db b) <=? coverage db b); [simpl; lia|].
    rewrite base_for_count. simpl List.length. lia. }
  assert (Hcap : forall fc new fc',
            capacity_build_plan_for_book set_difference_iter fc db b nlibs
            = Ok (new, fc') ->
            Z.of_nat (List.length new)
            <= Z.max 0 (Z.min nlibs (total db b) - coverage db b)).
  { intros fc new0 fc'. unfold capacity_build_plan_for_book.
    destruct (sum_quantity (holdings_of db b) =? 0);
      [intros H; injection H as <- _; simpl; lia|].
    fold (total db b). fold (coverage db b).
    destruct (Z.min nlibs (total db b) <=? coverage db b);
      [intros H; injection H as <- _; simpl; lia|].
    intros H. apply capacity_for_reach in H. simpl List.length in H. lia. }
  destruct self as [d|d fc|d fc p a]; simpl.
  - intros H. injection H as <- _. exact Hbase.
  - destruct (capacity_build_plan_for_book _ fc db b nlibs)
      as [[new0 fc']|e] eqn:E; [|discriminate].
    simpl. intros H. injection H as <- _. eapply Hcap, E.
  - destruct (capacity_build_plan_for_book _ fc db b nlibs)
      as [[new0 fc']|e] eqn:E; [|discriminate].
    simpl. intros H. injection H as <- _. eapply Hcap, E.
Qed.

(** X16. No manager plans more moves for a book than its coverage lacks to the
    target, the smaller of the number of libraries and the total. *)
Theorem moves_within_target self db plan self' db' :
  rebalance set_difference_iter self db = Ok (plan, self', db') ->
  forall book,
    Z.of_nat (List.length (filter (fun m => book_id m =? book) (moves plan)))
    <= Z.max 0 (Z.min (nlibs_of db) (total db book) - coverage db book).
Proof.
  intros Hret book.
  destruct (rebalance_each self db plan self' db' book Hret)
    as [->|(self1 & self2 & Hbuild)]; [simpl; lia|].
  eapply build_within_target, Hbuild.
Qed.

End EachBook.

(* ================================================================== *)
(** * The donors in the order of their quantities *)

Lemma base_for_drawn book target donors :
  forall covered rest moves,
  exists new,
    base_for book target donors covered rest moves = moves ++ new
    /\ drawn book donors new.
Proof.
  induction donors as [|d donors IH]; intros covered rest moves; simpl.
  - exists []. rewrite app_nil_r. split; [reflexivity|constructor].
  - destruct (base_while_spec book (lb_library_id d) target rest
                (lb_quantity d - 1) covered moves)
      as (taken & rest' & Heq & _).
    rewrite Heq.
    destruct (target <=? covered + Z.of_nat (List.length taken)).
    + exists (units book (lb_library_id d) taken). split; [reflexivity|].
      rewrite <- (app_nil_r (units _ _ _)). repeat constructor.
    + destruct (IH (covered + Z.of_nat (List.length taken)) rest'
                   (moves ++ units book (lb_library_id d) taken))
        as (new' & Heq' & Hdrawn).
      exists (units book (lb_library_id d) taken ++ new'). split.
      * rewrite Heq'. now rewrite app_assoc.
      * now constructor.
Qed.

Lemma capacity_for_drawn book target donors :
  forall covered rest fc moves,
  incl rest (PyDict.keys fc) ->
  exists new fc',
    capacity_for book target donors covered rest fc moves
    = Ok (moves ++ new, fc')
    /\ drawn book donors new.
Proof.
  induction donors as [|d donors IH]; intros covered rest fc moves Hkeys;
    simpl.
  - exists [], fc. rewrite app_nil_r. split; [reflexivity|constructor].
  - destruct (capacity_while_spec book (lb_library_id d) target rest
                (lb_quantity d - 1) covered fc moves Hkeys)
      as (taken & rest' & fc' & Heq & _ & Hr & _ & _ & Hk & _).
    rewrite Heq. simpl.
    destruct (target <=? covered + Z.of_nat (List.length taken)).
    + exists (units book (lb_library_id d) taken), fc'.
      split; [reflexivity|].
      rewrite <- (app_nil_r (units _ _ _)). repeat constructor.
    + destruct (IH (covered + Z.of_nat (List.length taken)) rest' fc'
                   (moves ++ units book (lb_library_id d) taken))
        as (new' & fc'' & Heq' & Hdrawn).
      { rewrite Hk. intros x Hx. auto. }
      exists (units book (lb_library_id d) taken ++ new'), fc''. split.
      * rewrite Heq'. now rewrite app_assoc.
      * now constructor.
Qed.

Lemma drawn_sources book donors new :
  drawn book donors new ->
  forall m, In m new -> In (from_library_id m) (map lb_library_id donors).
Proof.
  induction 1 as [donors|d donors taken new Hdrawn IH]; intros m Hm;
    [contradiction|].
  apply in_app_iff in Hm as [Hm|Hm].
  - apply in_map_iff in Hm as (t & <- & _). now left.
  - right. now apply IH.
Qed.

Lemma StronglySorted_app (A : Type) (R : A -> A -> Prop) (a b : list A) :
  StronglySorted R a -> StronglySorted R b ->
  (forall x y, In x a -> In y b -> R x y) ->
  StronglySorted R (a ++ b).
Proof.
  induction 1 as [|x a Ha IH Hx]; intros Hb Hab; simpl; [exact Hb|].
  constructor.
  - apply IH; [exact Hb|]. intros x0 y Hx0 Hy. apply Hab; [now right|exact Hy].
  - apply Forall_app. split; [exact Hx|].
    apply Forall_forall. intros y Hy. apply Hab; [now left|exact Hy].
Qed.

(** In the moves drawn from donors in descending order of quantity, a
    move never leaves a holding with more copies than the holdings the
    moves before it left. [copies] gives the quantity of the row of a
    library. *)
Lemma drawn_descending book (copies : Z -> Z) donors new :
  (forall d, In d donors -> copies (lb_library_id d) = lb_quantity d) ->
  StronglySorted richer_first donors ->
  drawn book donors new ->
  StronglySorted
    (fun m1 m2 => copies (from_library_id m2) <= copies (from_library_id m1))
    new.
Proof.
  intros Hcopies Hsorted Hdrawn.
  induction Hdrawn as [donors|d donors taken new Hdrawn IH]; [constructor|].
  inversion Hsorted as [|? ? Hsorted' Hd]; subst.
  apply StronglySorted_app.
  - unfold units.
    induction taken as [|t taken IHt]; simpl; constructor; [exact IHt|].
    apply Forall_forall. intros m Hm.
    apply in_map_iff in Hm as (t' & <- & _). simpl. lia.
  - apply IH; [|exact Hsorted'].
    intros d0 Hd0. apply Hcopies. now right.
  - intros x y Hx Hy. apply in_map_iff in Hx as (t & <- & _). simpl.
    apply (drawn_sources book donors new Hdrawn) in Hy.
    apply in_map_iff in Hy as (d' & <- & Hd').
    rewrite Forall_forall in Hd. specialize (Hd d' Hd').
    rewrite (Hcopies d (or_introl eq_refl)).
    rewrite (Hcopies d' (or_intror Hd')). exact Hd.
Qed.

Lemma donors_of_descending holdings :
  StronglySorted richer_first (donors_of holdings).
Proof.
  unfold donors_of.
  set (le := fun x y => - lb_quantity x <=? - lb_quantity y).
  assert (H : StronglySorted (fun a b => le a b = true)
                (sorted le (filter (fun h => 1 <? lb_quantity h) holdings))).
  { apply sorted_sorted; unfold le.
    - intros a b. rewrite !Z.leb_le. lia.
    - intros a b c. rewrite !Z.leb_le. lia. }
  induction H as [|d donors _ IH Hd]; constructor; [exact IH|].
  eapply Forall_impl; [|exact Hd].
  intros y Hy. unfold le in Hy. apply Z.leb_le in Hy.
  unfold richer_first. lia.
Qed.

Lemma donors_of_copies db book d :
  NoDup (keys_of (LibraryBook_objects db)) ->
  In d (donors_of (holdings_of db book)) ->
  holding db (lb_library_id d, book) = lb_quantity d.
Proof.
  intros Hnd Hd. unfold donors_of in Hd. apply sorted_In in Hd.
  apply filter_In in Hd as [Hd _]. apply filter_In in Hd as [Hd Eb].
  apply Z.eqb_eq in Eb. rewrite <- Eb.
  apply (held_present _ d Hnd Hd).
Qed.

Section DonorOrder.
Variable set_difference_iter : list Z -> list Z -> list Z.
Hypothesis set_difference_NoDup :
  forall xs ys, NoDup (set_difference_iter xs ys).
Hypothesis set_difference_In :
  forall xs ys x, In x (set_difference_iter xs ys) <-> In x xs /\ ~ In x ys.

Lemma build_drawn self db b nlibs new self' :
  _build_plan_for_book set_difference_iter self db b nlibs = Ok (new, self') ->
  drawn b (donors_of (holdings_of db b)) new.
Proof.
  assert (Hbase : drawn b (donors_of (holdings_of db b))
                    (base_build_plan_for_book set_difference_iter db b nlibs)).
  { unfold base_build_plan_for_book.
    destruct (sum_quantity (holdings_of db b) =? 0); [constructor|].
    destruct (Z.min nlibs (sum_quantity (holdings_of db b)) <=? _);
      [constructor|].
    match goal with
    | |- context [base_for ?b ?t ?d ?c ?r ?m] =>
        destruct (base_for_drawn b t d c r m) as (new0 & -> & Hd)
    end.
    exact Hd. }
  assert (Hcap : forall fc new fc',
            capacity_build_plan_for_book set_difference_iter fc db b nlibs
            = Ok (new, fc') ->
            drawn b (donors_of (holdings_of db b)) new).
  { intros fc new0 fc'. unfold capacity_build_plan_for_book.
    destruct (sum_quantity (holdings_of db b) =? 0);
      [intros H; injection H as <- _; constructor|].
    destruct (Z.min nlibs (sum_quantity (holdings_of db b)) <=? _);
      [intros H; injection H as <- _; constructor|].
    match goal with
    | |- context [capacity_for ?b ?t ?d ?c ?r ?f ?m] =>
        destruct (capacity_for_drawn b t d c r f m)
          as (new1 & fc1 & -> & Hd)
    end.
    - intros x Hx. apply filter_In in Hx as [Hx _].
      now apply set_difference_In in Hx.
    - intros H. injection H as <- _. exact Hd. }
  destruct self as [d|d fc|d fc p a]; simpl.
  - intros H. injection H as <- _. exact Hbase.
  - destruct (capacity_build_plan_for_book _ fc db b nlibs)
      as [[new0 fc']|e] eqn:E; [|discriminate].
    simpl. intros H. injection H as <- _. eapply Hcap, E.
  - destruct (capacity_build_plan_for_book _ fc db b nlibs)
      as [[new0 fc']|e] eqn:E; [|discriminate].
    simpl. intros H. injection H as <- _. eapply Hcap, E.
Qed.

(** X17. Among the moves of a book, in the order of the plan, a later move
    never leaves a library that held more copies of the book than the
    library an earlier move leaves: the richest holdings give first. *)
Theorem richest_donors_first self db plan self' db' :
  well_formed db ->
  rebalance set_difference_iter self db = Ok (plan, self', db') ->
  forall book,
    StronglySorted
      (fun m1 m2 => holding db (from_library_id m2, book)
                    <= holding db (from_library_id m1, book))
      (filter (fun m => book_id m =? book) (moves plan)).
Proof.
  intros Hwf Hret book.
  destruct (rebalance_each set_difference_iter set_difference_NoDup
              set_difference_In self db plan self' db' book Hret)
    as [->|(self1 & self2 & Hbuild)]; [constructor|].
  apply (drawn_descending book (fun l => holding db (l, book))
           (donors_of (holdings_of db book))).
  - intros d Hd. apply donors_of_copies; [|exact Hd].
    apply (wf_uniq_library_book Hwf).
  - apply donors_of_descending.
  - eapply build_drawn, Hbuild.
Qed.

End DonorOrder.

(* ================================================================== *)
(** * The base manager and the other managers *)

Section Compare.
Variable set_difference_iter : list Z -> list Z -> list Z.
Hypothesis set_difference_NoDup :
  forall xs ys, NoDup (set_difference_iter xs ys).
Hypothesis set_difference_In :
  forall xs ys x, In x (set_difference_iter xs ys) <-> In x xs /\ ~ In x ys.

(** X18. On the same database no manager plans more moves for a book than the
    base manager does. *)
Theorem base_plans_most self db plan self' db' d base_plan base' base_db :
  well_formed db ->
  rebalance set_difference_iter self db = Ok (plan, self', db') ->
  rebalance set_difference_iter (RedistributionManager d) db
  = Ok (base_plan, base', base_db) ->
  forall book,
    Z.of_nat (List.length (filter (fun m => book_id m =? book) (moves plan)))
    <= Z.of_nat (List.length
                   (filter (fun m => book_id m =? book) (moves base_plan))).
Proof.
  intros Hwf Hret Hbase book.
  rewrite (base_moves_of_book set_difference_iter set_difference_NoDup
             set_difference_In d db base_plan base' base_db book Hwf Hbase).
  pose proof (coverage_bound db book Hwf) as Hbound.
  destruct (rebalance_each set_difference_iter set_difference_NoDup
              set_difference_In self db plan self' db' book Hret)
    as [->|(self1 & self2 & Hbuild)]; [simpl; lia|].
  pose proof (build_within_target set_difference_iter _ _ _ _ _ _ Hbuild). lia.
Qed.

End Compare.

(* ================================================================== *)
(** * The capacity-aware loops over recipients with room *)

Lemma base_while_rest book donor target rest :
  forall can_move covered moves covered' rest' moves',
  base_while book donor can_move covered target rest moves
  = (covered', rest', moves') ->
  exists taken, rest = taken ++ rest'.
Proof.
  intros can_move covered moves covered' rest' moves' Heq.
  destruct (base_while_spec book donor target rest can_move covered moves)
    as (taken & rest0 & Heq0 & Hrest & _).
  rewrite Heq in Heq0. injection Heq0 as _ -> _. now exists taken.
Qed.

(** With room in every recipient still to be tried, the guard inside the
    loop does not fire, and the loop of the capacity-aware planner runs as
    the loop of the base planner. *)
Lemma capacity_while_roomy book donor target rest :
  forall can_move covered fc moves covered' rest' moves',
  NoDup rest ->
  (forall x, In x rest ->
     exists v, PyDict.get Z.eq_dec fc x = Some v /\ 0 < v) ->
  base_while book donor can_move covered target rest moves
  = (covered', rest', moves') ->
  exists fc',
    capacity_while book donor can_move covered target rest fc moves
    = Ok (covered', rest', fc', moves')
    /\ forall x, In x rest' ->
         PyDict.get Z.eq_dec fc' x = PyDict.get Z.eq_dec fc x.
Proof.
  induction rest as [|to_lib rest IH];
    intros can_move covered fc moves covered' rest' moves' Hnd Hroom Heq;
    simpl in *.
  - injection Heq as <- <- <-. now exists fc.
  - destruct ((0 <? can_move) && (covered <? target)).
    + destruct (Hroom to_lib (or_introl eq_refl)) as (v & Hv & Hpos).
      rewrite Hv. destruct (Z.leb_spec v 0); [lia|].
      inversion Hnd as [|? ? Hnin Hnd']; subst.
      destruct (IH (can_move - 1) (covered + 1)
                  (PyDict.set Z.eq_dec fc to_lib (v - 1))
                  (moves ++ [mkMove book donor to_lib 1])
                  covered' rest' moves' Hnd')
        as (fc' & Heq' & Hsame).
      * intros x Hx. rewrite get_set_other by (intros ->; contradiction).
        apply Hroom. now right.
      * exact Heq.
      * exists fc'. split; [exact Heq'|].
        intros x Hx. rewrite (Hsame x Hx).
        apply get_set_other. intros ->. apply Hnin.
        destruct (base_while_rest _ _ _ _ _ _ _ _ _ _ Heq) as (taken & ->).
        apply in_or_app. now right.
    + injection Heq as <- <- <-. now exists fc.
Qed.

Lemma capacity_for_roomy book target donors :
  forall covered rest fc moves,
  NoDup rest ->
  (forall x, In x rest ->
     exists v, PyDict.get Z.eq_dec fc x = Some v /\ 0 < v) ->
  exists fc',
    capacity_for book target donors covered rest fc moves
    = Ok (base_for book target donors covered rest moves, fc').
Proof.
  induction donors as [|d donors IH]; intros covered rest fc moves Hnd Hroom;
    simpl.
  - now exists fc.
  - destruct (base_while book (lb_library_id d) (lb_quantity d - 1) covered
                target rest moves) as [[c1 r1] m1] eqn:Hbase.
    destruct (capacity_while_roomy book (lb_library_id d) target rest
                (lb_quantity d - 1) covered fc moves c1 r1 m1 Hnd Hroom Hbase)
      as (fc1 & -> & Hsame).
    simpl bind.
    destruct (target <=? c1); [now exists fc1|].
    destruct (base_while_rest _ _ _ _ _ _ _ _ _ _ Hbase) as (taken & ->).
    apply IH.
    + now apply NoDup_app_remove_l in Hnd.
    + intros x Hx. rewrite (Hsame x Hx). apply Hroom.
      apply in_or_app. now right.
Qed.

Lemma moved_to_at_most_one new l :
  Forall (fun m => quantity m = 1) new -> NoDup (map to_library_id new) ->
  0 <= moved (fun m => to_library_id m =? l) new <= 1.
Proof.
  induction 1 as [|m new Hm _ IH]; simpl; intros Hnd; [lia|].
  inversion Hnd as [|? ? Hnin Hnd']; subst. specialize (IH Hnd').
  destruct (Z.eqb_spec (to_library_id m) l) as [E|E]; [|lia].
  rewrite moved_none; [lia|].
  intros m' Hm'. apply Z.eqb_neq. intros E'. apply Hnin.
  rewrite E, <- E'. now apply in_map.
Qed.

Section Roomy.
Variable set_difference_iter : list Z -> list Z -> list Z.
Hypothesis set_difference_NoDup :
  forall xs ys, NoDup (set_difference_iter xs ys).
Hypothesis set_difference_In :
  forall xs ys x, In x (set_difference_iter xs ys) <-> In x xs /\ ~ In x ys.

Lemma roomy_recipients_room fc db book x :
  In x (roomy_recipients set_difference_iter fc db book) ->
  exists v, PyDict.get Z.eq_dec fc x = Some v /\ 0 < v.
Proof.
  unfold roomy_recipients. intros Hx. apply filter_In in Hx as [_ Hpos].
  apply Z.ltb_lt in Hpos. unfold PyDict.get_default in Hpos.
  destruct (PyDict.get Z.eq_dec fc x) as [v|]; [eauto|lia].
Qed.

Lemma capacity_build_plan_over fc0 db b nlibs :
  exists fc',
    capacity_build_plan_for_book set_difference_iter fc0 db b nlibs
    = Ok (plan_over db b nlibs
            (roomy_recipients set_difference_iter
               (effective_capacity fc0 db) db b), fc').
Proof.
  unfold capacity_build_plan_for_book, plan_over.
  destruct (sum_quantity (holdings_of db b) =? 0); [eauto|].
  destruct (Z.min nlibs (sum_quantity (holdings_of db b)) <=? _); [eauto|].
  apply capacity_for_roomy.
  - apply NoDup_filter, set_difference_NoDup.
  - apply roomy_recipients_room.
Qed.

(** X19. The check of the room inside the loop never turns a recipient down:
    the capacity-aware planner plans for a book what the loops of the base
    planner plan over the libraries of its map that lack the book and had
    room when the book was started; the base planner runs the same loops
    over all libraries that lack the book. *)
Theorem capacity_guard_never_fires self db b nlibs :
  is_capacity_aware self = true ->
  exists self',
    _build_plan_for_book set_difference_iter self db b nlibs
    = Ok (plan_over db b nlibs
            (roomy_recipients set_difference_iter
               (effective_capacity (free_capacity self) db) db b), self')
    /\ base_build_plan_for_book set_difference_iter db b nlibs
       = plan_over db b nlibs
           (set_difference_iter (map l_id (Library_objects db))
              (covering (holdings_of db b))).
Proof.
  intros Hca. destruct self as [d|d fc|d fc p a]; [discriminate| |]; simpl;
    destruct (capacity_build_plan_over fc db b nlibs) as (fc' & ->);
    simpl; eauto.
Qed.

(** ** Room for every candidate in every library *)

Lemma roomy_recipients_all fc db b :
  PyDict.keys fc = map l_id (Library_objects db) ->
  (forall l, In l (PyDict.keys fc) ->
     0 < PyDict.get_default Z.eq_dec fc l 0) ->
  roomy_recipients set_difference_iter fc db b
  = set_difference_iter (map l_id (Library_objects db))
      (covering (holdings_of db b)).
Proof.
  intros Hkeys Hroom. unfold roomy_recipients. rewrite Hkeys.
  apply filter_all. intros x Hx. apply Z.ltb_lt, Hroom.
  rewrite Hkeys. now apply set_difference_In in Hx.
Qed.

Lemma plan_books_roomy d db books :
  forall fc acc considered,
  PyDict.keys (effective_capacity fc db) = map l_id (Library_objects db) ->
  (forall l, In l (map l_id (Library_objects db)) ->
     Z.of_nat (List.length books)
     <= PyDict.get_default Z.eq_dec (effective_capacity fc db) l 0) ->
  exists fc',
    plan_books set_difference_iter (CapacityAwareRedistributionManager d fc)
      db (nlibs_of db) books acc considered
    = Ok (acc ++ flat_map
                   (fun b => base_build_plan_for_book set_difference_iter
                               db b (nlibs_of db)) books,
          considered + Z.of_nat (List.length books),
          CapacityAwareRedistributionManager d fc').
Proof.
  induction books as [|b books IH]; intros fc acc considered Hkeys Hroom.
  - exists fc. simpl. now rewrite app_nil_r, Z.add_0_r.
  - simpl plan_books. simpl _build_plan_for_book.
    destruct (capacity_build_spec set_difference_iter set_difference_NoDup
                set_difference_In fc db b (nlibs_of db))
      as (new & fc1 & Heq & Hres & Hk & Hv & _).
    destruct (capacity_build_plan_over fc db b (nlibs_of db)) as (fc2 & Heq2).
    rewrite Heq in Heq2. injection Heq2 as Hnew _.
    rewrite roomy_recipients_all in Hnew.
    + rewrite Heq. simpl bind.
      assert (Hstable : effective_capacity fc1 db = fc1)
        by now apply (effective_capacity_stable fc).
      destruct (IH fc1 (acc ++ new) (considered + 1)) as (fc' & ->).
      * rewrite Hstable. congruence.
      * intros l Hl. rewrite Hstable, Hv. specialize (Hroom l Hl).
        destruct Hres as (Hall & Hnd & _).
        assert (Hone : 0 <= moved (fun m => to_library_id m =? l) new <= 1).
        { apply moved_to_at_most_one; [|exact Hnd].
          eapply Forall_impl; [|exact Hall]. now intros m (_ & Hq & _). }
        simpl List.length in Hroom. lia.
      * exists fc'. rewrite Hnew. simpl flat_map. rewrite app_assoc.
        do 3 f_equal. simpl List.length. lia.
    + exact Hkeys.
    + intros l Hl. rewrite Hkeys in Hl. specialize (Hroom l Hl).
      simpl List.length in Hroom. lia.
Qed.

(** X20. Where every library has room for one copy of every candidate book, a
    new capacity-aware manager brings every book to its target, as the
    base manager does: its plan holds for every book as many moves as the
    coverage lacks. *)
Theorem ample_room_reaches_target d db plan self' db' :
  well_formed db ->
  (forall lib, In lib (Library_objects db) ->
     Z.of_nat (List.length (_candidate_book_ids (nlibs_of db) db))
     <= l_capacity lib - used_capacity db (l_id lib)) ->
  rebalance set_difference_iter (new_CapacityAwareRedistributionManager d) db
  = Ok (plan, self', db') ->
  forall book,
    coverage db book
    + Z.of_nat (List.length
                  (filter (fun m => book_id m =? book) (moves plan)))
    = Z.min (nlibs_of db) (total db book).
Proof.
  intros Hwf Hroom.
  unfold new_CapacityAwareRedistributionManager.
  simpl. unfold base_rebalance.
  destruct (plan_books_roomy d db (_candidate_book_ids (nlibs_of db) db)
              [] [] 0) as (fc & ->).
  - unfold effective_capacity, _compute_free_capacity. simpl.
    rewrite fold_set_fresh_keys; [reflexivity|].
    simpl. apply (wf_library_pk Hwf).
  - intros l Hl. apply in_map_iff in Hl as (lib & <- & Hlib).
    unfold effective_capacity, PyDict.get_default. simpl.
    rewrite (compute_free_capacity_get db lib (wf_library_pk Hwf) Hlib).
    now apply Hroom.
  - simpl bind. unfold finish. simpl dry_run.
    destruct (if d then Ok db else _) as [db1|e]; simpl; [|discriminate].
    intros H book. injection H as <- _ _. simpl moves.
    rewrite (base_moves_count set_difference_iter set_difference_NoDup
               set_difference_In db book Hwf). lia.
Qed.

End Roomy.

(* ================================================================== *)
(** * A book that the capacity-aware plan leaves short of its target *)

Lemma plan_over_short db b nlibs recipients :
  well_formed db -> NoDup recipients ->
  Z.of_nat (List.length (plan_over db b nlibs recipients))
  < Z.min nlibs (total db b) - coverage db b ->
  incl recipients (map to_library_id (plan_over db b nlibs recipients)).
Proof.
  intros Hwf Hnd. unfold plan_over.
  fold (total db b). fold (coverage db b).
  assert (Hcov : coverage db b <= total db b).
  { pose proof (coverage_bound db b Hwf). lia. }
  assert (Hcov0 : 0 <= coverage db b) by (unfold coverage; lia).
  destruct (Z.eqb_spec (total db b) 0); [simpl; lia|].
  destruct (Z.leb_spec (Z.min nlibs (total db b)) (coverage db b));
    [simpl; lia|].
  rewrite base_for_count. simpl List.length.
  assert (Hsp : spare_total (donors_of (holdings_of db b))
                = total db b - coverage db b).
  { unfold donors_of. rewrite (spare_total_perm _ _ (sorted_perm _ _)).
    rewrite spare_total_rows.
    - rewrite positive_rows_coverage by apply (wf_uniq_library_book Hwf).
      reflexivity.
    - apply Forall_forall. intros h Hh. apply filter_In in Hh as [Hh _].
      now apply (wf_quantity_non_negative Hwf). }
  rewrite Hsp. intros Hshort.
  pose proof (base_for_count b (Z.min nlibs (total db b))
                (donors_of (holdings_of db b)) (coverage db b)
                recipients []) as Hcount.
  rewrite Hsp in Hcount. simpl List.length in Hcount.
  destruct (base_for_spec b (Z.min nlibs (total db b))
              (donors_of (holdings_of db b)) (coverage db b) recipients [])
    as (new & Heq & Hall & Hnd' & _).
  rewrite Heq in *. simpl app in *.
  apply NoDup_length_incl.
  - now apply Hnd'.
  - rewrite length_map. lia.
  - intros l Hl. apply in_map_iff in Hl as (m & <- & Hm).
    rewrite Forall_forall in Hall. now apply Hall in Hm.
Qed.

Section Short.
Variable set_difference_iter : list Z -> list Z -> list Z.
Hypothesis set_difference_NoDup :
  forall xs ys, NoDup (set_difference_iter xs ys).
Hypothesis set_difference_In :
  forall xs ys x, In x (set_difference_iter xs ys) <-> In x xs /\ ~ In x ys.

Lemma build_room_decreases self db b nlibs new self1 :
  is_capacity_aware self = true ->
  _build_plan_for_book set_difference_iter self db b nlibs = Ok (new, self1) ->
  is_capacity_aware self1 = true
  /\ recipient_domain self1 db = recipient_domain self db
  /\ forall l, tracked self1 db l <= tracked self db l.
Proof.
  intros Hca Heq.
  destruct (build_plan_spec set_difference_iter set_difference_NoDup
              set_difference_In self db b nlibs)
    as (new0 & self0 & Heq0 & Hres & Hself & Hdom & Hcap).
  rewrite Heq in Heq0. injection Heq0 as <- <-.
  destruct (Hcap Hca) as (Hv & _).
  split; [rewrite Hself; now destruct self|]. split; [exact Hdom|].
  intros l. rewrite Hv.
  assert (0 <= moved (fun m => to_library_id m =? l) new); [|lia].
  apply moved_non_negative. destruct Hres as (Hall & _).
  eapply Forall_impl; [|exact Hall]. intros m (_ & Hq & _). lia.
Qed.

Lemma plan_books_room_decreases db nlibs books :
  forall self acc considered ms n self',
  is_capacity_aware self = true ->
  plan_books set_difference_iter self db nlibs books acc considered
  = Ok (ms, n, self') ->
  forall l, tracked self' db l <= tracked self db l.
Proof.
  induction books as [|b books IH];
    intros self acc considered ms n self' Hca Heq l.
  - simpl in Heq. injection Heq as _ _ <-. lia.
  - simpl plan_books in Heq.
    destruct (_build_plan_for_book set_difference_iter self db b nlibs)
      as [[new self1]|e] eqn:Hbuild; [|discriminate].
    simpl bind in Heq.
    destruct (build_room_decreases self db b nlibs new self1 Hca Hbuild)
      as (Hca1 & _ & Hle).
    specialize (IH self1 _ _ ms n self' Hca1 Heq l). specialize (Hle l). lia.
Qed.

(** The moves of a book of the loop are the result of one call of
    [_build_plan_for_book], on a manager object that knows the same
    libraries as the first one and whose room is no less than the room at
    the end of the loop. *)
Lemma plan_books_each_room db nlibs books :
  NoDup books ->
  forall self acc considered ms n self',
  is_capacity_aware self = true ->
  (forall m, In m acc -> ~ In (book_id m) books) ->
  plan_books set_difference_iter self db nlibs books acc considered
  = Ok (ms, n, self') ->
  forall b, In b books ->
    exists self1 self2,
      _build_plan_for_book set_difference_iter self1 db b nlibs
      = Ok (filter (fun m => book_id m =? b) ms, self2)
      /\ is_capacity_aware self1 = true
      /\ recipient_domain self1 db = recipient_domain self db
      /\ forall l, tracked self' db l <= tracked self1 db l.
Proof.
  induction 1 as [|b0 books Hnin Hnd IH];
    intros self acc considered ms n self' Hca Hfresh Heq b Hb;
    [contradiction|].
  simpl plan_books in Heq.
  destruct (_build_plan_for_book set_difference_iter self db b0 nlibs)
    as [[new self1]|e] eqn:Hbuild; [|discriminate].
  simpl bind in Heq.
  pose proof (build_book_ids set_difference_iter set_difference_NoDup
                set_difference_In self db b0 nlibs new self1 Hbuild) as Hids.
  destruct (build_room_decreases self db b0 nlibs new self1 Hca Hbuild)
    as (Hca1 & Hdom1 & Hle1).
  assert (Hfresh' : forall m, In m (acc ++ new) -> ~ In (book_id m) books).
  { intros m Hm Hin. apply in_app_iff in Hm as [Hm|Hm].
    - apply (Hfresh m Hm). now right.
    - rewrite (Hids m Hm) in Hin. contradiction. }
  destruct (in_dec Z.eq_dec b books) as [Hin|Hout].
  - destruct (IH self1 (acc ++ new) (considered + 1) ms n self' Hca1 Hfresh'
                Heq b Hin) as (s1 & s2 & Hb1 & Hc1 & Hd1 & Hl1).
    exists s1, s2. split; [exact Hb1|]. split; [exact Hc1|].
    split; [congruence|exact Hl1].
  - destruct Hb as [<-|Hb]; [|contradiction].
    exists self, self1.
    destruct (plan_books_each set_difference_iter set_difference_NoDup
                set_difference_In db nlibs books Hnd self1 (acc ++ new)
                (considered + 1) ms n self' Hfresh' Heq b0) as [_ Hsame].
    rewrite (Hsame Hout), filter_app.
    rewrite (filter_none _ _ acc), (filter_all _ _ new).
    + split; [exact Hbuild|]. split; [exact Hca|]. split; [reflexivity|].
      intros l.
      pose proof (plan_books_room_decreases db nlibs books self1 _ _ ms n
                    self' Hca1 Heq l).
      specialize (Hle1 l). lia.
    + intros m Hm. apply Z.eqb_eq. now apply Hids.
    + intros m Hm. apply Z.eqb_neq. intros E. apply (Hfresh m Hm). now left.
Qed.

(** X21. When the plan of a capacity-aware manager leaves a book short of its
    target, no library that the manager knows and that still lacks the
    book has room left at the end of the run. *)
Theorem short_only_without_room self db plan self' db' :
  well_formed db -> is_capacity_aware self = true ->
  rebalance set_difference_iter self db = Ok (plan, self', db') ->
  forall book l,
    coverage db book
    + Z.of_nat (List.length
                  (filter (fun m => book_id m =? book) (moves plan)))
    < Z.min (nlibs_of db) (total db book) ->
    In l (recipient_domain self db) ->
    ~ In l (covering (holdings_of db book)) ->
    ~ In l (map to_library_id
              (filter (fun m => book_id m =? book) (moves plan))) ->
    tracked self' db l <= 0.
Proof.
  intros Hwf Hca Hret book l Hshort Hknown Hlacks Hnot.
  rewrite rebalance_unfold in Hret.
  destruct (book_order self db) as [books|e] eqn:Hbooks; [|discriminate].
  simpl bind in Hret.
  destruct (plan_books set_difference_iter self db (nlibs_of db) books [] 0)
    as [[[ms n] self1]|e] eqn:Hplan; [|discriminate].
  simpl bind in Hret. unfold finish in Hret.
  destruct (if dry_run self1 then Ok db else _apply_plan ms db) as [db1|e];
    [|discriminate].
  simpl in Hret. injection Hret as <- <- _. simpl moves in *.
  assert (Hcand : In book books).
  { eapply Permutation_in;
      [apply Permutation_sym, (book_order_perm self db books Hbooks)|].
    apply candidate_test; [apply (wf_uniq_library_book Hwf)|].
    assert (0 <= coverage db book) by (unfold coverage; lia).
    apply andb_true_iff. rewrite !Z.ltb_lt. lia. }
  destruct (plan_books_each_room db (nlibs_of db) books
              (book_order_NoDup self db books Hbooks)
              self [] 0 ms n self1 Hca (fun m H => match H with end) Hplan
              book Hcand)
    as (s1 & s2 & Hbuild & Hca1 & Hdom & Hle).
  specialize (Hle l).
  assert (Hs1 : exists fc1,
            free_capacity s1 = fc1
            /\ recipient_domain s1 db
               = PyDict.keys (effective_capacity fc1 db)
            /\ tracked s1 db l
               = PyDict.get_default Z.eq_dec (effective_capacity fc1 db) l 0
            /\ exists fc2,
                 capacity_build_plan_for_book set_difference_iter fc1 db book
                   (nlibs_of db)
                 = Ok (filter (fun m => book_id m =? book) ms, fc2)).
  { destruct s1 as [d|d fc|d fc p a]; [discriminate| |];
      exists fc; simpl in *;
      (split; [reflexivity|]); (split; [reflexivity|]);
      (split; [reflexivity|]);
      destruct (capacity_build_plan_for_book set_difference_iter fc db book
                  (nlibs_of db)) as [[new1 fc2]|e]; try discriminate;
      simpl in Hbuild; injection Hbuild as -> _; eauto. }
  destruct Hs1 as (fc1 & _ & Hdom1 & Htr & fc2 & Hcap).
  destruct (capacity_build_plan_over set_difference_iter set_difference_NoDup
              fc1 db book (nlibs_of db)) as (fc3 & Hover).
  rewrite Hcap in Hover. injection Hover as Hover _.
  set (recipients := roomy_recipients set_difference_iter
                       (effective_capacity fc1 db) db book) in *.
  assert (Hall : incl recipients
                   (map to_library_id
                      (filter (fun m => book_id m =? book) ms))).
  { rewrite Hover. apply plan_over_short; [exact Hwf| |].
    - apply NoDup_filter, set_difference_NoDup.
    - rewrite <- Hover. lia. }
  destruct (Z.ltb_spec 0 (tracked s1 db l)) as [Hpos|]; [|lia].
  exfalso. apply Hnot, Hall. unfold recipients, roomy_recipients.
  apply filter_In. split.
  - apply set_difference_In. split; [|exact Hlacks].
    rewrite <- Hdom1, Hdom. exact Hknown.
  - apply Z.ltb_lt. now rewrite <- Htr.
Qed.

End Short.

(* ================================================================== *)
(** * Any other priority *)

Lemma sort_key_fallback priority author_ids base_ids db bid k :
  String.eqb priority "author_first" = false ->
  String.eqb priority "year_desc" = false ->
  sort_key priority author_ids (book_meta_of base_ids db) bid = Ok k ->
  k = (2, bid).
Proof.
  intros Ha Hy. unfold sort_key.
  destruct (PyDict.get Z.eq_dec (book_meta_of base_ids db) bid) as [b|] eqn:E;
    [|discriminate].
  rewrite Ha, Hy. simpl. intros H. injection H as <-.
  now rewrite (book_meta_get base_ids db bid b E).
Qed.

(** X22. With a priority that is neither [author_first] nor [year_desc], the
    books are processed by ascending id. *)
Theorem other_priority_order dry fc priority author_ids db ordered :
  String.eqb priority "author_first" = false ->
  String.eqb priority "year_desc" = false ->
  book_order (PriorityRedistributionManager dry fc priority author_ids) db
  = Ok ordered ->
  Permutation ordered (_candidate_book_ids (nlibs_of db) db)
  /\ StronglySorted Z.le ordered.
Proof.
  intros Ha Hy Hord. split; [eapply book_order_perm, Hord|].
  simpl in Hord. unfold ordered_book_ids, sorted_by_key in Hord.
  set (base := _candidate_book_ids (nlibs_of db) db) in *.
  set (key_of := sort_key priority author_ids (book_meta_of base db)) in *.
  destruct (decorate key_of base) as [decorated|e] eqn:Hdec;
    simpl in Hord; [|discriminate].
  injection Hord as <-.
  set (le := fun a b : (Z * Z) * Z => tuple_leb (fst a) (fst b)).
  assert (Hsorted : StronglySorted (fun a b => le a b = true)
                      (sorted le decorated)).
  { apply sorted_sorted.
    - intros a b. apply tuple_leb_total.
    - intros a b c. apply tuple_leb_trans. }
  assert (Hkeys : Forall (fun kx => fst kx = (2, snd kx))
                    (sorted le decorated)).
  { apply Forall_forall. intros kx Hkx. apply sorted_In in Hkx.
    pose proof (decorate_fst _ _ _ Hdec) as Hall.
    rewrite Forall_forall in Hall.
    eapply sort_key_fallback; [exact Ha|exact Hy|]. now apply Hall. }
  induction Hsorted as [|kx rest Hrest IH Hle]; simpl; [constructor|].
  inversion Hkeys as [|? ? Hkx Hkeys']; subst.
  constructor; [now apply IH|].
  apply Forall_forall. intros y Hy'.
  apply in_map_iff in Hy' as (ky & <- & Hky).
  rewrite Forall_forall in Hle, Hkeys'.
  specialize (Hle ky Hky). specialize (Hkeys' ky Hky).
  unfold le, tuple_leb in Hle. rewrite Hkx, Hkeys' in Hle. simpl in Hle.
  now apply Z.leb_le.
Qed.

(* ================================================================== *)
(** * [_apply_plan] on moves that no planner made *)

(** X23. Moves of any quantities that leave existing holdings, take from none
    more than it holds, and go to existing libraries are applied, and the
    total of every book is kept; the moves may share sources and
    targets. *)
Theorem transfers_conserve db ms :
  well_formed db ->
  Forall (fun m => 0 <= quantity m) ms ->
  (forall m, In m ms ->
     In (move_source m) (keys_of (LibraryBook_objects db))) ->
  (forall k, moved (fun m => key_eqb k (move_source m)) ms <= holding db k) ->
  (forall m, In m ms ->
     In (to_library_id m) (map l_id (Library_objects db))) ->
  exists applied,
    _apply_plan ms db = Ok applied
    /\ well_formed applied
    /\ (forall book, total applied book = total db book)
    /\ (forall k, holding applied k
                  = holding db k
                    + moved (fun m => key_eqb k (move_target m)) ms
                    - moved (fun m => key_eqb k (move_source m)) ms).
Proof.
  intros Hwf Hq Hfrom Hbound Hto.
  pose proof (apply_plan_cases db ms Hwf Hq Hfrom Hbound) as H.
  destruct (_apply_plan ms db) as [applied|e].
  - destruct H as (_ & _ & Hwf' & Hheld). exists applied.
    split; [reflexivity|]. split; [exact Hwf'|]. split.
    + intros book. rewrite !total_held, Hheld.
      unfold move_target, move_source. simpl. lia.
    + intros k. apply Hheld.
  - destruct H as (m & Hm & Hnot). exfalso. apply Hnot, Hto, Hm.
Qed.

(** X24. A move out of a library that has no row for the book takes nothing
    away: the update of the source matches no row, and the copies of the
    move are added at the target. *)
Theorem move_from_missing_holding db m :
  well_formed db ->
  0 <= quantity m ->
  ~ In (move_source m) (keys_of (LibraryBook_objects db)) ->
  In (to_library_id m) (map l_id (Library_objects db)) ->
  In (book_id m) (map b_id (Book_objects db)) ->
  from_library_id m <> to_library_id m ->
  exists applied,
    _apply_plan [m] db = Ok applied
    /\ total applied (book_id m) = total db (book_id m) + quantity m.
Proof.
  intros Hwf Hq Hmissing Hlib Hbook Hne.
  unfold _apply_plan.
  destruct (aggregate_spec [m] ([], [])) as (Hi & Hd & Hni & Hnd & Hki & Hkd).
  fold (aggregate [m]) in Hi, Hd, Hni, Hnd, Hki, Hkd.
  destruct (aggregate [m]) as [inc dec] eqn:Hagg.
  simpl in Hi, Hd, Hni, Hnd, Hki, Hkd.
  specialize (Hni (NoDup_nil _)). specialize (Hnd (NoDup_nil _)).
  set (table := LibraryBook_objects db) in *.
  set (by_key := by_key_of (locked_rows (touched inc dec) table)).
  assert (Hnn : non_negative table).
  { apply Forall_forall. apply (wf_quantity_non_negative Hwf). }
  assert (Hinc : forall k v, In (k, v) inc -> 0 <= v).
  { intros k v Hkv. rewrite <- (dict_value inc k v Hni Hkv), Hi. simpl.
    destruct (key_eqb k (move_target m)); lia. }
  destruct (apply_increments_spec by_key (PyDict.items inc) table [])
    as (t1 & Heq1 & Hk1 & Hnn1 & Hh1); auto.
  { apply (wf_uniq_library_book Hwf). }
  { intros k row Hrow. apply by_key_hit in Hrow. destruct Hrow as [E Hrow].
    split; [assumption|]. rewrite <- E. apply in_map.
    eapply locked_rows_In, Hrow. }
  rewrite Heq1. simpl app. simpl bind.
  set (created := created_rows by_key (PyDict.items inc)) in *.
  assert (Hcreated : forall k, In k (keys_of created) -> k = move_target m).
  { intros k Hk. apply created_rows_In in Hk as [Hk _].
    apply Hki in Hk as [[]|(m' & [<-|[]] & E)]. now symmetry. }
  assert (Hnew : forall k, In k (keys_of created) -> ~ In k (keys_of table)).
  { intros k Hk Hin. apply created_rows_In in Hk. destruct Hk as [Hk Hmiss].
    apply by_key_miss in Hmiss. apply Hmiss.
    apply locked_rows_touched; [|assumption].
    unfold touched. apply nodup_In, in_or_app. now left. }
  pose proof (bulk_create_cases (map l_id (Library_objects db))
                (map b_id (Book_objects db)) created t1
                (created_rows_NoDup by_key _ Hni)
                (created_rows_non_negative by_key _ Hinc)) as Hbulk.
  rewrite Hk1 in Hbulk. specialize (Hbulk Hnew).
  destruct (bulk_create _ _ created t1) as [t|e].
  2:{ exfalso. destruct Hbulk as (k & Hk & Hfk). apply Hfk.
      rewrite (Hcreated k Hk). unfold move_target. simpl. now split. }
  destruct Hbulk as [-> _]. simpl bind.
  assert (Hdec : PyDict.items dec = [(move_source m, 0 + quantity m)]).
  { unfold aggregate in Hagg. simpl in Hagg. now injection Hagg as _ <-. }
  rewrite Hdec. simpl apply_decrements.
  rewrite update_absent.
  - simpl. eexists. split; [reflexivity|].
    rewrite !total_held. simpl LibraryBook_objects. fold table.
    rewrite held_app. specialize (Hh1 (fun k => snd k =? book_id m)).
    fold created in Hh1. rewrite Hi in Hh1. simpl in Hh1.
    rewrite Z.eqb_refl in Hh1. lia.
  - unfold keys_of. rewrite map_app, in_app_iff. intros [Hin|Hin].
    + fold (keys_of t1) in Hin. rewrite Hk1 in Hin. contradiction.
    + apply Hcreated in Hin. unfold move_source, move_target in Hin.
      injection Hin as E. contradiction.
Qed.

(* ================================================================== *)
(** * Runs that return *)

Section Returns.
Variable set_difference_iter : list Z -> list Z -> list Z.
Hypothesis set_difference_NoDup :
  forall xs ys, NoDup (set_difference_iter xs ys).
Hypothesis set_difference_In :
  forall xs ys x, In x (set_difference_iter xs ys) <-> In x xs /\ ~ In x ys.

(** X25. On a database that meets the constraints of the schema, a run of a
    manager whose map names only libraries of the database returns, with
    or without [dry_run]; the database it leaves meets the constraints,
    has the same libraries, and the map of the manager still names only
    libraries of it, so that the next run returns as well. *)
Theorem run_returns self db :
  well_formed db -> known_libraries db self ->
  exists plan self' db',
    rebalance set_difference_iter self db = Ok (plan, self', db')
    /\ well_formed db'
    /\ Library_objects db' = Library_objects db
    /\ known_libraries db' self'.
Proof.
  intros Hwf Hknown.
  destruct (book_order_ok self db (wf_book_fk Hwf)) as [books Hbooks].
  destruct (rebalance_plan set_difference_iter set_difference_NoDup
              set_difference_In self db books Hbooks)
    as (ms & self1 & Heq & Hrun & Hself & _ & Hcap).
  destruct (run_plan_apply db _ ms Hwf (recipient_domain_known db self Hknown)
              Hrun)
    as (applied & Happ & Hlibs & _ & Hwf' & _).
  assert (Hdry : dry_run self1 = dry_run self)
    by (rewrite Hself; apply dry_run_set_free_capacity).
  assert (Hkeys : incl (PyDict.keys (free_capacity self1))
                    (map l_id (Library_objects db))).
  { destruct books as [|b books].
    - rewrite rebalance_unfold, Hbooks in Heq. simpl bind in Heq.
      assert (Hnil : finish self db [] 0 = Ok (mkPlan [] 0 0, self, db)).
      { unfold finish. destruct (dry_run self); [reflexivity|].
        now rewrite apply_plan_nil. }
      rewrite Hnil in Heq. unfold finish in Heq.
      destruct (if dry_run self1 then Ok db else _apply_plan ms db);
        [|discriminate].
      simpl in Heq. injection Heq as _ _ <- _. exact Hknown.
    - destruct self as [d|d fc|d fc p a].
      + rewrite Hself. simpl. intros x [].
      + destruct (Hcap eq_refl) as (_ & _ & Hk).
        rewrite Hk by discriminate.
        apply (recipient_domain_known db _ Hknown).
      + destruct (Hcap eq_refl) as (_ & _ & Hk).
        rewrite Hk by discriminate.
        apply (recipient_domain_known db _ Hknown). }
  exists (mkPlan ms (Z.of_nat (List.length ms)) (Z.of_nat (List.length books))),
    self1, (if dry_run self then db else applied).
  rewrite Heq. unfold finish. rewrite Hdry, Happ.
  split; [now destruct (dry_run self)|].
  unfold known_libraries.
  destruct (dry_run self).
  - split; [exact Hwf|]. split; [reflexivity|exact Hkeys].
  - split; [exact Hwf'|]. split; [exact Hlibs|]. now rewrite Hlibs.
Qed.

End Returns.

(* ================================================================== *)
(** * The further properties on the example databases *)

Lemma two_donors_wf : well_formed two_donors.
Proof. example_wf. Qed.

Lemma two_donors_run :
  rebalance ascending_difference (new_RedistributionManager false) two_donors
  = Ok (two_donors_plan, RedistributionManager false, two_donors_after).
Proof. vm_compute. reflexivity. Qed.

Lemma two_donors_applied :
  _apply_plan (moves two_donors_plan) two_donors = Ok two_donors_after.
Proof. vm_compute. reflexivity. Qed.

Lemma full_recipient_wf : well_formed full_recipient.
Proof. example_wf. Qed.

Lemma apply_keeps_schema_witness :
  well_formed three_libraries
  /\ _apply_plan [mkMove 7 1 2 3] three_libraries
     = Ok (mkDatabase
             [mkLibrary 1 10; mkLibrary 2 10; mkLibrary 3 10]
             [mkBook 7 2000 1]
             [mkLibraryBook 1 7 2; mkLibraryBook 2 7 3])
  /\ well_formed
       (mkDatabase
          [mkLibrary 1 10; mkLibrary 2 10; mkLibrary 3 10]
          [mkBook 7 2000 1]
          [mkLibraryBook 1 7 2; mkLibraryBook 2 7 3])
  /\ [mkLibrary 1 10; mkLibrary 2 10; mkLibrary 3 10]
     = Library_objects three_libraries
  /\ [mkBook 7 2000 1] = Book_objects three_libraries
  /\ exists created,
       keys_of [mkLibraryBook 1 7 2; mkLibraryBook 2 7 3]
       = keys_of (LibraryBook_objects three_libraries) ++ keys_of created.
Proof.
  split; [exact three_libraries_wf|]. split; [vm_compute; reflexivity|].
  exact (apply_keeps_schema [mkMove 7 1 2 3] three_libraries
           (mkDatabase
              [mkLibrary 1 10; mkLibrary 2 10; mkLibrary 3 10]
              [mkBook 7 2000 1]
              [mkLibraryBook 1 7 2; mkLibraryBook 2 7 3])
           three_libraries_wf eq_refl).
Defined.

Lemma candidates_are_under_covered_witness :
  well_formed three_libraries
  /\ (In 7 (_candidate_book_ids 3 three_libraries) <->
      coverage three_libraries 7 < 3 /\ 0 < total three_libraries 7).
Proof.
  split; [exact three_libraries_wf|].
  exact (candidates_are_under_covered 3 three_libraries 7 three_libraries_wf).
Defined.

Lemma coverage_grows_by_moves_witness :
  well_formed two_donors
  /\ rebalance ascending_difference (new_RedistributionManager false)
       two_donors
     = Ok (two_donors_plan, RedistributionManager false, two_donors_after)
  /\ _apply_plan (moves two_donors_plan) two_donors = Ok two_donors_after
  /\ forall book,
       coverage two_donors_after book
       = coverage two_donors book
         + Z.of_nat (List.length
                       (filter (fun m => book_id m =? book)
                          (moves two_donors_plan))).
Proof.
  split; [exact two_donors_wf|]. split; [exact two_donors_run|].
  split; [exact two_donors_applied|].
  exact (coverage_grows_by_moves ascending_difference
           ascending_difference_NoDup ascending_difference_In
           (new_RedistributionManager false) two_donors two_donors_plan
           (RedistributionManager false) two_donors_after two_donors_after
           two_donors_wf two_donors_run two_donors_applied).
Defined.

Lemma base_plan_size_witness :
  well_formed two_donors
  /\ rebalance ascending_difference (new_RedistributionManager false)
       two_donors
     = Ok (two_donors_plan, RedistributionManager false, two_donors_after)
  /\ forall book,
       coverage two_donors book
       + Z.of_nat (List.length
                     (filter (fun m => book_id m =? book)
                        (moves two_donors_plan)))
       = Z.min (nlibs_of two_donors) (total two_donors book).
Proof.
  split; [exact two_donors_wf|]. split; [exact two_donors_run|].
  exact (base_plan_size ascending_difference
           ascending_difference_NoDup ascending_difference_In
           false two_donors two_donors_plan
           (RedistributionManager false) two_donors_after
           two_donors_wf two_donors_run).
Defined.

Lemma base_reaches_target_witness :
  well_formed two_donors
  /\ rebalance ascending_difference (new_RedistributionManager false)
       two_donors
     = Ok (two_donors_plan, RedistributionManager false, two_donors_after)
  /\ _apply_plan (moves two_donors_plan) two_donors = Ok two_donors_after
  /\ forall book,
       coverage two_donors_after book
       = Z.min (nlibs_of two_donors) (total two_donors book).
Proof.
  split; [exact two_donors_wf|]. split; [exact two_donors_run|].
  split; [exact two_donors_applied|].
  exact (base_reaches_target ascending_difference
           ascending_difference_NoDup ascending_difference_In
           false two_donors two_donors_plan
           (RedistributionManager false) two_donors_after two_donors_after
           two_donors_wf two_donors_run two_donors_applied).
Defined.

Lemma two_donors_after_saturated :
  well_formed two_donors_after
  /\ forall book,
       coverage two_donors_after book
       = Z.min (nlibs_of two_donors_after) (total two_donors_after book).
Proof.
  exact (base_apply_saturates ascending_difference
           ascending_difference_NoDup ascending_difference_In
           false two_donors two_donors_plan
           (RedistributionManager false) two_donors_after two_donors_after
           two_donors_wf two_donors_run two_donors_applied).
Qed.

Lemma nothing_to_move_witness :
  well_formed two_donors_after
  /\ (forall book,
        coverage two_donors_after book
        = Z.min (nlibs_of two_donors_after) (total two_donors_after book))
  /\ exists considered self',
       rebalance ascending_difference
         (new_CapacityAwareRedistributionManager false) two_donors_after
       = Ok (mkPlan [] 0 considered, self', two_donors_after).
Proof.
  split; [exact (proj1 two_donors_after_saturated)|].
  split; [exact (proj2 two_donors_after_saturated)|].
  exact (nothing_to_move ascending_difference
           (new_CapacityAwareRedistributionManager false) two_donors_after
           (proj1 two_donors_after_saturated)
           (proj2 two_donors_after_saturated)).
Defined.

Lemma base_apply_then_nothing_witness :
  well_formed two_donors
  /\ rebalance ascending_difference (RedistributionManager false) two_donors
     = Ok (two_donors_plan, RedistributionManager false, two_donors_after)
  /\ exists considered next',
       rebalance ascending_difference
         (new_CapacityAwareRedistributionManager false) two_donors_after
       = Ok (mkPlan [] 0 considered, next', two_donors_after).
Proof.
  split; [exact two_donors_wf|]. split; [exact two_donors_run|].
  exact (base_apply_then_nothing ascending_difference
           ascending_difference_NoDup ascending_difference_In
           two_donors two_donors_plan (RedistributionManager false)
           two_donors_after (new_CapacityAwareRedistributionManager false)
           two_donors_wf two_donors_run).
Defined.

Lemma report_counts_witness :
  rebalance ascending_difference (new_RedistributionManager false) two_donors
  = Ok (two_donors_plan, RedistributionManager false, two_donors_after)
  /\ total_moves two_donors_plan
     = Z.of_nat (List.length (moves two_donors_plan))
  /\ books_considered two_donors_plan
     = Z.of_nat (List.length
                   (_candidate_book_ids (nlibs_of two_donors) two_donors))
  /\ forall m, In m (moves two_donors_plan) ->
       In (book_id m) (_candidate_book_ids (nlibs_of two_donors) two_donors).
Proof.
  split; [exact two_donors_run|].
  exact (report_counts ascending_difference
           ascending_difference_NoDup ascending_difference_In
           (new_RedistributionManager false) two_donors two_donors_plan
           (RedistributionManager false) two_donors_after two_donors_run).
Defined.

Lemma dry_run_returns_witness :
  dry_run (CapacityAwareRedistributionManager true [(9, 1)]) = true
  /\ (forall h, In h (LibraryBook_objects two_donors) ->
        In (lb_book_id h) (map b_id (Book_objects two_donors)))
  /\ exists plan self',
       rebalance ascending_difference
         (CapacityAwareRedistributionManager true [(9, 1)]) two_donors
       = Ok (plan, self', two_donors).
Proof.
  split; [reflexivity|]. split; [exact (wf_book_fk two_donors_wf)|].
  exact (dry_run_returns ascending_difference
           ascending_difference_NoDup ascending_difference_In
           (CapacityAwareRedistributionManager true [(9, 1)]) two_donors
           eq_refl (wf_book_fk two_donors_wf)).
Defined.

Lemma preview_matches_apply_witness :
  rebalance ascending_difference
    (new_CapacityAwareRedistributionManager false) three_libraries
  = Ok (three_libraries_plan,
        CapacityAwareRedistributionManager false [(1, 5); (2, 9); (3, 9)],
        three_libraries_after)
  /\ rebalance ascending_difference
       (with_dry_run true (new_CapacityAwareRedistributionManager false))
       three_libraries
     = Ok (three_libraries_plan,
           with_dry_run true
             (CapacityAwareRedistributionManager false
                [(1, 5); (2, 9); (3, 9)]),
           three_libraries)
  /\ forall applied,
       _apply_plan (moves three_libraries_plan) three_libraries = Ok applied ->
       rebalance ascending_difference
         (with_dry_run false (new_CapacityAwareRedistributionManager false))
         three_libraries
       = Ok (three_libraries_plan,
             with_dry_run false
               (CapacityAwareRedistributionManager false
                  [(1, 5); (2, 9); (3, 9)]),
             applied).
Proof.
  split; [vm_compute; reflexivity|].
  exact (preview_matches_apply ascending_difference
           (new_CapacityAwareRedistributionManager false) three_libraries
           three_libraries_plan
           (CapacityAwareRedistributionManager false [(1, 5); (2, 9); (3, 9)])
           three_libraries_after eq_refl).
Defined.

Lemma year_desc_order_witness :
  book_order (PriorityRedistributionManager true [] "year_desc" [])
    two_books_one_slot = Ok [8; 7]
  /\ Permutation [8; 7]
       (_candidate_book_ids (nlibs_of two_books_one_slot) two_books_one_slot)
  /\ exists books,
       Forall2 (fun bid b => meta_of two_books_one_slot bid = Some b
                             /\ b_id b = bid)
         [8; 7] books
       /\ in_order newest_first books = true.
Proof.
  split; [vm_compute; reflexivity|].
  exact (year_desc_order true [] [] two_books_one_slot [8; 7] eq_refl).
Defined.

Lemma cpython_ascii_digits c :
  (48 <= c <= 57)%N -> Py_UNICODE_ISDIGIT cpython_3_11 c = true.
Proof.
  intros H.
  assert (Hc : (c = 48 \/ c = 49 \/ c = 50 \/ c = 51 \/ c = 52 \/ c = 53
                \/ c = 54 \/ c = 55 \/ c = 56 \/ c = 57)%N) by lia.
  repeat (destruct Hc as [->|Hc]; [reflexivity|]). now subst.
Qed.

Lemma cpython_ascii_digits_not_spaces c :
  (48 <= c <= 57)%N -> Py_UNICODE_ISSPACE cpython_3_11 c = false.
Proof.
  intros H.
  assert (Hc : (c = 48 \/ c = 49 \/ c = 50 \/ c = 51 \/ c = 52 \/ c = 53
                \/ c = 54 \/ c = 55 \/ c = 56 \/ c = 57)%N) by lia.
  repeat (destruct Hc as [->|Hc]; [reflexivity|]). now subst.
Qed.

Lemma authors_of_decimal_items_witness :
  [3; 12]%N <> []
  /\ (forall n, In n [3; 12]%N -> (List.length (decimal n) <= 640)%nat)
  /\ join_comma (map decimal [3; 12]%N) = str_of "3,12"
  /\ authors_of cpython_3_11 (mkOptions false true None (str_of "3,12"))
     = Ok [3; 12].
Proof.
  assert (Hne : [3; 12]%N <> []) by discriminate.
  assert (Hlen : forall n, In n [3; 12]%N ->
                   (List.length (decimal n) <= 640)%nat).
  { intros n [<-|[<-|[]]]; simpl; lia. }
  split; [exact Hne|]. split; [exact Hlen|]. split; [reflexivity|].
  exact (authors_of_decimal_items cpython_3_11 cpython_ascii_digits
           cpython_ascii_digits_not_spaces false true None [3; 12]%N
           Hne Hlen).
Defined.

Lemma separator_before_digits_raises_witness :
  (28 <= 28 <= 31)%N
  /\ Py_UNICODE_ISSPACE cpython_3_11 28 = true
  /\ isdigit cpython_3_11 (strip cpython_3_11 [28; 54]%N) = true
  /\ authors_of cpython_3_11 (mkOptions false true None [28; 54]%N)
     = Raise ValueError
  /\ forall set_difference_iter db,
       handle set_difference_iter cpython_3_11
         (mkOptions false true None [28; 54]%N) db
       = Raise ValueError.
Proof.
  assert (Hsep : (28 <= 28 <= 31)%N) by lia.
  split; [exact Hsep|]. split; [reflexivity|].
  exact (separator_before_digits_raises cpython_3_11 cpython_ascii_digits
           cpython_ascii_digits_not_spaces false true None 28%N 6%N
           Hsep eq_refl).
Defined.

Lemma digit_without_value_raises_witness :
  (128 <= 178)%N
  /\ Py_UNICODE_ISDIGIT cpython_3_11 178 = true
  /\ Py_UNICODE_ISSPACE cpython_3_11 178 = false
  /\ Py_UNICODE_TODECIMAL cpython_3_11 178 = None
  /\ isdigit cpython_3_11 (strip cpython_3_11 [178%N]) = true
  /\ authors_of cpython_3_11 (mkOptions false true None [178%N])
     = Raise ValueError
  /\ forall set_difference_iter db,
       handle set_difference_iter cpython_3_11
         (mkOptions false true None [178%N]) db
       = Raise ValueError.
Proof.
  assert (Hd : (128 <= 178)%N) by lia.
  split; [exact Hd|]. do 3 (split; [reflexivity|]).
  exact (digit_without_value_raises cpython_3_11 false true None 178%N
           Hd eq_refl eq_refl eq_refl).
Defined.

Lemma foreign_decimal_digit_accepted_witness :
  (128 <= 1635)%N
  /\ Py_UNICODE_ISDIGIT cpython_3_11 1635 = true
  /\ Py_UNICODE_ISSPACE cpython_3_11 1635 = false
  /\ Py_UNICODE_TODECIMAL cpython_3_11 1635 = Some 3%N
  /\ (3 <= 9)%N
  /\ authors_of cpython_3_11 (mkOptions false true None [1635%N])
     = Ok [3].
Proof.
  assert (Hd : (128 <= 1635)%N) by lia.
  assert (Hv : (3 <= 9)%N) by lia.
  split; [exact Hd|]. do 3 (split; [reflexivity|]). split; [exact Hv|].
  exact (foreign_decimal_digit_accepted cpython_3_11 false true None
           1635%N 3%N Hd eq_refl eq_refl eq_refl Hv).
Defined.

Lemma free_capacity_of_libraries_witness :
  well_formed three_libraries
  /\ NoDup (PyDict.keys (_compute_free_capacity three_libraries))
  /\ (forall l, In l (PyDict.keys (_compute_free_capacity three_libraries))
                <-> In l (map l_id (Library_objects three_libraries)))
  /\ (forall lib, In lib (Library_objects three_libraries) ->
        PyDict.get Z.eq_dec (_compute_free_capacity three_libraries)
          (l_id lib)
        = Some (l_capacity lib - used_capacity three_libraries (l_id lib)))
  /\ (forall l, ~ In l (map l_id (Library_objects three_libraries)) ->
        PyDict.get Z.eq_dec (_compute_free_capacity three_libraries) l
        = None).
Proof.
  split; [exact three_libraries_wf|].
  exact (free_capacity_of_libraries three_libraries three_libraries_wf).
Defined.

Lemma load_after_apply_witness :
  well_formed two_donors
  /\ rebalance ascending_difference (new_RedistributionManager false)
       two_donors
     = Ok (two_donors_plan, RedistributionManager false, two_donors_after)
  /\ _apply_plan (moves two_donors_plan) two_donors = Ok two_donors_after
  /\ forall l,
       used_capacity two_donors_after l
       = used_capacity two_donors l
         + Z.of_nat (List.length
                       (filter (fun m => to_library_id m =? l)
                          (moves two_donors_plan)))
         - Z.of_nat (List.length
                       (filter (fun m => from_library_id m =? l)
                          (moves two_donors_plan))).
Proof.
  split; [exact two_donors_wf|]. split; [exact two_donors_run|].
  split; [exact two_donors_applied|].
  exact (load_after_apply ascending_difference
           ascending_difference_NoDup ascending_difference_In
           (new_RedistributionManager false) two_donors two_donors_plan
           (RedistributionManager false) two_donors_after two_donors_after
           two_donors_wf two_donors_run two_donors_applied).
Defined.

Lemma moves_within_target_witness :
  rebalance ascending_difference (new_RedistributionManager false) two_donors
  = Ok (two_donors_plan, RedistributionManager false, two_donors_after)
  /\ forall book,
       Z.of_nat (List.length
                   (filter (fun m => book_id m =? book)
                      (moves two_donors_plan)))
       <= Z.max 0 (Z.min (nlibs_of two_donors) (total two_donors book)
                   - coverage two_donors book).
Proof.
  split; [exact two_donors_run|].
  exact (moves_within_target ascending_difference
           ascending_difference_NoDup ascending_difference_In
           (new_RedistributionManager false) two_donors two_donors_plan
           (RedistributionManager false) two_donors_after two_donors_run).
Defined.

Lemma richest_donors_first_witness :
  well_formed two_donors
  /\ rebalance ascending_difference (new_RedistributionManager false)
       two_donors
     = Ok (two_donors_plan, RedistributionManager false, two_donors_after)
  /\ forall book,
       StronglySorted
         (fun m1 m2 => holding two_donors (from_library_id m2, book)
                       <= holding two_donors (from_library_id m1, book))
         (filter (fun m => book_id m =? book) (moves two_donors_plan)).
Proof.
  split; [exact two_donors_wf|]. split; [exact two_donors_run|].
  exact (richest_donors_first ascending_difference
           ascending_difference_NoDup ascending_difference_In
           (new_RedistributionManager false) two_donors two_donors_plan
           (RedistributionManager false) two_donors_after
           two_donors_wf two_donors_run).
Defined.

Lemma base_plans_most_witness :
  well_formed full_recipient
  /\ rebalance ascending_difference
       (new_CapacityAwareRedistributionManager true) full_recipient
     = Ok (mkPlan [] 0 2,
           CapacityAwareRedistributionManager true [(1, 8); (2, 0)],
           full_recipient)
  /\ rebalance ascending_difference (RedistributionManager true)
       full_recipient
     = Ok (mkPlan [mkMove 7 1 2 1] 1 2, RedistributionManager true,
           full_recipient)
  /\ forall book,
       Z.of_nat (List.length
                   (filter (fun m => book_id m =? book)
                      (moves (mkPlan [] 0 2))))
       <= Z.of_nat (List.length
                      (filter (fun m => book_id m =? book)
                         (moves (mkPlan [mkMove 7 1 2 1] 1 2)))).
Proof.
  split; [exact full_recipient_wf|].
  split; [vm_compute; reflexivity|]. split; [vm_compute; reflexivity|].
  exact (base_plans_most ascending_difference
           ascending_difference_NoDup ascending_difference_In
           (new_CapacityAwareRedistributionManager true) full_recipient
           (mkPlan [] 0 2)
           (CapacityAwareRedistributionManager true [(1, 8); (2, 0)])
           full_recipient true (mkPlan [mkMove 7 1 2 1] 1 2)
           (RedistributionManager true) full_recipient
           full_recipient_wf eq_refl eq_refl).
Defined.

Lemma capacity_guard_never_fires_witness :
  is_capacity_aware (new_CapacityAwareRedistributionManager true) = true
  /\ exists self',
       _build_plan_for_book ascending_difference
         (new_CapacityAwareRedistributionManager true) one_free_slot 7 2
       = Ok (plan_over one_free_slot 7 2
               (roomy_recipients ascending_difference
                  (effective_capacity
                     (free_capacity
                        (new_CapacityAwareRedistributionManager true))
                     one_free_slot) one_free_slot 7), self')
       /\ base_build_plan_for_book ascending_difference one_free_slot 7 2
          = plan_over one_free_slot 7 2
              (ascending_difference (map l_id (Library_objects one_free_slot))
                 (covering (holdings_of one_free_slot 7))).
Proof.
  split; [reflexivity|].
  exact (capacity_guard_never_fires ascending_difference
           ascending_difference_NoDup
           (new_CapacityAwareRedistributionManager true) one_free_slot 7 2
           eq_refl).
Defined.

Lemma three_libraries_room :
  forall lib, In lib (Library_objects three_libraries) ->
    Z.of_nat (List.length
                (_candidate_book_ids (nlibs_of three_libraries)
                   three_libraries))
    <= l_capacity lib - used_capacity three_libraries (l_id lib).
Proof.
  intros lib H. simpl in H.
  repeat (destruct H as [<-|H]; [vm_compute; discriminate|]).
  contradiction.
Qed.

Lemma ample_room_reaches_target_witness :
  well_formed three_libraries
  /\ (forall lib, In lib (Library_objects three_libraries) ->
        Z.of_nat (List.length
                    (_candidate_book_ids (nlibs_of three_libraries)
                       three_libraries))
        <= l_capacity lib - used_capacity three_libraries (l_id lib))
  /\ rebalance ascending_difference
       (new_CapacityAwareRedistributionManager false) three_libraries
     = Ok (three_libraries_plan,
           CapacityAwareRedistributionManager false [(1, 5); (2, 9); (3, 9)],
           three_libraries_after)
  /\ forall book,
       coverage three_libraries book
       + Z.of_nat (List.length
                     (filter (fun m => book_id m =? book)
                        (moves three_libraries_plan)))
       = Z.min (nlibs_of three_libraries) (total three_libraries book).
Proof.
  split; [exact three_libraries_wf|]. split; [exact three_libraries_room|].
  split; [vm_compute; reflexivity|].
  exact (ample_room_reaches_target ascending_difference
           ascending_difference_NoDup ascending_difference_In
           false three_libraries three_libraries_plan
           (CapacityAwareRedistributionManager false [(1, 5); (2, 9); (3, 9)])
           three_libraries_after
           three_libraries_wf three_libraries_room eq_refl).
Defined.

Lemma full_recipient_short :
  coverage full_recipient 7
  + Z.of_nat (List.length
                (filter (fun m => book_id m =? 7) (moves (mkPlan [] 0 2))))
  < Z.min (nlibs_of full_recipient) (total full_recipient 7)
  /\ In 2 (recipient_domain (new_CapacityAwareRedistributionManager true)
             full_recipient)
  /\ ~ In 2 (covering (holdings_of full_recipient 7))
  /\ ~ In 2 (map to_library_id
               (filter (fun m => book_id m =? 7) (moves (mkPlan [] 0 2)))).
Proof.
  split; [vm_compute; reflexivity|]. split; [vm_compute; tauto|].
  split; [vm_compute; intuition discriminate|intros []].
Qed.

Lemma short_only_without_room_witness :
  well_formed full_recipient
  /\ is_capacity_aware (new_CapacityAwareRedistributionManager true) = true
  /\ rebalance ascending_difference
       (new_CapacityAwareRedistributionManager true) full_recipient
     = Ok (mkPlan [] 0 2,
           CapacityAwareRedistributionManager true [(1, 8); (2, 0)],
           full_recipient)
  /\ coverage full_recipient 7
     + Z.of_nat (List.length
                   (filter (fun m => book_id m =? 7) (moves (mkPlan [] 0 2))))
     < Z.min (nlibs_of full_recipient) (total full_recipient 7)
  /\ In 2 (recipient_domain (new_CapacityAwareRedistributionManager true)
             full_recipient)
  /\ ~ In 2 (covering (holdings_of full_recipient 7))
  /\ ~ In 2 (map to_library_id
               (filter (fun m => book_id m =? 7) (moves (mkPlan [] 0 2))))
  /\ tracked (CapacityAwareRedistributionManager true [(1, 8); (2, 0)])
       full_recipient 2 <= 0.
Proof.
  destruct full_recipient_short as (H1 & H2 & H3 & H4).
  split; [exact full_recipient_wf|]. split; [reflexivity|].
  split; [vm_compute; reflexivity|].
  split; [exact H1|]. split; [exact H2|]. split; [exact H3|].
  split; [exact H4|].
  exact (short_only_without_room ascending_difference
           ascending_difference_NoDup ascending_difference_In
           (new_CapacityAwareRedistributionManager true) full_recipient
           (mkPlan [] 0 2)
           (CapacityAwareRedistributionManager true [(1, 8); (2, 0)])
           full_recipient full_recipient_wf eq_refl eq_refl 7 2 H1 H2 H3 H4).
Defined.

Lemma other_priority_order_witness :
  String.eqb "id" "author_first" = false
  /\ String.eqb "id" "year_desc" = false
  /\ book_order (PriorityRedistributionManager true [] "id" [])
       two_books_one_slot = Ok [7; 8]
  /\ Permutation [7; 8]
       (_candidate_book_ids (nlibs_of two_books_one_slot) two_books_one_slot)
  /\ StronglySorted Z.le [7; 8].
Proof.
  split; [reflexivity|]. split; [reflexivity|].
  split; [vm_compute; reflexivity|].
  exact (other_priority_order true [] "id" [] two_books_one_slot [7; 8]
           eq_refl eq_refl eq_refl).
Defined.

Lemma three_copies_out :
  Forall (fun m => 0 <= quantity m) [mkMove 7 1 2 3]
  /\ (forall m, In m [mkMove 7 1 2 3] ->
        In (move_source m) (keys_of (LibraryBook_objects three_libraries)))
  /\ (forall k, moved (fun m => key_eqb k (move_source m)) [mkMove 7 1 2 3]
                <= holding three_libraries k)
  /\ (forall m, In m [mkMove 7 1 2 3] ->
        In (to_library_id m) (map l_id (Library_objects three_libraries))).
Proof.
  split; [constructor; [simpl; lia|constructor]|].
  split; [intros m [<-|[]]; simpl; auto|].
  split; [|intros m [<-|[]]; simpl; auto].
  intros k. rewrite moved_cons. simpl.
  unfold holding, three_libraries. simpl LibraryBook_objects.
  rewrite held_cons. unfold move_source, lb_key. simpl.
  change (held (key_eqb k) []) with 0.
  destruct (key_eqb k (1, 7)); lia.
Qed.

Lemma transfers_conserve_witness :
  well_formed three_libraries
  /\ Forall (fun m => 0 <= quantity m) [mkMove 7 1 2 3]
  /\ (forall m, In m [mkMove 7 1 2 3] ->
        In (move_source m) (keys_of (LibraryBook_objects three_libraries)))
  /\ (forall k, moved (fun m => key_eqb k (move_source m)) [mkMove 7 1 2 3]
                <= holding three_libraries k)
  /\ (forall m, In m [mkMove 7 1 2 3] ->
        In (to_library_id m) (map l_id (Library_objects three_libraries)))
  /\ exists applied,
       _apply_plan [mkMove 7 1 2 3] three_libraries = Ok applied
       /\ well_formed applied
       /\ (forall book, total applied book = total three_libraries book)
       /\ (forall k,
             holding applied k
             = holding three_libraries k
               + moved (fun m => key_eqb k (move_target m))
                   [mkMove 7 1 2 3]
               - moved (fun m => key_eqb k (move_source m))
                   [mkMove 7 1 2 3]).
Proof.
  destruct three_copies_out as (H1 & H2 & H3 & H4).
  split; [exact three_libraries_wf|].
  split; [exact H1|]. split; [exact H2|]. split; [exact H3|].
  split; [exact H4|].
  exact (transfers_conserve three_libraries [mkMove 7 1 2 3]
           three_libraries_wf H1 H2 H3 H4).
Defined.

Lemma move_from_missing_holding_witness :
  well_formed three_libraries
  /\ 0 <= quantity (mkMove 7 3 2 4)
  /\ ~ In (move_source (mkMove 7 3 2 4))
         (keys_of (LibraryBook_objects three_libraries))
  /\ In (to_library_id (mkMove 7 3 2 4))
       (map l_id (Library_objects three_libraries))
  /\ In (book_id (mkMove 7 3 2 4)) (map b_id (Book_objects three_libraries))
  /\ from_library_id (mkMove 7 3 2 4) <> to_library_id (mkMove 7 3 2 4)
  /\ exists applied,
       _apply_plan [mkMove 7 3 2 4] three_libraries = Ok applied
       /\ total applied (book_id (mkMove 7 3 2 4))
          = total three_libraries (book_id (mkMove 7 3 2 4))
            + quantity (mkMove 7 3 2 4).
Proof.
  assert (H1 : 0 <= quantity (mkMove 7 3 2 4)) by (simpl; lia).
  assert (H2 : ~ In (move_source (mkMove 7 3 2 4))
                 (keys_of (LibraryBook_objects three_libraries)))
    by (simpl; intros [E|[]]; discriminate).
  assert (H3 : In (to_library_id (mkMove 7 3 2 4))
                 (map l_id (Library_objects three_libraries)))
    by (simpl; auto).
  assert (H4 : In (book_id (mkMove 7 3 2 4))
                 (map b_id (Book_objects three_libraries)))
    by (simpl; auto).
  assert (H5 : from_library_id (mkMove 7 3 2 4)
               <> to_library_id (mkMove 7 3 2 4))
    by (simpl; discriminate).
  split; [exact three_libraries_wf|].
  split; [exact H1|]. split; [exact H2|]. split; [exact H3|].
  split; [exact H4|]. split; [exact H5|].
  exact (move_from_missing_holding three_libraries (mkMove 7 3 2 4)
           three_libraries_wf H1 H2 H3 H4 H5).
Defined.

Lemma run_returns_witness :
  well_formed two_donors
  /\ known_libraries two_donors
       (CapacityAwareRedistributionManager false [(1, 9); (3, 0)])
  /\ exists plan self' db',
       rebalance ascending_difference
         (CapacityAwareRedistributionManager false [(1, 9); (3, 0)])
         two_donors
       = Ok (plan, self', db')
       /\ well_formed db'
       /\ Library_objects db' = Library_objects two_donors
       /\ known_libraries db' self'.
Proof.
  assert (Hknown : known_libraries two_donors
                     (CapacityAwareRedistributionManager false
                        [(1, 9); (3, 0)])).
  { intros l Hl. simpl in Hl. simpl. intuition. }
  split; [exact two_donors_wf|]. split; [exact Hknown|].
  exact (run_returns ascending_difference
           ascending_difference_NoDup ascending_difference_In
           (CapacityAwareRedistributionManager false [(1, 9); (3, 0)])
           two_donors two_donors_wf Hknown).
Defined.
